(** * Resume ingestion pipeline: parse, standardize, store

    A shallow embedding of the three stage functions of [main.py]
    ([process_uploaded_files], [standardize_resumes], [upload_to_mongodb]),
    of the session state, staging directories and collaborator calls they
    touch, and of the upload page around them: the tracking of the upload
    list, the three buttons, the status panel and the preview.

    Conventions of the embedding.
    - A Python [str] is a [string] whose characters are read as code points
      below 256.  The one other string of the development, the lone surrogate
      of [Surrogate.lone_surrogate], is written as the three bytes that
      [str.encode("utf-8", "surrogatepass")] gives it.
    - A path is a staging directory together with a final path component.
      Upload names are taken to be single path components, which is what the
      upload widget supplies.
    - A [json.dump] that completes, followed by [json.load] on the same
      file, is the identity: the file holds the JSON value itself.  A
      [json.dump] that raises leaves in the file what it had written by then:
      [open(p, "w")] creates or truncates the file before anything is
      written to it.
    - Every exception of the model is a subclass of Python's [Exception].
    - Opening a directory raises; faults of the operating system (a full
      disk, a missing permission, a name that is too long) are not modelled,
      and [f.write] of a string or of the bytes of an upload does not raise.
    - The log of a state records what the interface is told ([st.write],
      [st.warning], [st.error], the status line and the progress bar) and
      which collaborator methods are called; the placeholders created by
      [st.progress(0)] and [st.empty()] leave no entry.
    - The three imported classes ([ResumeParser], [ResumeStandardizer],
      [ResumeDBManager]), the clock, [json.loads] and [json.dump] are
      interfaces; their calls thread an external world of type [W]. *)

From stdpp Require Import gmap strings list fin_maps sorting.
From Stdlib Require Import Ascii String.

#[local] Set Warnings "-register-all".
#[local] Open Scope string_scope.

(** ** Python values *)

(** Values that [json.load] / [json.loads] produce and [json.dump] accepts.
    Floats are not modelled; no code path inspects a number. *)
Inductive json : Type :=
| JNull
| JBool (b : bool)
| JNum (n : Z)
| JStr (s : string)
| JArr (l : list json)
| JObj (m : gmap string json).

(** Truth value of [if v:]. *)
Definition truthy (v : json) : bool :=
  match v with
  | JNull => false
  | JBool b => b
  | JNum n => negb (n =? 0)%Z
  | JStr s => negb (String.eqb s EmptyString)
  | JArr l => match l with [] => false | _ => true end
  | JObj m => negb (bool_decide (size m = 0))
  end.

Inductive exn_class : Type :=
| ValueError
| JSONDecodeError       (* subclass of ValueError *)
| UnicodeEncodeError    (* subclass of ValueError *)
| TypeError
| AttributeError
| FileNotFoundError
| IsADirectoryError
| OtherException.

Record exn : Type := Exn { exn_cls : exn_class; exn_msg : string }.

(** [isinstance(e, ValueError)] *)
Definition is_ValueError (e : exn) : bool :=
  match exn_cls e with
  | ValueError | JSONDecodeError | UnicodeEncodeError => true
  | _ => false
  end.

Inductive result (A : Type) : Type :=
| Ok (a : A)
| Err (e : exn).
Arguments Ok {A} a.
Arguments Err {A} e.

(** [d[k] = v] *)
Definition setitem (d : json) (k : string) (v : json) : result json :=
  match d with
  | JObj m => Ok (JObj (<[k := v]> m))
  | _ => Err (Exn TypeError "object does not support item assignment")
  end.

(** [d.get(k, default)] *)
Definition dict_get (d : json) (k : string) (default : json) : result json :=
  match d with
  | JObj m => Ok (match m !! k with Some v => v | None => default end)
  | _ => Err (Exn AttributeError "object has no attribute 'get'")
  end.

(** [k in d], for [d] already known to answer [.get] *)
Definition dict_contains (d : json) (k : string) : bool :=
  match d with
  | JObj m => bool_decide (is_Some (m !! k))
  | _ => false
  end.

(** [d[k]] *)
Definition getitem (d : json) (k : string) : result json :=
  match d with
  | JObj m => match m !! k with
              | Some v => Ok v
              | None => Err (Exn OtherException "KeyError")
              end
  | _ => Err (Exn TypeError "object is not subscriptable")
  end.

(** ** Strings: [str.strip], [str.lower], [Path.suffix], [Path.stem] *)

(** [str.isspace] on one character, for code points below 256. *)
Definition is_space (a : ascii) : bool :=
  let n := nat_of_ascii a in
  (((9 <=? n) && (n <=? 13)) || ((28 <=? n) && (n <=? 32))
   || (n =? 133) || (n =? 160))%nat.

Fixpoint lstrip (s : string) : string :=
  match s with
  | EmptyString => EmptyString
  | String a s' => if is_space a then lstrip s' else s
  end.

Fixpoint rstrip (s : string) : string :=
  match s with
  | EmptyString => EmptyString
  | String a s' =>
      match rstrip s' with
      | EmptyString => if is_space a then EmptyString else String a EmptyString
      | r => String a r
      end
  end.

(** [s.strip()] *)
Definition py_strip (s : string) : string := rstrip (lstrip s).

Fixpoint all_space (s : string) : bool :=
  match s with
  | EmptyString => true
  | String a s' => is_space a && all_space s'
  end.

Definition lower_char (a : ascii) : ascii :=
  let n := nat_of_ascii a in
  if (((65 <=? n) && (n <=? 90))
      || ((192 <=? n) && (n <=? 222) && negb (n =? 215)))%nat
  then ascii_of_nat (n + 32) else a.

(** [s.lower()] *)
Fixpoint py_lower (s : string) : string :=
  match s with
  | EmptyString => EmptyString
  | String a s' => String (lower_char a) (py_lower s')
  end.

(** [name.rfind('.')], scanning from index [i] with [acc] the last hit. *)
Fixpoint rfind_dot_from (s : string) (i : nat) (acc : option nat) : option nat :=
  match s with
  | EmptyString => acc
  | String a s' =>
      rfind_dot_from s' (S i) (if Ascii.eqb a "." then Some i else acc)
  end.

Definition rfind_dot (name : string) : option nat := rfind_dot_from name 0 None.

(** The index at which pathlib splits stem and suffix:
    [i = name.rfind('.')] when [0 < i < len(name) - 1]. *)
Definition suffix_index (name : string) : option nat :=
  match rfind_dot name with
  | Some i => if ((0 <? i) && (S i <? String.length name))%nat then Some i else None
  | None => None
  end.

(** [Path(name).suffix] *)
Definition path_suffix (name : string) : string :=
  match suffix_index name with
  | Some i => substring i (String.length name - i) name
  | None => EmptyString
  end.

(** [Path(name).stem] *)
Definition path_stem (name : string) : string :=
  match suffix_index name with
  | Some i => substring 0 i name
  | None => name
  end.

(** ** Paths and the staging area *)

(** [temp_dir], [parsed_dir] and [standardized_dir] of lines 47-49. *)
Inductive directory : Type := TempDir | ParsedDir | StandardizedDir.

Record path : Type := Path { path_dir : directory; path_name : string }.

#[global] Instance directory_eq_dec : EqDecision directory.
Proof. solve_decision. Defined.

#[global] Instance path_eq_dec : EqDecision path.
Proof. solve_decision. Defined.

Definition directory_code (d : directory) : nat :=
  match d with TempDir => 0 | ParsedDir => 1 | StandardizedDir => 2 end.

Definition directory_of_code (n : nat) : directory :=
  match n with 0 => TempDir | 1 => ParsedDir | _ => StandardizedDir end.

#[global] Instance directory_countable : Countable directory.
Proof.
  apply (inj_countable' directory_code directory_of_code).
  intros []; reflexivity.
Defined.

#[global] Instance path_countable : Countable path.
Proof.
  apply (inj_countable' (fun p => (path_dir p, path_name p))
                        (fun dn => Path (fst dn) (snd dn))).
  intros []; reflexivity.
Defined.

(** [os.path.join(temp_dir, file_name)] *)
Definition temp_path (file_name : string) : path := Path TempDir file_name.

(** [parsed_dir / f"{Path(file_name).stem}.json"] *)
Definition parsed_path (file_name : string) : path :=
  Path ParsedDir (path_stem file_name ++ ".json").

(** [standardized_dir / file_path.name] *)
Definition standardized_path (file_path : path) : path :=
  Path StandardizedDir (path_name file_path).

(** [standardized_dir / f"{file_path.stem}_raw.md"] *)
Definition raw_log_path (file_path : path) : path :=
  Path StandardizedDir (path_stem (path_name file_path) ++ "_raw.md").

Definition directory_str (tmp : string) (d : directory) : string :=
  match d with
  | TempDir => tmp ++ "/resume_processor"
  | ParsedDir => tmp ++ "/resume_processor/parsed"
  | StandardizedDir => tmp ++ "/resume_processor/standardized"
  end.

(** [str(p)], with [tmp] the value of [tempfile.gettempdir()]. *)
Definition path_str (tmp : string) (p : path) : string :=
  directory_str tmp (path_dir p) ++ "/" ++ path_name p.

(** Paths that name a directory: the directory itself, its parent, and under
    [temp_dir] the two staging directories created at lines 51-52. *)
Definition is_directory (p : path) : bool :=
  bool_decide (path_name p ∈ [EmptyString; "."; ".."])
  || match path_dir p with
     | TempDir => bool_decide (path_name p ∈ ["parsed"; "standardized"])
     | _ => false
     end.

(** What a regular file holds: the value written by [json.dump], or the text
    or bytes written by [f.write]. *)
Inductive file : Type :=
| FJson (v : json)
| FRaw (s : string).

(** ** Events: what the user interface shows and which collaborator methods
    are invoked *)

Inductive event : Type :=
(* parse stage *)
| WriteProcessing (n : nat)                           (* line 61 *)
| StatusProcessing (i total : nat) (file_name : string)  (* line 72 *)
| WarnSkipping (file_name file_ext : string)          (* line 82 *)
| CallParseResume (temp_file_path : path)             (* line 86 *)
| WarnNoContent (file_name : string)                  (* line 98 *)
| ErrorParsing (file_name : string) (e : exn)         (* line 100 *)
| StatusProcessed (count total : nat)                 (* line 104 *)
(* standardize stage *)
| WriteStandardizing (n : nat)                        (* line 113 *)
| ErrorInitStandardizer (e : exn)                     (* line 122 *)
| StatusStandardizing (i total : nat) (name : string) (* line 132 *)
| WarnEmptyContent (name : string)                    (* line 151 *)
| CallMakePrompt (file_path : path)                   (* line 154 *)
| CallAzureLLM (file_path : path) (prompt : string)   (* line 155 *)
| ErrorStandardizing (name : string) (e : exn)        (* line 177 *)
| StatusStandardized (count total : nat)              (* line 182 *)
(* store stage *)
| ErrorConnecting (e : exn)                           (* line 196 *)
| StatusUploading (i total : nat) (name : string)     (* line 203 *)
| CallInsertOrUpdate (name : string) (resume_data : json)  (* line 210 *)
| ErrorUploading (name : string) (e : exn)            (* line 214 *)
| StatusUploaded (count total : nat)                  (* line 219 *)
(* progress bar, all stages *)
| Progress (done total : nat).

(** ** Collaborators *)

(** How [json.dump(v, f, indent=2, ensure_ascii=False)] ends on a file that
    was opened for writing: the whole serialisation is written, or an
    exception is raised once [written], the beginning of the serialisation,
    has reached the file.  A string that UTF-8 cannot encode, such as the
    lone surrogate [json.loads] makes of the escape [\ud83d], raises
    [UnicodeEncodeError] in this way. *)
Inductive dump_result : Type :=
| Dumped
| DumpRaised (e : exn) (written : string).

(** Python runtime services the stages call. *)
Class Runtime (W : Type) := {
  gettempdir : string;                          (* tempfile.gettempdir() *)
  now_isoformat : W -> string * W;              (* datetime.now().isoformat() *)
  json_loads : string -> option json;           (* json.loads; None: JSONDecodeError *)
  json_dump : json -> dump_result               (* json.dump into an open file *)
}.

(** [llama_resume_parser.ResumeParser] *)
Class ResumeParser (W : Type) := {
  parser : Type;
  new_parser : W -> result parser * W;
  SUPPORTED_EXTENSIONS : list string;
  parse_resume : parser -> path -> gmap path file -> W -> result json * W
}.

(** [standardizer.ResumeStandardizer] *)
Class ResumeStandardizer (W : Type) := {
  standardizer : Type;
  new_standardizer : W -> result standardizer * W;
  make_standardizer_prompt : standardizer -> string -> json -> result string;
  call_azure_llm : standardizer -> string -> W -> result string * W;
  clean_llm_response : standardizer -> string -> result string
}.

(** [db_manager.ResumeDBManager] *)
Class ResumeDBManager (W : Type) := {
  db_manager : Type;
  new_db_manager : W -> result db_manager * W;
  insert_or_update_resume : db_manager -> json -> W -> result unit * W
}.

(** An entry of the upload widget: [.name] and [.getbuffer()]. *)
Record uploaded_file : Type := Upload { upload_name : string; upload_buffer : string }.

(** ** State *)

Record state (W : Type) : Type := State {
  (* st.session_state *)
  processing_complete : bool;
  standardizing_complete : bool;
  db_upload_complete : bool;
  processed_files : list path;
  standardized_files : list path;
  uploaded_files : list string;
  (* regular files under the staging directories *)
  fs : gmap path file;
  (* interface output and collaborator calls, oldest first *)
  log : list event;
  (* everything outside the process *)
  world : W
}.
Arguments State {W}.
Arguments processing_complete {W}.
Arguments standardizing_complete {W}.
Arguments db_upload_complete {W}.
Arguments processed_files {W}.
Arguments standardized_files {W}.
Arguments uploaded_files {W}.
Arguments fs {W}.
Arguments log {W}.
Arguments world {W}.

(** The session as lines 33-44 initialise it, over an empty staging area. *)
Definition initial_state {W} (w : W) : state W :=
  State false false false [] [] [] ∅ [] w.

(** ** A state-and-exception monad for the stage functions *)

(** How a Python call ends: it returns a value, or an exception propagates
    out of it.  The state reached so far is kept in both cases. *)
Inductive outcome (W A : Type) : Type :=
| Returned (a : A) (s : state W)
| Raised (e : exn) (s : state W).
Arguments Returned {W A} a s.
Arguments Raised {W A} e s.

Definition outcome_state {W A} (o : outcome W A) : state W :=
  match o with Returned _ s => s | Raised _ s => s end.

Definition M (W A : Type) : Type := state W -> outcome W A.

Definition ret {W A} (a : A) : M W A := fun s => Returned a s.

Definition bind {W A B} (m : M W A) (k : A -> M W B) : M W B :=
  fun s => match m s with
           | Returned a s' => k a s'
           | Raised e s' => Raised e s'
           end.

Declare Scope stage_scope.
Delimit Scope stage_scope with stage.
Notation "x <- m ;; k" := (bind m (fun x => k))
  (at level 100, m at next level, right associativity) : stage_scope.
Notation "m ;; k" := (bind m (fun _ => k))
  (at level 100, right associativity) : stage_scope.
#[local] Open Scope stage_scope.

(** [raise e] *)
Definition raise {W A} (e : exn) : M W A := fun s => Raised e s.

Definition lift {W A} (r : result A) : M W A :=
  match r with Ok a => ret a | Err e => raise e end.

(** [try: body  except Exception as e: handler(e)] *)
Definition try_except {W A} (body : M W A) (handler : exn -> M W A) : M W A :=
  fun s => match body s with
           | Returned a s' => Returned a s'
           | Raised e s' => handler e s'
           end.

(** [for i, x in enumerate(l): c = body(i, x, c)], with [c] the loop's local
    counter. *)
Fixpoint for_enumerate {W A C} (body : nat -> A -> C -> M W C)
    (l : list A) (i : nat) (c : C) : M W C :=
  match l with
  | [] => ret c
  | x :: l' => c' <- body i x c ;; for_enumerate body l' (S i) c'
  end.

(** Assignments to the fields of the state. *)
Definition with_processing_complete {W} (b : bool) (s : state W) : state W :=
  State b (standardizing_complete s) (db_upload_complete s)
    (processed_files s) (standardized_files s) (uploaded_files s)
    (fs s) (log s) (world s).

Definition with_standardizing_complete {W} (b : bool) (s : state W) : state W :=
  State (processing_complete s) b (db_upload_complete s)
    (processed_files s) (standardized_files s) (uploaded_files s)
    (fs s) (log s) (world s).

Definition with_db_upload_complete {W} (b : bool) (s : state W) : state W :=
  State (processing_complete s) (standardizing_complete s) b
    (processed_files s) (standardized_files s) (uploaded_files s)
    (fs s) (log s) (world s).

Definition with_processed_files {W} (l : list path) (s : state W) : state W :=
  State (processing_complete s) (standardizing_complete s)
    (db_upload_complete s) l (standardized_files s) (uploaded_files s)
    (fs s) (log s) (world s).

Definition with_standardized_files {W} (l : list path) (s : state W) : state W :=
  State (processing_complete s) (standardizing_complete s)
    (db_upload_complete s) (processed_files s) l (uploaded_files s)
    (fs s) (log s) (world s).

Definition with_uploaded_files {W} (l : list string) (s : state W) : state W :=
  State (processing_complete s) (standardizing_complete s)
    (db_upload_complete s) (processed_files s) (standardized_files s) l
    (fs s) (log s) (world s).

Definition with_fs {W} (m : gmap path file) (s : state W) : state W :=
  State (processing_complete s) (standardizing_complete s)
    (db_upload_complete s) (processed_files s) (standardized_files s)
    (uploaded_files s) m (log s) (world s).

Definition with_log {W} (l : list event) (s : state W) : state W :=
  State (processing_complete s) (standardizing_complete s)
    (db_upload_complete s) (processed_files s) (standardized_files s)
    (uploaded_files s) (fs s) l (world s).

Definition with_world {W} (w : W) (s : state W) : state W :=
  State (processing_complete s) (standardizing_complete s)
    (db_upload_complete s) (processed_files s) (standardized_files s)
    (uploaded_files s) (fs s) (log s) w.

Definition modify {W} (f : state W -> state W) : M W unit :=
  fun s => Returned tt (f s).

Definition set_processing_complete {W} (b : bool) : M W unit :=
  modify (with_processing_complete b).
Definition set_standardizing_complete {W} (b : bool) : M W unit :=
  modify (with_standardizing_complete b).
Definition set_db_upload_complete {W} (b : bool) : M W unit :=
  modify (with_db_upload_complete b).
Definition set_processed_files {W} (l : list path) : M W unit :=
  modify (with_processed_files l).
Definition set_standardized_files {W} (l : list path) : M W unit :=
  modify (with_standardized_files l).
Definition set_uploaded_files {W} (l : list string) : M W unit :=
  modify (with_uploaded_files l).
Definition set_fs {W} (m : gmap path file) : M W unit := modify (with_fs m).
Definition set_log {W} (l : list event) : M W unit := modify (with_log l).
Definition set_world {W} (w : W) : M W unit := modify (with_world w).

Definition gets {W A} (f : state W -> A) : M W A := fun s => Returned (f s) s.

(** One more line of interface output, or one more collaborator call. *)
Definition emit {W} (e : event) : M W unit :=
  l <- gets log ;; set_log (l ++ [e]).

(** [st.session_state.processed_files.append(p)] and its two siblings *)
Definition append_processed {W} (p : path) : M W unit :=
  l <- gets processed_files ;; set_processed_files (l ++ [p]).

Definition append_standardized {W} (p : path) : M W unit :=
  l <- gets standardized_files ;; set_standardized_files (l ++ [p]).

Definition append_uploaded {W} (n : string) : M W unit :=
  l <- gets uploaded_files ;; set_uploaded_files (l ++ [n]).

(** A call that reaches outside the process. *)
Definition call {W A} (f : W -> result A * W) : M W A :=
  w <- gets world ;;
  let '(r, w') := f w in
  set_world w' ;; lift r.

(** [open(p, "w")] and [open(p, "wb")]: the file is created, or truncated
    when it exists; opening a directory for writing raises. *)
Definition open_w {W} (p : path) : M W unit :=
  if is_directory p then raise (Exn IsADirectoryError "Is a directory")
  else m <- gets fs ;; set_fs (<[p := FRaw EmptyString]> m).

(** [f.write(text)] on the file opened at [p], up to the end of its [with]
    block. *)
Definition f_write {W} (p : path) (text : string) : M W unit :=
  m <- gets fs ;; set_fs (<[p := FRaw text]> m).

(** [json.dump(v, f, indent=2, ensure_ascii=False)] on the file opened at
    [p], up to the end of its [with] block: when the dump raises, the file
    is closed with what was written and the exception goes on. *)
Definition f_dump {W} `{Runtime W} (p : path) (v : json) : M W unit :=
  m <- gets fs ;;
  match json_dump v with
  | Dumped => set_fs (<[p := FJson v]> m)
  | DumpRaised e written => set_fs (<[p := FRaw written]> m) ;; raise e
  end.

(** [p.exists()] *)
Definition path_exists {W} (p : path) : M W bool :=
  m <- gets fs ;; ret (is_directory p || bool_decide (is_Some (m !! p))).

(** [with open(p, encoding="utf-8") as f: json.load(f)] *)
Definition read_json {W} `{Runtime W} (p : path) : M W json :=
  if is_directory p then raise (Exn IsADirectoryError "Is a directory")
  else
    m <- gets fs ;;
    match m !! p with
    | None => raise (Exn FileNotFoundError "No such file or directory")
    | Some (FJson v) => ret v
    | Some (FRaw t) =>
        match json_loads t with
        | Some v => ret v
        | None => raise (Exn JSONDecodeError "Expecting value")
        end
    end.

(** [content.strip()] on a value read from a parsed record *)
Definition value_strip (content : json) : result string :=
  match content with
  | JStr s => Ok (py_strip s)
  | _ => Err (Exn AttributeError "object has no attribute 'strip'")
  end.

(** [json.loads(cleaned_json)] *)
Definition loads {W} `{Runtime W} (cleaned_json : string) : result json :=
  match json_loads cleaned_json with
  | Some v => Ok v
  | None => Err (Exn JSONDecodeError "Expecting value")
  end.

(** How the body of a [try] inside a loop hands control back: it falls
    through to the statements after the [try], or it ran [continue]. *)
Inductive flow : Type := Fallthrough | Continue.

(** ** The three stages *)

Section Stages.
Context {W : Type} {RT : Runtime W} {RP : ResumeParser W}
        {RS : ResumeStandardizer W} {DB : ResumeDBManager W}.

(** *** Stage 1: [process_uploaded_files], lines 54-105 *)

(** Lines 85-100: the [try] statement of one iteration. *)
Definition parse_try (p : parser) (file_name : string) (temp_file_path : path)
    (processed_count : nat) : M W nat :=
  try_except
    (emit (CallParseResume temp_file_path) ;;
     files <- gets fs ;;
     parsed_resume <- call (parse_resume p temp_file_path files) ;;
     if truthy parsed_resume then
       ts <- call (fun w => let '(t, w') := now_isoformat w in (Ok t, w')) ;;
       d1 <- lift (setitem parsed_resume "timestamp" (JStr ts)) ;;
       d2 <- lift (setitem d1 "original_filename" (JStr file_name)) ;;
       let output_path := parsed_path file_name in
       open_w output_path ;;
       f_dump output_path d2 ;;
       append_processed output_path ;;
       ret (processed_count + 1)
     else
       emit (WarnNoContent file_name) ;;
       ret processed_count)
    (fun e => emit (ErrorParsing file_name e) ;; ret processed_count).

(** Lines 71-102: one iteration of the loop. *)
Definition parse_item (total_files : nat) (i : nat) (f : uploaded_file)
    (processed_count : nat) : M W nat :=
  let file_name := upload_name f in
  emit (StatusProcessing (i + 1) total_files file_name) ;;
  let temp_file_path := temp_path file_name in
  open_w temp_file_path ;;
  f_write temp_file_path (upload_buffer f) ;;
  let file_ext := py_lower (path_suffix file_name) in
  p <- call new_parser ;;
  if bool_decide (file_ext ∉ SUPPORTED_EXTENSIONS) then
    emit (WarnSkipping file_name file_ext) ;;
    ret processed_count                                   (* continue *)
  else
    c <- parse_try p file_name temp_file_path processed_count ;;
    emit (Progress (i + 1) total_files) ;;
    ret c.

Definition process_uploaded_files (files : list uploaded_file) : M W unit :=
  set_processing_complete false ;;
  set_standardizing_complete false ;;
  set_db_upload_complete false ;;
  set_processed_files [] ;;
  emit (WriteProcessing (List.length files)) ;;
  let total_files := List.length files in
  processed_count <- for_enumerate (parse_item total_files) files 0 0 ;;
  emit (StatusProcessed processed_count total_files) ;;
  set_processing_complete true.

(** *** Stage 2: [standardize_resumes], lines 107-183 *)

(** Lines 144-175: the body of the [try] of one iteration. *)
Definition standardize_body (sz : standardizer) (file_path output_path : path)
    (standardized_count : nat) : M W (flow * nat) :=
  raw <- read_json file_path ;;
  content <- lift (dict_get raw "content" (JStr EmptyString)) ;;
  links <- lift (dict_get raw "links" (JArr [])) ;;
  stripped <- lift (value_strip content) ;;
  if String.eqb stripped EmptyString then
    emit (WarnEmptyContent (path_name file_path)) ;;
    ret (Continue, standardized_count)
  else
    emit (CallMakePrompt file_path) ;;
    prompt <- lift (make_standardizer_prompt sz
                      (match content with JStr s => s | _ => EmptyString end) links) ;;
    emit (CallAzureLLM file_path prompt) ;;
    raw_response <- call (call_azure_llm sz prompt) ;;
    open_w (raw_log_path file_path) ;;
    f_write (raw_log_path file_path) raw_response ;;
    cleaned_json <- lift (clean_llm_response sz raw_response) ;;
    parsed_json <- lift (loads cleaned_json) ;;
    ts <- call (fun w => let '(t, w') := now_isoformat w in (Ok t, w')) ;;
    d1 <- lift (setitem parsed_json "timestamp" (JStr ts)) ;;
    d2 <- lift (setitem d1 "source_file" (JStr (path_str gettempdir file_path))) ;;
    d3 <- (if dict_contains raw "original_filename" then
             v <- lift (getitem raw "original_filename") ;;
             lift (setitem d2 "original_filename" v)
           else ret d2) ;;
    open_w output_path ;;
    f_dump output_path d3 ;;
    append_standardized output_path ;;
    ret (Fallthrough, standardized_count + 1).

(** Lines 132-180: one iteration of the loop. *)
Definition standardize_item (sz : standardizer) (total_files : nat) (i : nat)
    (file_path : path) (standardized_count : nat) : M W nat :=
  emit (StatusStandardizing (i + 1) total_files (path_name file_path)) ;;
  let output_path := standardized_path file_path in
  present <- path_exists output_path ;;
  if present then
    append_standardized output_path ;;
    emit (Progress (i + 1) total_files) ;;
    ret (standardized_count + 1)                          (* continue *)
  else
    r <- try_except
           (standardize_body sz file_path output_path standardized_count)
           (fun e => emit (ErrorStandardizing (path_name file_path) e) ;;
                     ret (Fallthrough, standardized_count)) ;;
    match r with
    | (Continue, c) => ret c
    | (Fallthrough, c) => emit (Progress (i + 1) total_files) ;; ret c
    end.

Definition standardize_resumes : M W unit :=
  set_standardizing_complete false ;;
  set_standardized_files [] ;;
  n <- gets (fun s => List.length (processed_files s)) ;;
  emit (WriteStandardizing n) ;;
  r <- try_except (sz <- call new_standardizer ;; ret (Some sz))
         (fun e => if is_ValueError e
                   then emit (ErrorInitStandardizer e) ;; ret None
                   else raise e) ;;
  match r with
  | None => ret tt                                        (* return *)
  | Some sz =>
      files_to_standardize <- gets processed_files ;;
      let total_files := List.length files_to_standardize in
      standardized_count <-
        for_enumerate (standardize_item sz total_files) files_to_standardize 0 0 ;;
      emit (StatusStandardized standardized_count total_files) ;;
      set_standardizing_complete true
  end.

(** *** Stage 3: [upload_to_mongodb], lines 185-220 *)

(** Lines 203-217: one iteration of the loop. *)
Definition upload_item (db : db_manager) (total_files : nat) (i : nat)
    (file_path : path) (uploaded_count : nat) : M W nat :=
  emit (StatusUploading (i + 1) total_files (path_name file_path)) ;;
  c <- try_except
         (resume_data <- read_json file_path ;;
          emit (CallInsertOrUpdate (path_name file_path) resume_data) ;;
          call (insert_or_update_resume db resume_data) ;;
          append_uploaded (path_name file_path) ;;
          ret (uploaded_count + 1))
         (fun e => emit (ErrorUploading (path_name file_path) e) ;;
                   ret uploaded_count) ;;
  emit (Progress (i + 1) total_files) ;;
  ret c.

Definition upload_to_mongodb : M W unit :=
  set_db_upload_complete false ;;
  r <- try_except (db <- call new_db_manager ;; ret (Some db))
         (fun e => emit (ErrorConnecting e) ;; ret None) ;;
  match r with
  | None => ret tt                                        (* return *)
  | Some db =>
      files <- gets standardized_files ;;
      let total_files := List.length files in
      uploaded_count <- for_enumerate (upload_item db total_files) files 0 0 ;;
      emit (StatusUploaded uploaded_count total_files) ;;
      set_db_upload_complete true
  end.

End Stages.

(** ** Concrete collaborators, for running the stages *)

Module Demo.

(** The external world of the examples: the documents in the store. *)
Definition world : Type := list json.

(** [json.loads] on the texts the examples feed it. *)
Definition demo_loads (s : string) : option json :=
  if String.eqb s "{}" then Some (JObj ∅)
  else if String.eqb s "[]" then Some (JArr [])
  else None.

#[export] Instance runtime : Runtime world := {|
  gettempdir := "/tmp";
  now_isoformat w := ("2025-01-01T00:00:00", w);
  json_loads := demo_loads;
  json_dump _ := Dumped                 (* the examples hold ASCII text only *)
|}.

(** A parser that extracts the bytes of the file as its text, and nothing
    from an empty file. *)
#[export] Instance resume_parser : ResumeParser world := {|
  parser := unit;
  new_parser w := (Ok tt, w);
  SUPPORTED_EXTENSIONS := [".pdf"; ".docx"];
  parse_resume _ p files w :=
    match files !! p with
    | Some (FRaw EmptyString) => (Ok JNull, w)
    | Some (FRaw s) =>
        (Ok (JObj (<["content" := JStr s]> (<["links" := JArr []]> ∅))), w)
    | _ => (Err (Exn OtherException "cannot read"), w)
    end
|}.

(** A parser whose constructor fails. *)
Definition failing_parser : ResumeParser world := {|
  parser := unit;
  new_parser w := (Err (Exn ValueError "LLAMA_CLOUD_API_KEY is not set"), w);
  SUPPORTED_EXTENSIONS := [".pdf"; ".docx"];
  parse_resume _ _ _ w := (Err (Exn OtherException "unreachable"), w)
|}.

(** A model that answers the text [garbled] with an unbalanced brace and
    every other text with an empty object inside a code fence; cleaning
    drops the fence. *)
#[export] Instance resume_standardizer : ResumeStandardizer world := {|
  standardizer := unit;
  new_standardizer w := (Ok tt, w);
  make_standardizer_prompt _ content _ := Ok content;
  call_azure_llm _ prompt w :=
    (Ok (if String.eqb prompt "garbled" then "{" else "```json{}```"), w);
  clean_llm_response _ raw :=
    Ok (if String.eqb raw "```json{}```" then "{}" else raw)
|}.

(** A store that keeps every document it is given. *)
#[export] Instance resume_db : ResumeDBManager world := {|
  db_manager := unit;
  new_db_manager w := (Ok tt, w);
  insert_or_update_resume _ doc w := (Ok tt, (w ++ [doc])%list)
|}.

End Demo.

(** ** Observations on a run *)

(** Prompts sent to the model on behalf of the parsed record [p]. *)
Definition llm_prompt_for (p : path) (e : event) : option string :=
  match e with
  | CallAzureLLM q prompt => if decide (q = p) then Some prompt else None
  | _ => None
  end.

Definition llm_calls_for (p : path) (evs : list event) : list string :=
  omap (llm_prompt_for p) evs.

(** Prompts built on behalf of the parsed record [p]. *)
Definition prompt_built_for (p : path) (e : event) : option unit :=
  match e with
  | CallMakePrompt q => if decide (q = p) then Some tt else None
  | _ => None
  end.

Definition prompts_built_for (p : path) (evs : list event) : list unit :=
  omap (prompt_built_for p) evs.

(** Files handed to [parse_resume], in call order. *)
Definition parse_call (e : event) : option path :=
  match e with CallParseResume p => Some p | _ => None end.

Definition parse_calls (evs : list event) : list path := omap parse_call evs.

(** Per-item failure reports of each stage, by item name, in report order. *)
Definition parse_failure (e : event) : option string :=
  match e with
  | WarnSkipping n _ | WarnNoContent n | ErrorParsing n _ => Some n
  | _ => None
  end.

Definition standardize_failure (e : event) : option string :=
  match e with
  | WarnEmptyContent n | ErrorStandardizing n _ => Some n
  | _ => None
  end.

Definition upload_failure (e : event) : option string :=
  match e with ErrorUploading n _ => Some n | _ => None end.

Definition parse_failures (evs : list event) : list string := omap parse_failure evs.
Definition standardize_failures (evs : list event) : list string :=
  omap standardize_failure evs.
Definition upload_failures (evs : list event) : list string := omap upload_failure evs.

(** Items each loop iterated over, by the status line that opens an
    iteration. *)
Definition standardize_attempt (e : event) : option string :=
  match e with StatusStandardizing _ _ n => Some n | _ => None end.

Definition upload_attempt (e : event) : option string :=
  match e with StatusUploading _ _ n => Some n | _ => None end.

Definition standardize_attempts (evs : list event) : list string :=
  omap standardize_attempt evs.
Definition upload_attempts (evs : list event) : list string := omap upload_attempt evs.

(** The elements of [l] whose flag in [mask] is set. *)
Fixpoint select {A} (mask : list bool) (l : list A) : list A :=
  match mask, l with
  | b :: mask', x :: l' => if b then x :: select mask' l' else select mask' l'
  | _, _ => []
  end.

(** Line 81, read positively. *)
Definition supported {W} `{ResumeParser W} (f : uploaded_file) : bool :=
  bool_decide (py_lower (path_suffix (upload_name f)) ∈ SUPPORTED_EXTENSIONS).

(** The last character of a string. *)
Fixpoint last_char (s : string) : option ascii :=
  match s with
  | EmptyString => None
  | String a s' => match last_char s' with Some b => Some b | None => Some a end
  end.

(** Pressing a stage button [k] times in a row. *)
Fixpoint repeat_stage {W} (k : nat) (stage : M W unit) : M W unit :=
  match k with
  | 0 => ret tt
  | S k' => stage ;; repeat_stage k' stage
  end.

(** The three completion flags of the session are left as they were. *)
Definition same_flags {W} (s s' : state W) : Prop :=
  processing_complete s' = processing_complete s
  /\ standardizing_complete s' = standardizing_complete s
  /\ db_upload_complete s' = db_upload_complete s.

(** [d] is what lines 162-169 make of the raw response [raw_response] for the
    parsed record [file_path]: the response is cleaned, parsed as a JSON
    object, and stamped. *)
Definition standardized_from {W} `{Runtime W} `{ResumeStandardizer W}
    (sz : standardizer) (file_path : path) (raw_response : string) (d : json) : Prop :=
  exists cleaned m0 m ts,
    clean_llm_response sz raw_response = Ok cleaned
    /\ json_loads cleaned = Some (JObj m0)
    /\ d = JObj m
    /\ m !! "timestamp" = Some (JStr ts)
    /\ m !! "source_file" = Some (JStr (path_str gettempdir file_path))
    /\ forall k, k ∉ ["timestamp"; "source_file"; "original_filename"] ->
                 m !! k = m0 !! k.

(** What lines 166-169 make of the object [m0] that [json.loads] returned,
    for the parsed record [raw] at the path written [src]. *)
Definition stamp_record (ts src : string) (raw m0 : gmap string json)
    : gmap string json :=
  let d := <["source_file" := JStr src]> (<["timestamp" := JStr ts]> m0) in
  match raw !! "original_filename" with
  | Some v => <["original_filename" := v]> d
  | None => d
  end.

(** Whether line 137 finds the staged artifact. *)
Definition artifact_present {W} (s : state W) (out : path) : bool :=
  is_directory out || bool_decide (is_Some (fs s !! out)).

(** A path as the parse stage appends it to [processed_files]. *)
Definition parse_output (p : path) : Prop := exists file_name, p = parsed_path file_name.

(** The state in which the loop of [standardize_resumes] starts, once the
    standardizer has been built and left the world as [w]. *)
Definition standardize_loop_start {W} (s : state W) (w : W) : state W :=
  with_world w
    (with_log (log s ++ [WriteStandardizing (List.length (processed_files s))])%list
       (with_standardized_files [] (with_standardizing_complete false s))).

(** The state in which the loop of [process_uploaded_files] starts. *)
Definition parse_loop_start {W} (n : nat) (s : state W) : state W :=
  with_log (log s ++ [WriteProcessing n])%list
    (with_processed_files []
       (with_db_upload_complete false
          (with_standardizing_complete false (with_processing_complete false s)))).

(** The state in which the loop of [upload_to_mongodb] starts, once the
    store manager has been built and left the world as [w]. *)
Definition upload_loop_start {W} (s : state W) (w : W) : state W :=
  with_world w (with_db_upload_complete false s).

(** How a stage leaves its loop: the summary line, then the completion flag. *)
Definition parse_loop_end {W} (c n : nat) (s : state W) : state W :=
  with_processing_complete true (with_log (log s ++ [StatusProcessed c n])%list s).

Definition standardize_loop_end {W} (c n : nat) (s : state W) : state W :=
  with_standardizing_complete true
    (with_log (log s ++ [StatusStandardized c n])%list s).

Definition upload_loop_end {W} (c n : nat) (s : state W) : state W :=
  with_db_upload_complete true (with_log (log s ++ [StatusUploaded c n])%list s).

(** ** Progress of the three loops *)

#[local] Open Scope list_scope.

(** What a loop has achieved after visiting [visited], seen from the state
    [s0] in which it started: [mask] marks the visited items that were
    appended to the succeeded list, the others were reported as failed. *)
Definition parse_progress {W} `{ResumeParser W} (s0 : state W)
    (visited : list uploaded_file) (t : state W) : Prop :=
  same_flags s0 t
  /\ standardized_files t = standardized_files s0
  /\ uploaded_files t = uploaded_files s0
  /\ exists evs mask,
       log t = log s0 ++ evs
       /\ List.length mask = List.length visited
       /\ processed_files t
          = processed_files s0 ++ map (fun f => parsed_path (upload_name f)) (select mask visited)
       /\ parse_failures evs = map upload_name (select (negb <$> mask) visited)
       /\ parse_calls evs
          = map (fun f => temp_path (upload_name f)) (filter (fun f => supported f = true) visited)
       /\ (forall f, f ∈ select mask visited -> supported f = true)
       /\ (forall f, f ∈ visited -> supported f = false ->
             WarnSkipping (upload_name f) (py_lower (path_suffix (upload_name f))) ∈ evs).

Definition standardize_progress {W} (s0 : state W) (visited : list path)
    (t : state W) : Prop :=
  same_flags s0 t
  /\ processed_files t = processed_files s0
  /\ uploaded_files t = uploaded_files s0
  /\ exists evs mask,
       log t = log s0 ++ evs
       /\ List.length mask = List.length visited
       /\ standardized_files t
          = standardized_files s0 ++ map standardized_path (select mask visited)
       /\ standardize_failures evs = map path_name (select (negb <$> mask) visited)
       /\ standardize_attempts evs = map path_name visited.

Definition upload_progress {W} (s0 : state W) (visited : list path)
    (t : state W) : Prop :=
  same_flags s0 t
  /\ processed_files t = processed_files s0
  /\ standardized_files t = standardized_files s0
  /\ fs t = fs s0
  /\ exists evs mask,
       log t = log s0 ++ evs
       /\ List.length mask = List.length visited
       /\ uploaded_files t = uploaded_files s0 ++ map path_name (select mask visited)
       /\ upload_failures evs = map path_name (select (negb <$> mask) visited)
       /\ upload_attempts evs = map path_name visited.

(** The readable artifacts of a state: regular files that hold JSON. *)
Definition readable {W} (s : state W) (p : path) : Prop :=
  is_directory p = false /\ exists v, fs s !! p = Some (FJson v).

(** ** Concrete runs *)

Module Scenario.
Import Demo.

(** One resume, taken through the first two stages. *)
Definition first_batch : list uploaded_file := [Upload "cv.pdf" "Ada Lovelace"].

Definition after_parse : state world :=
  outcome_state (process_uploaded_files first_batch (initial_state [])).

Definition after_standardize : state world :=
  outcome_state (standardize_resumes after_parse).

(** The same name uploaded again, this time with nothing but white space in
    it, and parsed. *)
Definition blank_batch : list uploaded_file := [Upload "cv.pdf" "   "].

Definition blank_reupload : state world :=
  outcome_state (process_uploaded_files blank_batch after_standardize).

(** A blank resume that was never standardized before. *)
Definition blank_first_upload : state world :=
  outcome_state (process_uploaded_files blank_batch (initial_state [])).


(** An unsupported file, a resume with a garbled answer, a good one, a blank
    one and an empty one. *)
Definition mixed_batch : list uploaded_file :=
  [Upload "a.txt" "hello"; Upload "b.pdf" "garbled"; Upload "c.pdf" "Ada Lovelace";
   Upload "d.pdf" "  "; Upload "e.pdf" EmptyString].

Definition mixed_parsed : state world :=
  outcome_state (process_uploaded_files mixed_batch (initial_state [])).

Definition mixed_standardized : state world :=
  outcome_state (standardize_resumes mixed_parsed).

Definition mixed_stored : state world :=
  outcome_state (upload_to_mongodb mixed_standardized).

End Scenario.

(** ** A response that parses and cannot be written *)

Module Surrogate.
Import Demo Scenario.

(** The lone surrogate U+D83D, as the three bytes of [surrogatepass]. *)
Definition lone_surrogate : string :=
  String "237" (String "160" (String "189" EmptyString)).

(** [s] between double quotes. *)
Definition quoted (s : string) : string :=
  String "034" (s ++ String "034" EmptyString).

(** The ASCII text [{"name": "\ud83d"}]: an object whose one string is an
    escaped lone surrogate. *)
Definition escaped_response : string :=
  "{" ++ quoted "name" ++ ": " ++ quoted "\ud83d" ++ "}".

(** What [json.dump] with [indent=2] has written of an object whose first
    key is [name] when it comes to the value: twelve bytes. *)
Definition dump_prefix : string :=
  "{" ++ String "010" ("  " ++ quoted "name" ++ ": ").

(** What the write of the value raises. *)
Definition encode_error : exn :=
  Exn UnicodeEncodeError
    "'utf-8' codec can't encode character '\ud83d' in position 1: surrogates not allowed".

(** The runtime of [Demo], with [json.loads] and [json.dump] on this text and
    on the object it stands for. *)
Definition surrogate_runtime : Runtime world := {|
  gettempdir := "/tmp";
  now_isoformat w := ("2025-01-01T00:00:00", w);
  json_loads s :=
    if String.eqb s escaped_response
    then Some (JObj (<["name" := JStr lone_surrogate]> ∅))
    else demo_loads s;
  json_dump v :=
    match v with
    | JObj m =>
        match m !! "name" with
        | Some (JStr s) =>
            if String.eqb s lone_surrogate
            then DumpRaised encode_error dump_prefix
            else Dumped
        | _ => Dumped
        end
    | _ => Dumped
    end
|}.

(** A model that answers every prompt with that text; cleaning leaves it
    as it is. *)
Definition escaping_standardizer : ResumeStandardizer world := {|
  standardizer := unit;
  new_standardizer w := (Ok tt, w);
  make_standardizer_prompt _ content _ := Ok content;
  call_azure_llm _ _ w := (Ok escaped_response, w);
  clean_llm_response _ raw := Ok raw
|}.

(** One resume is parsed, the standardize stage is run twice, and then the
    store stage. *)
Definition parsed : state world :=
  outcome_state
    (process_uploaded_files (RT := surrogate_runtime) first_batch (initial_state [])).

Definition first_run : state world :=
  outcome_state
    (standardize_resumes (RT := surrogate_runtime) (RS := escaping_standardizer) parsed).

Definition second_run : state world :=
  outcome_state
    (standardize_resumes (RT := surrogate_runtime) (RS := escaping_standardizer)
       first_run).

Definition stored : state world :=
  outcome_state (upload_to_mongodb (RT := surrogate_runtime) second_run).

End Surrogate.

(** ** More observations on a run *)

(** Documents handed to [insert_or_update_resume], by artifact name, in call
    order. *)
Definition upsert_call (e : event) : option string :=
  match e with CallInsertOrUpdate n _ => Some n | _ => None end.

Definition upsert_calls (evs : list event) : list string := omap upsert_call evs.

(** A value [st.progress] accepts for a loop over [total] items: the
    fraction [done / total] lies in (0, 1]. *)
Definition progress_in_range (total : nat) (e : event) : Prop :=
  match e with
  | Progress d t => t = total /\ 1 <= d <= total
  | _ => True
  end.

(** Every standardized JSON artifact of the staging area holds a JSON value,
    as [json.dump] leaves it. *)
Definition staged_json {W} (s : state W) : Prop :=
  forall stem content,
    fs s !! Path StandardizedDir (stem ++ ".json")%string = Some content ->
    exists v, content = FJson v.

(** ** The upload page, lines 222-266 *)

(** The session of the page: the state the stages work on, and the names
    tracked at lines 234-235. *)
Record page_session (W : Type) : Type := PageSession {
  stages : state W;
  uploaded_file_names : list string
}.
Arguments PageSession {W}.
Arguments stages {W}.
Arguments uploaded_file_names {W}.

(** [sorted(names)] on a list of [str]: the names in ascending order. *)
Definition py_sorted (names : list string) : list string :=
  merge_sort String.le names.

(** Lines 244-249. *)
Definition reset_session {W} (s : state W) : state W :=
  with_uploaded_files []
    (with_standardized_files []
       (with_processed_files []
          (with_db_upload_complete false
             (with_standardizing_complete false
                (with_processing_complete false s))))).

(** Lines 238-249: the names of a changed upload list are tracked and the
    session is reset. *)
Definition track_uploads {W} (uploaded : list uploaded_file)
    (ps : page_session W) : page_session W :=
  match uploaded with
  | [] => ps
  | _ =>
      let current_file_names := map upload_name uploaded in
      if bool_decide (py_sorted current_file_names
                      <> py_sorted (uploaded_file_names ps))
      then PageSession (reset_session (stages ps)) current_file_names
      else ps
  end.

(** The three buttons of lines 253-266. *)
Inductive button : Type := ParseButton | StandardizeButton | StoreButton.

(** The negation of the [disabled=] argument of each button. *)
Definition button_enabled {W} (uploaded : list uploaded_file) (b : button)
    (s : state W) : bool :=
  match b with
  | ParseButton => match uploaded with [] => false | _ => true end
  | StandardizeButton => processing_complete s
  | StoreButton => standardizing_complete s
  end.

(** What a button runs, lines 254-266. *)
Definition press {W} {RT : Runtime W} {RP : ResumeParser W}
    {RS : ResumeStandardizer W} {DB : ResumeDBManager W}
    (uploaded : list uploaded_file) (b : button) : M W unit :=
  match b with
  | ParseButton => process_uploaded_files uploaded
  | StandardizeButton => standardize_resumes
  | StoreButton => upload_to_mongodb
  end.

(** One run of the page script with the upload page selected: the upload
    list is tracked, then the button that was pressed, if any, runs its
    stage.  A run is started by one widget, so at most one button is pressed
    in it, and a button that is disabled is not pressed; an exception ends
    the run and the session keeps the state reached. *)
Definition rerun {W} {RT : Runtime W} {RP : ResumeParser W}
    {RS : ResumeStandardizer W} {DB : ResumeDBManager W}
    (uploaded : list uploaded_file) (pressed : option button)
    (ps : page_session W) : page_session W :=
  let ps1 := track_uploads uploaded ps in
  match pressed with
  | None => ps1
  | Some b =>
      if button_enabled uploaded b (stages ps1)
      then PageSession (outcome_state (press uploaded b (stages ps1)))
                       (uploaded_file_names ps1)
      else ps1
  end.

(** A session as lines 33-44 and 234-235 start it, over whatever the staging
    area holds. *)
Definition fresh_session {W} (ps : page_session W) : Prop :=
  processing_complete (stages ps) = false
  /\ standardizing_complete (stages ps) = false
  /\ db_upload_complete (stages ps) = false
  /\ processed_files (stages ps) = []
  /\ standardized_files (stages ps) = []
  /\ uploaded_files (stages ps) = []
  /\ uploaded_file_names ps = [].

(** The sessions that runs of the script lead to from the session [ps0]. *)
Inductive reachable_from {W} {RT : Runtime W} {RP : ResumeParser W}
    {RS : ResumeStandardizer W} {DB : ResumeDBManager W}
    (ps0 : page_session W) : page_session W -> Prop :=
| reachable_start : reachable_from ps0 ps0
| reachable_rerun ps uploaded pressed :
    reachable_from ps0 ps -> reachable_from ps0 (rerun uploaded pressed ps).

(** The three cells of the status panel, lines 271-293. *)
Inductive status_cell : Type :=
| ParsedFiles (n : nat)              (* line 275 *)
| WaitingForParsing                  (* lines 277 and 285 *)
| StandardizedFiles (n : nat)        (* line 281 *)
| ReadyToStandardize                 (* line 283 *)
| UploadedFiles (n : nat)            (* line 289 *)
| ReadyToUpload                      (* line 291 *)
| WaitingForStandardization.         (* line 293 *)

Definition status_panel {W} (s : state W) : status_cell * status_cell * status_cell :=
  (if processing_complete s then ParsedFiles (List.length (processed_files s))
   else WaitingForParsing,
   if standardizing_complete s
   then StandardizedFiles (List.length (standardized_files s))
   else if processing_complete s then ReadyToStandardize
   else WaitingForParsing,
   if db_upload_complete s then UploadedFiles (List.length (uploaded_files s))
   else if standardizing_complete s then ReadyToUpload
   else WaitingForStandardization).

(** The preview of lines 296-304: the options of the select box, and the
    file opened for the selected one. *)
Definition preview_options {W} (s : state W) : list string :=
  map path_name (standardized_files s).

Definition preview_path (selected_file : string) : path :=
  Path StandardizedDir selected_file.

(** The progress event of the iteration at index [i] of a loop over [total]
    items. *)
Definition progress_at (i total : nat) (e : event) : Prop :=
  match e with
  | Progress d t => d = i + 1 /\ t = total
  | _ => True
  end.

(** What every run of the page script keeps of the two lists: the parsed
    records are outputs of the parse stage, and once the standardize stage
    has completed, the parse stage has, and the standardized artifacts are
    those of some of the parsed records, in their order. *)
Definition lists_invariant {W} (s : state W) : Prop :=
  (forall p, p ∈ processed_files s -> parse_output p)
  /\ (standardizing_complete s = true ->
      processing_complete s = true
      /\ exists mask,
           List.length mask = List.length (processed_files s)
           /\ standardized_files s
              = map standardized_path (select mask (processed_files s))).

(** What it keeps of the artifacts, as long as every [json.dump] completes:
    the JSON artifacts of the staging area are well formed, and every
    listed artifact is a regular file of the standardized directory that
    holds JSON. *)
Definition artifacts_invariant {W} (s : state W) : Prop :=
  staged_json s
  /\ (forall out, out ∈ standardized_files s ->
        readable s out /\ path_dir out = StandardizedDir).

(** ** Collaborators that fail, for running the error paths *)

Module Faults.
Import Demo.

(** A parser that raises on the text [corrupt], returns a list for [pages],
    a record without a content for [scan], a record whose content is a
    number for [count], and the text as the content otherwise. *)
Definition picky_parser : ResumeParser world := {|
  parser := unit;
  new_parser w := (Ok tt, w);
  SUPPORTED_EXTENSIONS := [".pdf"; ".docx"];
  parse_resume _ p files w :=
    match files !! p with
    | Some (FRaw s) =>
        if String.eqb s "corrupt"
        then (Err (Exn OtherException "cannot open the document"), w)
        else if String.eqb s "pages" then (Ok (JArr [JStr "page 1"]), w)
        else if String.eqb s "scan" then (Ok (JObj (<["links" := JArr []]> ∅)), w)
        else if String.eqb s "count" then (Ok (JObj (<["content" := JNum 3]> ∅)), w)
        else (Ok (JObj (<["content" := JStr s]> ∅)), w)
    | _ => (Err (Exn OtherException "cannot read"), w)
    end
|}.

(** A parser whose record holds a lone surrogate under [name]. *)
Definition surrogate_parser : ResumeParser world := {|
  parser := unit;
  new_parser w := (Ok tt, w);
  SUPPORTED_EXTENSIONS := [".pdf"; ".docx"];
  parse_resume _ _ _ w :=
    (Ok (JObj (<["name" := JStr Surrogate.lone_surrogate]>
                 (<["content" := JStr "Ada Lovelace"]> ∅))), w)
|}.

(** A model that times out on the text [slow], answers [list] with a JSON
    list and every other text with an empty object. *)
Definition flaky_standardizer : ResumeStandardizer world := {|
  standardizer := unit;
  new_standardizer w := (Ok tt, w);
  make_standardizer_prompt _ content _ := Ok content;
  call_azure_llm _ prompt w :=
    if String.eqb prompt "slow"
    then (Err (Exn OtherException "request timed out"), w)
    else (Ok (if String.eqb prompt "list" then "[]" else "{}"), w);
  clean_llm_response _ raw := Ok raw
|}.

(** A standardizer whose constructor misses its key. *)
Definition keyless_standardizer : ResumeStandardizer world := {|
  standardizer := unit;
  new_standardizer w := (Err (Exn ValueError "AZURE_OPENAI_API_KEY is not set"), w);
  make_standardizer_prompt _ content _ := Ok content;
  call_azure_llm _ _ w := (Err (Exn OtherException "unreachable"), w);
  clean_llm_response _ raw := Ok raw
|}.

(** A store that cannot be reached, and one that refuses every document. *)
Definition offline_store : ResumeDBManager world := {|
  db_manager := unit;
  new_db_manager w := (Err (Exn OtherException "connection refused"), w);
  insert_or_update_resume _ _ w := (Err (Exn OtherException "unreachable"), w)
|}.

Definition rejecting_store : ResumeDBManager world := {|
  db_manager := unit;
  new_db_manager w := (Ok tt, w);
  insert_or_update_resume _ _ w := (Err (Exn OtherException "document too large"), w)
|}.

(** Five resumes for the picky parser and the flaky model. *)
Definition fault_batch : list uploaded_file :=
  [Upload "scan.pdf" "scan"; Upload "count.pdf" "count"; Upload "slow.pdf" "slow";
   Upload "list.pdf" "list"; Upload "ok.pdf" "Ada Lovelace"].

Definition fault_parsed : state world :=
  outcome_state
    (process_uploaded_files (RP := picky_parser) fault_batch (initial_state [])).

(** A first visit of the page, and the session after the first two buttons
    were pressed on one resume. *)
Definition first_visit : page_session world := PageSession (initial_state []) [].

Definition after_two_buttons : page_session world :=
  rerun Scenario.first_batch (Some StandardizeButton)
    (rerun Scenario.first_batch (Some ParseButton) first_visit).

End Faults.

(** * Properties *)

(** ** Unit checks of the string and path helpers *)

Example suffix_pdf : path_suffix "cv.final.PDF" = ".PDF" /\ path_stem "cv.final.PDF" = "cv.final".
Proof. split; reflexivity. Qed.

Example suffix_hidden : path_suffix ".bashrc" = EmptyString /\ path_stem ".bashrc" = ".bashrc".
Proof. split; reflexivity. Qed.

Example suffix_trailing_dot : path_suffix "cv." = EmptyString /\ path_stem "cv." = "cv.".
Proof. split; reflexivity. Qed.

Example lower_pdf : py_lower ".PDF" = ".pdf".
Proof. reflexivity. Qed.

Example strip_blank : py_strip "  	 " = EmptyString /\ py_strip " a b " = "a b".
Proof. split; reflexivity. Qed.

#[local] Open Scope string_scope.

(** ** Strings and paths *)

Lemma append_cons (a : ascii) (s t : string) : String a s ++ t = String a (s ++ t).
Proof. reflexivity. Qed.

Lemma length_append (s t : string) :
  String.length (s ++ t) = String.length s + String.length t.
Proof.
  induction s as [|a s IH]; [reflexivity|].
  rewrite append_cons. cbn [String.length]. by rewrite IH.
Qed.

Lemma last_char_append (s t : string) :
  t <> EmptyString -> last_char (s ++ t) = last_char t.
Proof.
  intros Ht. induction s as [|a s IH]; [reflexivity|].
  rewrite append_cons. cbn [last_char]. rewrite IH.
  destruct t as [|b t]; [done|].
  cbn [last_char]. by destruct (last_char t).
Qed.

(** A raw-response log never has the name of a JSON artifact. *)
Lemma raw_log_name_not_json (s t : string) : s ++ "_raw.md" <> t ++ ".json".
Proof.
  intros E. apply (f_equal last_char) in E.
  rewrite !last_char_append in E by done. discriminate E.
Qed.

Lemma long_name_not_directory (d : directory) (s t : string) :
  3 <= String.length t -> d <> TempDir -> is_directory (Path d (s ++ t)) = false.
Proof.
  intros Hlen Hd. unfold is_directory. cbn [path_name path_dir].
  apply orb_false_intro.
  - apply bool_decide_eq_false. intros Hin.
    assert (String.length (s ++ t) <= 2) as Hle.
    { set_unfold in Hin. destruct Hin as [-> | [-> | [-> | []]]]; cbn; lia. }
    rewrite length_append in Hle. lia.
  - by destruct d.
Qed.

Lemma raw_log_path_not_directory (p : path) : is_directory (raw_log_path p) = false.
Proof. apply long_name_not_directory; [cbn; lia | done]. Qed.

Lemma parsed_path_not_directory (file_name : string) :
  is_directory (parsed_path file_name) = false.
Proof. apply long_name_not_directory; [cbn; lia | done]. Qed.

Lemma standardized_parsed_path_not_directory (file_name : string) :
  is_directory (standardized_path (parsed_path file_name)) = false.
Proof. apply long_name_not_directory; [cbn; lia | done]. Qed.

Lemma raw_log_path_not_json_artifact (q : path) (stem : string) :
  raw_log_path q <> Path StandardizedDir (stem ++ ".json").
Proof.
  unfold raw_log_path. intros E. injection E as E.
  by apply raw_log_name_not_json in E.
Qed.

(** [not content.strip()] holds exactly for strings of white space. *)
Lemma lstrip_empty (s : string) : lstrip s = EmptyString <-> all_space s = true.
Proof.
  induction s as [|a s IH]; [done|].
  cbn. destruct (is_space a); cbn; [apply IH | done].
Qed.

Lemma rstrip_empty (s : string) : rstrip s = EmptyString <-> all_space s = true.
Proof.
  induction s as [|a s IH]; [done|].
  cbn. destruct (rstrip s) eqn:Hr.
  - destruct (is_space a); cbn; [|done].
    split; [intros _; by apply IH | done].
  - split; [done|]. intros [_ Hs]%andb_true_iff. apply IH in Hs. done.
Qed.

Lemma rstrip_lstrip_space (s : string) :
  all_space (lstrip s) = true -> all_space s = true.
Proof.
  induction s as [|a s IH]; [done|].
  cbn. destruct (is_space a) eqn:Ha; cbn; [apply IH|].
  rewrite Ha. done.
Qed.

Lemma py_strip_empty (s : string) : py_strip s = EmptyString <-> all_space s = true.
Proof.
  unfold py_strip. rewrite rstrip_empty. split.
  - apply rstrip_lstrip_space.
  - intros Hs. apply lstrip_empty in Hs. by rewrite Hs.
Qed.

#[local] Open Scope list_scope.

(** ** Selections *)

Lemma select_app {A} (m1 m2 : list bool) (l1 l2 : list A) :
  List.length m1 = List.length l1 ->
  select (m1 ++ m2) (l1 ++ l2) = select m1 l1 ++ select m2 l2.
Proof.
  revert l1. induction m1 as [|b m1 IH]; intros [|x l1] Hlen; try done.
  cbn in *. rewrite IH by lia. by destruct b.
Qed.

Lemma select_length {A} (mask : list bool) (l : list A) :
  List.length (select mask l) <= List.length l.
Proof.
  revert l. induction mask as [|b mask IH]; intros [|x l]; cbn; try lia.
  specialize (IH l). destruct b; cbn; lia.
Qed.

Lemma select_sublist_filter {A} (P : A -> Prop) `{forall x, Decision (P x)}
    (mask : list bool) (l : list A) :
  (forall x, x ∈ select mask l -> P x) -> select mask l `sublist_of` filter P l.
Proof.
  revert l. induction mask as [|b mask IH]; intros [|x l] Hall; cbn [select] in *;
    try apply sublist_nil_l.
  destruct b.
  - rewrite filter_cons_True by (apply Hall; left).
    apply sublist_skip, IH. intros y Hy. apply Hall. by right.
  - rewrite filter_cons. case_decide.
    + apply sublist_cons, IH, Hall.
    + apply IH, Hall.
Qed.

(** ** Stepping through a stage *)

Ltac unfold_stage :=
  unfold standardize_item, standardize_body, parse_item, parse_try, upload_item,
    try_except, path_exists, append_standardized, append_processed, append_uploaded,
    emit, call, open_w, f_write, f_dump, read_json, loads, lift, gets, raise,
    set_log, set_fs, set_world, set_standardized_files, set_processed_files,
    set_uploaded_files, set_processing_complete, set_standardizing_complete,
    set_db_upload_complete, modify, bind, ret in *.

(** Case analysis on the innermost scrutinee of the goal. *)
Ltac destruct_head :=
  match goal with
  | |- context [match ?x with _ => _ end] =>
      lazymatch x with
      | context [match _ with _ => _ end] => fail
      | _ => destruct x eqn:?
      end
  end.

Ltac solve_other_items :=
  let p := fresh "p" in let Hp := fresh "Hp" in
  intros p Hp; unfold llm_calls_for, prompts_built_for; cbn;
  repeat case_decide; try done; by subst.

Ltac unfold_wrapper :=
  unfold try_except, emit, call, lift, gets, raise,
    set_log, set_fs, set_world, set_standardized_files, set_processed_files,
    set_uploaded_files, set_processing_complete, set_standardizing_complete,
    set_db_upload_complete, modify, bind, ret.

Section Properties.
Context {W : Type} {RT : Runtime W} {RP : ResumeParser W}
        {RS : ResumeStandardizer W} {DB : ResumeDBManager W}.

Lemma stamps_of_object (j a5 a6 : json) (ts src : string) :
  setitem j "timestamp" (JStr ts) = Ok a5 ->
  setitem a5 "source_file" (JStr src) = Ok a6 ->
  exists m0, j = JObj m0
    /\ a6 = JObj (<["source_file" := JStr src]> (<["timestamp" := JStr ts]> m0)).
Proof.
  destruct j; try discriminate. cbn. intros [= <-]. cbn. intros [= <-]. eauto.
Qed.

(** Every way one iteration of the standardize loop can go. *)
Lemma standardize_item_cases sz total i q c (s : state W) :
  let out := standardized_path q in
  exists c' s' evs,
    standardize_item sz total i q c s = Returned c' s'
    /\ same_flags s s'
    /\ processed_files s' = processed_files s
    /\ uploaded_files s' = uploaded_files s
    /\ log s' = log s ++ evs
    /\ standardize_attempts evs = [path_name q]
    /\ (forall p, p <> q -> llm_calls_for p evs = [] /\ prompts_built_for p evs = [])
    /\ ( (* the staged artifact is reused *)
         (artifact_present s out = true
          /\ standardized_files s' = standardized_files s ++ [out]
          /\ c' = c + 1 /\ fs s' = fs s /\ world s' = world s
          /\ evs = [StatusStandardizing (i + 1) total (path_name q);
                    Progress (i + 1) total])
       \/ (* the item fails *)
         (artifact_present s out = false
          /\ standardized_files s' = standardized_files s
          /\ c' = c
          /\ standardize_failures evs = [path_name q]
          /\ (fs s' = fs s
              \/ (exists r, fs s' = <[raw_log_path q := FRaw r]> (fs s))
              \/ (exists r written v e,
                    json_dump v = DumpRaised e written
                    /\ fs s' = <[out := FRaw written]>
                                 (<[raw_log_path q := FRaw r]> (fs s)))))
       \/ (* the item is standardized *)
         (artifact_present s out = false
          /\ standardized_files s' = standardized_files s ++ [out]
          /\ c' = c + 1
          /\ standardize_failures evs = []
          /\ exists r d,
               fs s' = <[out := FJson d]> (<[raw_log_path q := FRaw r]> (fs s))
               /\ standardized_from sz q r d)).
Proof.
  intros out. subst out. unfold artifact_present.
  unfold_stage. rewrite raw_log_path_not_directory. cbn.
  destruct (is_directory (standardized_path q)
            || bool_decide (is_Some (fs s !! standardized_path q))) eqn:Hpresent.
  - cbn. eexists _, _, _. split; [reflexivity|]. cbn.
    rewrite <- !app_assoc. cbn. repeat split; try done. by left.
  - apply orb_false_elim in Hpresent as [Hdir Hnone]. rewrite Hdir.
    repeat (destruct_head; cbn);
      (eexists _, _, _; split; [reflexivity|]; cbn; rewrite <- ?app_assoc; cbn;
       rewrite ?insert_insert_eq;
       split; [done|]; split; [done|]; split; [done|]; split; [reflexivity|];
       split; [done|]; split; [solve_other_items|]).
    all: try (right; left; repeat split; try done; eauto; fail).
    all: try (right; left; repeat split; try done; right; right;
              eexists _, _, _, _; split; [eassumption | reflexivity]; fail).
    all: right; right; repeat split; try done.
    all: eexists _, _; split; [reflexivity|].
    all: match goal with
         | H1 : setitem _ "timestamp" _ = Ok _, H2 : setitem _ "source_file" _ = Ok _ |- _ =>
             destruct (stamps_of_object _ _ _ _ _ H1 H2) as (m0 & -> & ->)
         end.
    all: try match goal with
           | H : setitem (JObj _) "original_filename" _ = Ok _ |- _ =>
               cbn in H; injection H as <-
           end.
    all: eexists _, m0, _, _; split; [done|]; split; [done|]; split; [reflexivity|].
    all: split; [by simplify_map_eq|]; split; [by simplify_map_eq|].
    all: intros k Hk; rewrite ?lookup_insert_ne; [done|set_solver..].
Qed.

Lemma supported_spec (f : uploaded_file) :
  bool_decide (py_lower (path_suffix (upload_name f)) ∉ SUPPORTED_EXTENSIONS)
  = negb (supported f).
Proof.
  unfold supported. destruct (decide (py_lower (path_suffix (upload_name f)) ∈ SUPPORTED_EXTENSIONS)).
  - rewrite bool_decide_eq_false_2, bool_decide_eq_true_2; auto.
  - rewrite bool_decide_eq_true_2, bool_decide_eq_false_2; auto.
Qed.

(** Every way one iteration of the parse loop can go. *)
Lemma parse_item_cases total i f c (s : state W) :
  let name := upload_name f in
  let staged := <[temp_path name := FRaw (upload_buffer f)]> (fs s) in
  (* an exception leaves the loop *)
  (exists e s' evs,
      parse_item total i f c s = Raised e s'
      /\ processed_files s' = processed_files s
      /\ log s' = log s ++ evs
      /\ parse_failures evs = [] /\ parse_calls evs = []
      /\ ((is_directory (temp_path name) = true /\ exn_cls e = IsADirectoryError)
          \/ (is_directory (temp_path name) = false
              /\ exists w', new_parser (world s) = (Err e, w'))))
  \/ (exists c' s' evs p w',
        parse_item total i f c s = Returned c' s'
        /\ is_directory (temp_path name) = false
        /\ new_parser (world s) = (Ok p, w')
        /\ same_flags s s'
        /\ standardized_files s' = standardized_files s
        /\ uploaded_files s' = uploaded_files s
        /\ log s' = log s ++ evs
        /\ ( (* the extension is not supported *)
             (supported f = false
              /\ processed_files s' = processed_files s /\ c' = c
              /\ fs s' = staged
              /\ evs = [StatusProcessing (i + 1) total name;
                        WarnSkipping name (py_lower (path_suffix name))])
           \/ (* extraction fails *)
             (supported f = true
              /\ processed_files s' = processed_files s /\ c' = c
              /\ (fs s' = staged
                  \/ exists written v e,
                       json_dump v = DumpRaised e written
                       /\ fs s' = <[parsed_path name := FRaw written]> staged)
              /\ parse_failures evs = [name]
              /\ parse_calls evs = [temp_path name])
           \/ (* the file is parsed *)
             (supported f = true
              /\ processed_files s' = processed_files s ++ [parsed_path name]
              /\ c' = c + 1
              /\ parse_failures evs = []
              /\ parse_calls evs = [temp_path name]
              /\ exists m ts,
                   fs s' = <[parsed_path name := FJson (JObj m)]> staged
                   /\ m !! "original_filename" = Some (JStr name)
                   /\ m !! "timestamp" = Some (JStr ts)))).
Proof.
  intros name staged. subst name staged.
  unfold_stage. rewrite supported_spec, parsed_path_not_directory. cbn.
  destruct (is_directory (temp_path (upload_name f))) eqn:Hdir; cbn.
  { left. eexists _, _, _. split; [reflexivity|]. cbn.
    repeat split; try done. by left. }
  destruct (new_parser (world s)) as [[p|e] w'] eqn:Hnew; cbn.
  2:{ left. eexists _, _, _. split; [reflexivity|]. cbn.
      repeat split; try done. right. eauto. }
  right.
  destruct (supported f) eqn:Hsup; cbn.
  2:{ eexists _, _, _, _, _. split; [reflexivity|]. cbn. rewrite <- ?app_assoc. cbn.
      rewrite insert_insert_eq. repeat split; try done. left. done. }
  repeat (destruct_head; cbn);
    (eexists _, _, _, _, _; split; [reflexivity|]; cbn; rewrite <- ?app_assoc; cbn;
     rewrite ?insert_insert_eq;
     split; [done|]; split; [done|]; split; [done|]; split; [done|];
     split; [done|]; split; [reflexivity|]; right).
  all: try (left; repeat split; try done; eauto; fail).
  all: try (left; repeat split; try done; right;
            eexists _, _, _; split; [eassumption | reflexivity]; fail).
  all: right; repeat split; try done.
  all: match goal with
       | H1 : setitem ?j "timestamp" _ = Ok _, H2 : setitem _ "original_filename" _ = Ok _ |- _ =>
           destruct j; try discriminate; cbn in H1; injection H1 as <-;
           cbn in H2; injection H2 as <-
       end.
  all: eexists _, _; split; [reflexivity|]; split; by simplify_map_eq.
Qed.

(** Every way one iteration of the upload loop can go. *)
Lemma upload_item_cases db total i q c (s : state W) :
  exists c' s' evs,
    upload_item db total i q c s = Returned c' s'
    /\ same_flags s s'
    /\ processed_files s' = processed_files s
    /\ standardized_files s' = standardized_files s
    /\ fs s' = fs s
    /\ log s' = log s ++ evs
    /\ upload_attempts evs = [path_name q]
    /\ ( (uploaded_files s' = uploaded_files s ++ [path_name q]
          /\ c' = c + 1 /\ upload_failures evs = [])
       \/ (uploaded_files s' = uploaded_files s
           /\ c' = c /\ upload_failures evs = [path_name q])).
Proof.
  unfold_stage. cbn.
  repeat (destruct_head; cbn);
    (eexists _, _, _; split; [reflexivity|]; cbn; rewrite <- ?app_assoc; cbn;
     split; [done|]; split; [done|]; split; [done|]; split; [done|];
     split; [reflexivity|]; split; [done|]).
  all: try (left; done).
  all: right; done.
Qed.

(** ** Loops and stage wrappers *)


(** A loop whose body always returns, returns; an invariant indexed by the
    items already visited holds at the end for the whole list. *)
Lemma for_enumerate_returns_ind {A C} (body : nat -> A -> C -> M W C)
    (P : list A -> state W -> Prop) (l : list A) :
  (forall visited x i c s, x ∈ l -> P visited s ->
     exists c' s', body i x c s = Returned c' s' /\ P (visited ++ [x]) s') ->
  forall visited i c s, P visited s ->
    exists c' s', for_enumerate body l i c s = Returned c' s' /\ P (visited ++ l) s'.
Proof.
  induction l as [|x l IH]; intros Hbody visited i c s HP.
  - exists c, s. rewrite app_nil_r. done.
  - destruct (Hbody visited x i c s) as (c1 & s1 & Hx & HP1); [set_solver | done |].
    destruct (IH (fun v y j k t Hy => Hbody v y j k t ltac:(set_solver))
                (visited ++ [x]) (S i) c1 s1 HP1) as (c' & s' & Hl & HP').
    exists c', s'. split.
    + cbn. unfold bind. by rewrite Hx.
    + by rewrite <- app_assoc in HP'.
Qed.

(** The same for a loop that is known to have returned, whatever its body
    may raise. *)
Lemma for_enumerate_returned_ind {A C} (body : nat -> A -> C -> M W C)
    (P : list A -> state W -> Prop) (l : list A) :
  (forall visited x i c s c1 s1, x ∈ l -> P visited s ->
     body i x c s = Returned c1 s1 -> P (visited ++ [x]) s1) ->
  forall visited i c s c' s', P visited s ->
    for_enumerate body l i c s = Returned c' s' -> P (visited ++ l) s'.
Proof.
  induction l as [|x l IH]; intros Hbody visited i c s c' s' HP Hrun.
  - cbn in Hrun. injection Hrun as <- <-. by rewrite app_nil_r.
  - cbn in Hrun. unfold bind in Hrun.
    destruct (body i x c s) as [c1 s1|e s1] eqn:Hx; [|discriminate].
    replace (visited ++ x :: l) with ((visited ++ [x]) ++ l)
      by (by rewrite <- app_assoc).
    eapply (IH (fun v y j k t k1 t1 Hy => Hbody v y j k t k1 t1 ltac:(set_solver)));
      [|exact Hrun].
    eapply Hbody; [set_solver | exact HP | exact Hx].
Qed.

(** [standardize_resumes] once its collaborator is built: the loop runs
    over [processed_files] and the stage returns. *)
Lemma standardize_resumes_unfold (s : state W) sz w' :
  new_standardizer (world s) = (Ok sz, w') ->
  forall c s1,
    for_enumerate (standardize_item sz (List.length (processed_files s)))
      (processed_files s) 0 0 (standardize_loop_start s w') = Returned c s1 ->
    standardize_resumes s
    = Returned tt (standardize_loop_end c (List.length (processed_files s)) s1).
Proof.
  intros Hnew c s1 Hloop.
  unfold standardize_resumes. unfold_wrapper. cbn. rewrite Hnew. cbn.
  unfold standardize_loop_start in Hloop. rewrite Hloop. reflexivity.
Qed.

Lemma llm_calls_for_app p l1 l2 :
  llm_calls_for p (l1 ++ l2) = llm_calls_for p l1 ++ llm_calls_for p l2.
Proof. apply omap_app. Qed.

Lemma prompts_built_for_app p l1 l2 :
  prompts_built_for p (l1 ++ l2) = prompts_built_for p l1 ++ prompts_built_for p l2.
Proof. apply omap_app. Qed.

Lemma artifact_present_lookup (s : state W) out content :
  fs s !! out = Some content -> artifact_present s out = true.
Proof.
  intros H. unfold artifact_present. rewrite H.
  rewrite bool_decide_eq_true_2 by eauto. apply orb_true_r.
Qed.

Lemma artifact_absent_lookup (s : state W) out :
  artifact_present s out = false -> fs s !! out = None /\ is_directory out = false.
Proof.
  unfold artifact_present. intros [Hd Hn]%orb_false_elim. split; [|done].
  apply bool_decide_eq_false in Hn. destruct (fs s !! out); [|done].
  exfalso. apply Hn. eauto.
Qed.

(** One iteration, seen from a staged artifact [out] with a JSON name: the
    iteration leaves it alone unless it is this item's own artifact and
    was missing. *)
Lemma standardize_item_keeps_artifact sz total i q c (s : state W) stem content :
  let out := Path StandardizedDir (stem ++ ".json")%string in
  fs s !! out = Some content ->
  forall c' s', standardize_item sz total i q c s = Returned c' s' ->
  fs s' !! out = Some content.
Proof.
  intros out Hout c' s' Hrun.
  destruct (standardize_item_cases sz total i q c s)
    as (c1 & s1 & evs & Hrun1 & _ & _ & _ & _ & _ & _ & Hcases).
  rewrite Hrun in Hrun1. injection Hrun1 as <- <-.
  destruct Hcases
    as [(_ & _ & _ & -> & _)
       | [(Habs & _ & _ & _ & [-> | [[r ->] | (r & written & v & e & _ & ->)]])
         | (Habs & _ & _ & _ & r & d & -> & _)]];
    try done.
  - rewrite lookup_insert_ne; [done|]. apply raw_log_path_not_json_artifact.
  - apply artifact_absent_lookup in Habs as [Habs _].
    rewrite lookup_insert_ne; [|congruence].
    rewrite lookup_insert_ne; [done|]. apply raw_log_path_not_json_artifact.
  - apply artifact_absent_lookup in Habs as [Habs _].
    rewrite lookup_insert_ne; [|congruence].
    rewrite lookup_insert_ne; [done|]. apply raw_log_path_not_json_artifact.
Qed.

(** Claim C1.  When the staged standardized artifact of a parsed record is
    already present and the standardizer can be built, a run of
    [standardize_resumes] over that record sends no prompt to the model for
    it and builds none, leaves the artifact exactly as it was, and appends
    its path to [standardized_files]. *)
Theorem C1_staged_artifact_is_reused (s : state W)
    (file_name : string) (artifact : file) sz w' :
  let p := parsed_path file_name in
  let out := standardized_path p in
  p ∈ processed_files s ->
  fs s !! out = Some artifact ->
  new_standardizer (world s) = (Ok sz, w') ->
  exists s' evs,
    standardize_resumes s = Returned tt s'
    /\ log s' = log s ++ evs
    /\ llm_calls_for p evs = []
    /\ prompts_built_for p evs = []
    /\ fs s' !! out = Some artifact
    /\ out ∈ standardized_files s'.
Proof.
  intros p out Hin Hout Hnew.
  assert (Hout_eq : out = Path StandardizedDir (path_stem file_name ++ ".json")%string)
    by reflexivity.
  assert (Hout_p : out = standardized_path p) by reflexivity.
  clearbody p out.
  set (n := List.length (processed_files s)).
  set (s0 := standardize_loop_start s w').
  pose (P := fun (visited : list path) (t : state W) =>
    fs t !! out = Some artifact
    /\ (p ∈ visited -> out ∈ standardized_files t)
    /\ exists evs, log t = log s0 ++ evs
         /\ llm_calls_for p evs = [] /\ prompts_built_for p evs = []).
  destruct (for_enumerate_returns_ind (standardize_item sz n) P (processed_files s))
    with (visited := @nil path) (i := 0) (c := 0) (s := s0)
    as (c & s1 & Hloop & Hfs & Hmem & evs & Hlog & Hcalls & Hprompts).
  - intros visited x i c t _ (Hfs & Hmem & evs & Hlog & Hcalls & Hprompts).
    destruct (standardize_item_cases sz n i x c t)
      as (c1 & t1 & evs1 & Hrun & _ & _ & _ & Hlog1 & _ & Hother & Hcases).
    exists c1, t1. split; [done|]. split; [|split].
    + rewrite Hout_eq in Hfs |- *.
      eapply standardize_item_keeps_artifact; [exact Hfs | exact Hrun].
    + intros [Hv | Hx%list_elem_of_singleton]%elem_of_app.
      * specialize (Hmem Hv).
        destruct Hcases as [(_ & -> & _) | [(_ & -> & _) | (_ & -> & _)]];
          rewrite ?elem_of_app; auto.
      * subst x. rewrite <- Hout_p in Hcases.
        destruct Hcases as [(_ & -> & _) | [(Habs & _) | (Habs & _)]];
          [apply elem_of_app; right; by apply list_elem_of_singleton | |].
        all: by rewrite (artifact_present_lookup t _ _ Hfs) in Habs.
    + exists (evs ++ evs1). rewrite Hlog1, Hlog, app_assoc. split; [done|].
      rewrite llm_calls_for_app, prompts_built_for_app, Hcalls, Hprompts. cbn.
      destruct (decide (p = x)) as [<- | Hne]; [|by apply Hother].
      rewrite <- Hout_p in Hcases.
      destruct Hcases as [(_ & _ & _ & _ & _ & ->) | [(Habs & _) | (Habs & _)]].
      * unfold llm_calls_for, prompts_built_for. done.
      * by rewrite (artifact_present_lookup t _ _ Hfs) in Habs.
      * by rewrite (artifact_present_lookup t _ _ Hfs) in Habs.
  - split; [done|]. split; [set_solver|]. exists []. by rewrite app_nil_r.
  - exists (standardize_loop_end c n s1), ([WriteStandardizing n] ++ evs ++ [StatusStandardized c n]).
    split; [by apply (standardize_resumes_unfold s sz w' Hnew)|].
    split; [cbn; rewrite Hlog; cbn; by rewrite <- !app_assoc|].
    rewrite !llm_calls_for_app, !prompts_built_for_app, Hcalls, Hprompts.
    repeat split; try done. apply Hmem. done.
Qed.

Lemma same_flags_trans (s t u : state W) :
  same_flags s t -> same_flags t u -> same_flags s u.
Proof. unfold same_flags. intros (-> & -> & ->) (-> & -> & ->). done. Qed.

(** *** The parse loop *)

Lemma parse_progress_start (s0 : state W) : parse_progress s0 [] s0.
Proof.
  split; [done|]. split; [done|]. split; [done|].
  exists [], []. rewrite !app_nil_r. repeat split; try done.
  - intros f Hf. by apply elem_of_nil in Hf.
  - intros f Hf. by apply elem_of_nil in Hf.
Qed.

Lemma parse_progress_step (s0 : state W) total visited f i c t c1 t1 :
  parse_progress s0 visited t ->
  parse_item total i f c t = Returned c1 t1 ->
  parse_progress s0 (visited ++ [f]) t1.
Proof.
  intros (Hflags & Hsf & Hup & evs & mask & Hlog & Hlen & Hpf & Hfail & Hcalls & Hsel & Hskip) Hrun.
  destruct (parse_item_cases total i f c t)
    as [(e & t' & ? & Hr & _) | (c' & t' & evs1 & p & w' & Hr & _ & _ & Hflags1 & Hsf1 & Hup1 & Hlog1 & Hcases)];
    rewrite Hrun in Hr; [discriminate|]. injection Hr as <- <-.
  split; [by eapply same_flags_trans|]. split; [congruence|]. split; [congruence|].
  assert (Hfilter : forall b, supported f = b ->
            filter (fun f => supported f = true) (visited ++ [f])
            = filter (fun f => supported f = true) visited ++ (if b then [f] else [])).
  { intros b Hb. rewrite filter_app. f_equal.
    destruct b; [by rewrite filter_cons_True | by rewrite filter_cons_False; [|congruence]]. }
  assert (Hskip' : forall evs', supported f = true ->
            forall g, g ∈ visited ++ [f] -> supported g = false ->
              WarnSkipping (upload_name g) (py_lower (path_suffix (upload_name g)))
              ∈ evs ++ evs').
  { intros evs' Hsup g [Hg | Hg%list_elem_of_singleton]%elem_of_app Hgs.
    - apply elem_of_app. left. by apply Hskip.
    - subst g. congruence. }
  destruct Hcases as [(Hsup & Hpf1 & _ & _ & ->) | [(Hsup & Hpf1 & _ & _ & Hfail1 & Hcalls1) | (Hsup & Hpf1 & _ & Hfail1 & Hcalls1 & _)]].
  - exists (evs ++ [StatusProcessing (i + 1) total (upload_name f);
                    WarnSkipping (upload_name f) (py_lower (path_suffix (upload_name f)))]),
           (mask ++ [false]).
    rewrite Hlog1, Hlog, app_assoc. split; [done|].
    rewrite !length_app, Hlen. split; [done|].
    rewrite fmap_app, !select_app by (by rewrite ?length_fmap).
    cbn. rewrite app_nil_r, Hpf1, Hpf. split; [done|].
    unfold parse_failures, parse_calls in *. rewrite !omap_app, Hfail, Hcalls, map_app.
    rewrite (Hfilter false Hsup). cbn. rewrite !app_nil_r.
    split; [done|]. split; [done|]. split; [done|].
    intros g [Hg | Hg%list_elem_of_singleton]%elem_of_app Hgs.
    + apply elem_of_app. left. by apply Hskip.
    + subst g. apply elem_of_app. right. right. left.
  - exists (evs ++ evs1), (mask ++ [false]).
    rewrite Hlog1, Hlog, app_assoc. split; [done|].
    rewrite !length_app, Hlen. split; [done|].
    rewrite fmap_app, !select_app by (by rewrite ?length_fmap).
    cbn. rewrite app_nil_r, Hpf1, Hpf. split; [done|].
    unfold parse_failures, parse_calls in *.
    rewrite !omap_app, Hfail, Hcalls, Hfail1, Hcalls1, !map_app.
    rewrite (Hfilter true Hsup), ?map_app. cbn.
    split; [done|]. split; [done|]. split; [done|]. by apply Hskip'.
  - exists (evs ++ evs1), (mask ++ [true]).
    rewrite Hlog1, Hlog, app_assoc. split; [done|].
    rewrite !length_app, Hlen. split; [done|].
    rewrite fmap_app, !select_app by (by rewrite ?length_fmap).
    cbn. rewrite Hpf1, Hpf, map_app, <- app_assoc. split; [done|].
    unfold parse_failures, parse_calls in *.
    rewrite !omap_app, Hfail, Hcalls, Hfail1, Hcalls1, !map_app.
    rewrite (Hfilter true Hsup), ?map_app. cbn. rewrite !app_nil_r.
    split; [done|]. split; [done|]. split; [|by apply Hskip'].
    intros g [Hg | Hg%list_elem_of_singleton]%elem_of_app; [by apply Hsel | by subst].
Qed.

Lemma process_uploaded_files_unfold (files : list uploaded_file) (s : state W) :
  process_uploaded_files files s
  = match for_enumerate (parse_item (List.length files)) files 0 0
            (parse_loop_start (List.length files) s) with
    | Returned c s1 => Returned tt (parse_loop_end c (List.length files) s1)
    | Raised e s1 => Raised e s1
    end.
Proof. reflexivity. Qed.

Lemma process_uploaded_files_returned (files : list uploaded_file) (s s' : state W) :
  process_uploaded_files files s = Returned tt s' ->
  exists c s1,
    s' = parse_loop_end c (List.length files) s1
    /\ parse_progress (parse_loop_start (List.length files) s) files s1.
Proof.
  rewrite process_uploaded_files_unfold.
  destruct (for_enumerate _ _ _ _ _) as [c s1|e s1] eqn:Hloop; [|discriminate].
  intros [= <-]. exists c, s1. split; [done|].
  apply (for_enumerate_returned_ind (parse_item (List.length files))
           (parse_progress (parse_loop_start (List.length files) s)) files)
    with (visited := []) (i := 0) (c := 0) (s := parse_loop_start (List.length files) s)
         (c' := c); [| apply parse_progress_start | exact Hloop].
  intros visited x i k t k1 t1 _ HP Hx. by eapply parse_progress_step.
Qed.

(** *** The standardize loop *)

Lemma standardize_progress_start (s0 : state W) : standardize_progress s0 [] s0.
Proof.
  split; [done|]. split; [done|]. split; [done|].
  exists [], []. by rewrite !app_nil_r.
Qed.

Lemma standardize_progress_step (s0 : state W) sz total visited q i c t :
  standardize_progress s0 visited t ->
  exists c1 t1, standardize_item sz total i q c t = Returned c1 t1
                /\ standardize_progress s0 (visited ++ [q]) t1.
Proof.
  intros (Hflags & Hpf & Hup & evs & mask & Hlog & Hlen & Hsf & Hfail & Hatt).
  destruct (standardize_item_cases sz total i q c t)
    as (c1 & t1 & evs1 & Hrun & Hflags1 & Hpf1 & Hup1 & Hlog1 & Hatt1 & _ & Hcases).
  exists c1, t1. split; [done|].
  split; [by eapply same_flags_trans|]. split; [congruence|]. split; [congruence|].
  assert (exists b : bool, standardized_files t1
                    = standardized_files t ++ (if b then [standardized_path q] else [])
                    /\ standardize_failures evs1 = if b then [] else [path_name q])
    as (b & Hsf1 & Hfail1).
  { destruct Hcases as [(_ & -> & _ & _ & _ & ->) | [(_ & -> & _ & -> & _) | (_ & -> & _ & -> & _)]].
    - by exists true.
    - exists false. by rewrite app_nil_r.
    - by exists true. }
  exists (evs ++ evs1), (mask ++ [b]).
  rewrite Hlog1, Hlog, app_assoc. split; [done|].
  rewrite !length_app, Hlen. split; [done|].
  rewrite fmap_app, !select_app by (by rewrite ?length_fmap).
  unfold standardize_failures, standardize_attempts in *.
  rewrite !omap_app, Hfail, Hatt, Hfail1, Hatt1, Hsf1, Hsf, !map_app, <- app_assoc.
  destruct b; cbn; rewrite ?app_nil_r; done.
Qed.

Lemma standardize_loop_progress sz total (l : list path) (s0 : state W) :
  exists c s1, for_enumerate (standardize_item sz total) l 0 0 s0 = Returned c s1
               /\ standardize_progress s0 l s1.
Proof.
  apply (for_enumerate_returns_ind (standardize_item sz total)
           (standardize_progress s0) l) with (visited := []);
    [| apply standardize_progress_start].
  intros visited x i c t _ HP. by apply standardize_progress_step.
Qed.

(** [standardize_resumes] raises only when the constructor of its
    collaborator raises something that is not a [ValueError]. *)
Lemma standardize_resumes_cases (s : state W) :
  let n := List.length (processed_files s) in
  (exists e w', new_standardizer (world s) = (Err e, w')
     /\ is_ValueError e = false
     /\ exists s', standardize_resumes s = Raised e s'
                   /\ standardized_files s' = []
                   /\ log s' = log s ++ [WriteStandardizing n])
  \/ (exists e w', new_standardizer (world s) = (Err e, w')
        /\ is_ValueError e = true
        /\ exists s', standardize_resumes s = Returned tt s'
                      /\ standardized_files s' = []
                      /\ processed_files s' = processed_files s
                      /\ uploaded_files s' = uploaded_files s
                      /\ fs s' = fs s
                      /\ standardizing_complete s' = false
                      /\ log s' = log s ++ [WriteStandardizing n; ErrorInitStandardizer e])
  \/ (exists sz w' c s1, new_standardizer (world s) = (Ok sz, w')
        /\ for_enumerate (standardize_item sz n) (processed_files s) 0 0
             (standardize_loop_start s w') = Returned c s1
        /\ standardize_resumes s = Returned tt (standardize_loop_end c n s1)
        /\ standardize_progress (standardize_loop_start s w') (processed_files s) s1).
Proof.
  intros n. destruct (new_standardizer (world s)) as [[sz|e] w'] eqn:Hnew.
  - right. right.
    destruct (standardize_loop_progress sz n (processed_files s) (standardize_loop_start s w'))
      as (c & s1 & Hloop & HP).
    exists sz, w', c, s1. split; [done|]. split; [done|]. split; [|done].
    by apply (standardize_resumes_unfold s sz w').
  - destruct (is_ValueError e) eqn:Hve.
    + right. left. exists e, w'. split; [done|]. split; [done|].
      unfold standardize_resumes. unfold_wrapper. cbn. rewrite Hnew. cbn. rewrite Hve.
      eexists. split; [reflexivity|]. cbn. by rewrite <- app_assoc.
    + left. exists e, w'. split; [done|]. split; [done|].
      unfold standardize_resumes. unfold_wrapper. cbn. rewrite Hnew. cbn. rewrite Hve.
      eexists. split; [reflexivity|]. done.
Qed.

(** *** The upload loop *)

Lemma upload_progress_start (s0 : state W) : upload_progress s0 [] s0.
Proof.
  split; [done|]. split; [done|]. split; [done|]. split; [done|].
  exists [], []. by rewrite !app_nil_r.
Qed.

Lemma upload_progress_step (s0 : state W) db total visited q i c t :
  upload_progress s0 visited t ->
  exists c1 t1, upload_item db total i q c t = Returned c1 t1
                /\ upload_progress s0 (visited ++ [q]) t1.
Proof.
  intros (Hflags & Hpf & Hsf & Hfs & evs & mask & Hlog & Hlen & Hup & Hfail & Hatt).
  destruct (upload_item_cases db total i q c t)
    as (c1 & t1 & evs1 & Hrun & Hflags1 & Hpf1 & Hsf1 & Hfs1 & Hlog1 & Hatt1 & Hcases).
  exists c1, t1. split; [done|].
  split; [by eapply same_flags_trans|]. split; [congruence|]. split; [congruence|].
  split; [congruence|].
  assert (exists b : bool, uploaded_files t1
                    = uploaded_files t ++ (if b then [path_name q] else [])
                    /\ upload_failures evs1 = if b then [] else [path_name q])
    as (b & Hup1 & Hfail1).
  { destruct Hcases as [(-> & _ & ->) | (-> & _ & ->)].
    - by exists true.
    - exists false. by rewrite app_nil_r. }
  exists (evs ++ evs1), (mask ++ [b]).
  rewrite Hlog1, Hlog, app_assoc. split; [done|].
  rewrite !length_app, Hlen. split; [done|].
  rewrite fmap_app, !select_app by (by rewrite ?length_fmap).
  unfold upload_failures, upload_attempts in *.
  rewrite !omap_app, Hfail, Hatt, Hfail1, Hatt1, Hup1, Hup, !map_app, <- app_assoc.
  destruct b; cbn; rewrite ?app_nil_r; done.
Qed.

Lemma upload_loop_progress db total (l : list path) (s0 : state W) :
  exists c s1, for_enumerate (upload_item db total) l 0 0 s0 = Returned c s1
               /\ upload_progress s0 l s1.
Proof.
  apply (for_enumerate_returns_ind (upload_item db total) (upload_progress s0) l)
    with (visited := []); [| apply upload_progress_start].
  intros visited x i c t _ HP. by apply upload_progress_step.
Qed.

(** [upload_to_mongodb] always returns. *)
Lemma upload_to_mongodb_cases (s : state W) :
  let n := List.length (standardized_files s) in
  (exists e w', new_db_manager (world s) = (Err e, w')
     /\ exists s', upload_to_mongodb s = Returned tt s'
                   /\ uploaded_files s' = uploaded_files s
                   /\ standardized_files s' = standardized_files s
                   /\ fs s' = fs s
                   /\ db_upload_complete s' = false
                   /\ log s' = log s ++ [ErrorConnecting e])
  \/ (exists db w' c s1, new_db_manager (world s) = (Ok db, w')
        /\ for_enumerate (upload_item db n) (standardized_files s) 0 0
             (upload_loop_start s w') = Returned c s1
        /\ upload_to_mongodb s = Returned tt (upload_loop_end c n s1)
        /\ upload_progress (upload_loop_start s w') (standardized_files s) s1).
Proof.
  intros n. destruct (new_db_manager (world s)) as [[db|e] w'] eqn:Hnew.
  - right.
    destruct (upload_loop_progress db n (standardized_files s) (upload_loop_start s w'))
      as (c & s1 & Hloop & HP).
    exists db, w', c, s1. split; [done|]. split; [done|]. split; [|done].
    unfold upload_to_mongodb. unfold_wrapper. cbn. rewrite Hnew. cbn.
    unfold upload_loop_start in Hloop. subst n. rewrite Hloop. reflexivity.
  - left. exists e, w'. split; [done|].
    unfold upload_to_mongodb. unfold_wrapper. cbn. rewrite Hnew. cbn.
    eexists. split; [reflexivity|]. done.
Qed.

(** The parse loop returns when the parser can always be built and no
    upload is named like a directory of the staging area. *)
Lemma parse_loop_returns (files : list uploaded_file) total (s0 : state W) :
  (forall w, exists p w', new_parser w = (Ok p, w')) ->
  (forall f, f ∈ files -> is_directory (temp_path (upload_name f)) = false) ->
  exists c s1, for_enumerate (parse_item total) files 0 0 s0 = Returned c s1
               /\ parse_progress s0 files s1.
Proof.
  intros Hnew Hnames.
  apply (for_enumerate_returns_ind (parse_item total) (parse_progress s0) files)
    with (visited := []); [| apply parse_progress_start].
  intros visited f i c t Hf HP.
  destruct (parse_item_cases total i f c t)
    as [(e & t' & ? & _ & _ & _ & _ & _ & [(Hdir & _) | (_ & w' & Herr)])
       | (c' & t' & evs1 & p & w' & Hr & _)].
  - rewrite Hnames in Hdir by done. discriminate.
  - destruct (Hnew (world t)) as (p & w'' & Hok). congruence.
  - exists c', t'. split; [done|]. by eapply parse_progress_step.
Qed.

Lemma parse_failure_reported (evs : list event) name ext :
  WarnSkipping name ext ∈ evs -> name ∈ parse_failures evs.
Proof.
  intros Hin. unfold parse_failures. apply list_elem_of_omap.
  exists (WarnSkipping name ext). done.
Qed.

Lemma supported_by_name (f g : uploaded_file) :
  upload_name f = upload_name g -> supported f = supported g.
Proof. unfold supported. by intros ->. Qed.

(** Claim C2.  In a run of [process_uploaded_files] (with a parser that can
    be built and no upload named like a directory of the staging area, so
    that the loop runs to its end) every file whose extension is outside
    [SUPPORTED_EXTENSIONS] is reported by the warning of line 82, is never
    handed to [parse_resume], and is not among the files [processed_files]
    comes from: those all have a supported extension. *)
Theorem C2_unsupported_files_are_reported_never_accepted
    (files : list uploaded_file) (s : state W) :
  (forall w, exists p w', new_parser w = (Ok p, w')) ->
  (forall f, f ∈ files -> is_directory (temp_path (upload_name f)) = false) ->
  exists s' evs accepted,
    process_uploaded_files files s = Returned tt s'
    /\ log s' = log s ++ evs
    /\ processed_files s' = map (fun f => parsed_path (upload_name f)) accepted
    /\ accepted `sublist_of` filter (fun f => supported f = true) files
    /\ forall f, f ∈ files -> supported f = false ->
         WarnSkipping (upload_name f) (py_lower (path_suffix (upload_name f))) ∈ evs
         /\ upload_name f ∈ parse_failures evs
         /\ (f ∉ accepted)
         /\ (temp_path (upload_name f) ∉ parse_calls evs).
Proof.
  intros Hnew Hnames.
  set (n := List.length files).
  destruct (parse_loop_returns files n (parse_loop_start n s) Hnew Hnames)
    as (c & s1 & Hloop & _ & _ & _ & evs & mask & Hlog & Hlen & Hpf & Hfail & Hcalls & Hsel & Hskip).
  exists (parse_loop_end c n s1), ([WriteProcessing n] ++ evs ++ [StatusProcessed c n]),
         (select mask files).
  split; [rewrite process_uploaded_files_unfold; fold n; by rewrite Hloop|].
  split; [cbn; rewrite Hlog; cbn; by rewrite <- !app_assoc|].
  split; [exact Hpf|].
  assert (Hsub : select mask files `sublist_of` filter (fun f => supported f = true) files)
    by (by apply select_sublist_filter).
  split; [exact Hsub|].
  intros f Hf Hunsup.
  assert (Hwarn : WarnSkipping (upload_name f) (py_lower (path_suffix (upload_name f)))
                  ∈ [WriteProcessing n] ++ evs ++ [StatusProcessed c n]).
  { apply elem_of_app. right. apply elem_of_app. left. by apply Hskip. }
  split; [exact Hwarn|]. split; [by eapply parse_failure_reported|]. split.
  - intros Hacc. pose proof (elem_of_sublist _ _ _ Hacc Hsub) as Hacc'.
    apply list_elem_of_filter in Hacc' as [Hacc' _]. congruence.
  - unfold parse_calls in *. rewrite !omap_app, Hcalls. cbn. rewrite app_nil_r.
    intros (g & Hname & Hg)%list_elem_of_fmap.
    apply list_elem_of_filter in Hg as [Hg _].
    injection Hname as Hname. rewrite (supported_by_name f g Hname) in Hunsup. congruence.
Qed.

(** Claim C6, amended.  The parse stage does not look at the staging area:
    a run of [process_uploaded_files] hands every file with a supported
    extension to [parse_resume], once and in batch order, whether or not a
    standardized artifact is staged for it.  Only the standardize stage
    skips work for a staged artifact. *)
Theorem C6_parse_stage_extracts_every_supported_file
    (files : list uploaded_file) (s s' : state W) :
  process_uploaded_files files s = Returned tt s' ->
  exists evs,
    log s' = log s ++ evs
    /\ parse_calls evs
       = map (fun f => temp_path (upload_name f)) (filter (fun f => supported f = true) files).
Proof.
  intros Hrun.
  destruct (process_uploaded_files_returned files s s' Hrun)
    as (c & s1 & -> & _ & _ & _ & evs & mask & Hlog & _ & _ & _ & Hcalls & _).
  set (n := List.length files) in *.
  exists ([WriteProcessing n] ++ evs ++ [StatusProcessed c n]).
  split; [cbn; rewrite Hlog; cbn; by rewrite <- !app_assoc|].
  unfold parse_calls in *. rewrite !omap_app, Hcalls. cbn. by rewrite app_nil_r.
Qed.

(** *** What a completed stage leaves behind *)

Lemma parse_stage_summary (files : list uploaded_file) (s s' : state W) :
  process_uploaded_files files s = Returned tt s' ->
  exists evs mask,
    log s' = log s ++ evs
    /\ List.length mask = List.length files
    /\ processed_files s'
       = map (fun f => parsed_path (upload_name f)) (select mask files)
    /\ parse_failures evs = map upload_name (select (negb <$> mask) files)
    /\ standardized_files s' = standardized_files s
    /\ uploaded_files s' = uploaded_files s.
Proof.
  intros Hrun.
  destruct (process_uploaded_files_returned files s s' Hrun)
    as (c & s1 & -> & _ & Hsf & Hup & evs & mask & Hlog & Hlen & Hpf & Hfail & _).
  set (n := List.length files) in *.
  exists ([WriteProcessing n] ++ evs ++ [StatusProcessed c n]), mask.
  split; [cbn; rewrite Hlog; cbn; by rewrite <- !app_assoc|].
  split; [done|]. split; [exact Hpf|]. split; [|done].
  unfold parse_failures in *. rewrite !omap_app, Hfail. cbn. by rewrite app_nil_r.
Qed.

Lemma standardize_stage_summary (s s' : state W) :
  standardize_resumes s = Returned tt s' ->
  exists evs mask attempted,
    (attempted = processed_files s \/ attempted = [])
    /\ log s' = log s ++ evs
    /\ standardize_attempts evs = map path_name attempted
    /\ List.length mask = List.length attempted
    /\ standardized_files s' = map standardized_path (select mask attempted)
    /\ standardize_failures evs = map path_name (select (negb <$> mask) attempted)
    /\ processed_files s' = processed_files s
    /\ uploaded_files s' = uploaded_files s.
Proof.
  intros Hrun.
  destruct (standardize_resumes_cases s)
    as [(e & w' & _ & _ & t & Hr & _)
       | [(e & w' & _ & _ & t & Hr & Hsf & Hpf & Hup & _ & _ & Hlog)
         | (sz & w' & c & t & _ & _ & Hr & _ & Hpf & Hup & evs & mask & Hlog & Hlen & Hsf & Hfail & Hatt)]];
    rewrite Hrun in Hr; [discriminate | |]; injection Hr as ->.
  - eexists _, [], []. split; [by right|]. split; [exact Hlog|].
    repeat split; done.
  - set (n := List.length (processed_files s)) in *.
    exists ([WriteStandardizing n] ++ evs ++ [StatusStandardized c n]), mask, (processed_files s).
    split; [by left|].
    split; [cbn; rewrite Hlog; cbn; by rewrite <- !app_assoc|].
    unfold standardize_attempts, standardize_failures in *.
    rewrite !omap_app, Hatt, Hfail. cbn. rewrite !app_nil_r.
    repeat split; try done.
Qed.

Lemma upload_stage_summary (s : state W) :
  exists s' evs mask attempted,
    upload_to_mongodb s = Returned tt s'
    /\ (attempted = standardized_files s \/ attempted = [])
    /\ log s' = log s ++ evs
    /\ upload_attempts evs = map path_name attempted
    /\ List.length mask = List.length attempted
    /\ uploaded_files s' = uploaded_files s ++ map path_name (select mask attempted)
    /\ upload_failures evs = map path_name (select (negb <$> mask) attempted)
    /\ standardized_files s' = standardized_files s
    /\ fs s' = fs s.
Proof.
  destruct (upload_to_mongodb_cases s)
    as [(e & w' & Hnew & t & Hr & Hup & Hsf & Hfs & _ & Hlog)
       | (db & w' & c & t & _ & _ & Hr & _ & _ & Hsf & Hfs & evs & mask & Hlog & Hlen & Hup & Hfail & Hatt)].
  - exists t, [ErrorConnecting e], [], []. split; [done|]. split; [by right|].
    split; [done|]. cbn. rewrite app_nil_r. repeat split; done.
  - set (n := List.length (standardized_files s)) in *.
    exists (upload_loop_end c n t), (evs ++ [StatusUploaded c n]), mask, (standardized_files s).
    split; [done|]. split; [by left|].
    split; [cbn; rewrite Hlog; cbn; by rewrite <- !app_assoc|].
    unfold upload_attempts, upload_failures in *.
    rewrite !omap_app, Hatt, Hfail. cbn. rewrite !app_nil_r.
    repeat split; try done.
Qed.


(** One upload that goes through. *)
Lemma upload_item_succeeds db total i q c (s : state W) v w' :
  is_directory q = false ->
  fs s !! q = Some (FJson v) ->
  insert_or_update_resume db v (world s) = (Ok tt, w') ->
  exists s', upload_item db total i q c s = Returned (c + 1) s'
             /\ uploaded_files s' = uploaded_files s ++ [path_name q]
             /\ standardized_files s' = standardized_files s
             /\ fs s' = fs s.
Proof.
  intros Hdir Hfs Hput. unfold_stage. rewrite Hdir. cbn. rewrite Hfs. cbn.
  rewrite Hput. cbn. eexists. split; [reflexivity|]. done.
Qed.

Lemma upload_stage_all_succeed (s : state W) :
  (forall w, exists db w', new_db_manager w = (Ok db, w')) ->
  (forall db v w, exists w', insert_or_update_resume db v w = (Ok tt, w')) ->
  (forall p, p ∈ standardized_files s -> readable s p) ->
  exists s', upload_to_mongodb s = Returned tt s'
             /\ uploaded_files s' = uploaded_files s ++ map path_name (standardized_files s)
             /\ standardized_files s' = standardized_files s
             /\ fs s' = fs s.
Proof.
  intros Hnew Hput Hfiles.
  destruct (Hnew (world s)) as (db & w' & Hdb).
  set (n := List.length (standardized_files s)).
  set (s0 := upload_loop_start s w').
  pose (P := fun (visited : list path) (t : state W) =>
    uploaded_files t = uploaded_files s ++ map path_name visited
    /\ standardized_files t = standardized_files s /\ fs t = fs s).
  destruct (for_enumerate_returns_ind (upload_item db n) P (standardized_files s))
    with (visited := @nil path) (i := 0) (c := 0) (s := s0)
    as (c & s1 & Hloop & Hup & Hsf & Hfs).
  - intros visited q i c t Hq (Hup & Hsf & Hfs).
    destruct (Hfiles q Hq) as (Hdir & v & Hv).
    destruct (Hput db v (world t)) as (w1 & Hw1).
    destruct (upload_item_succeeds db n i q c t v w1) as (t1 & Hrun & Hup1 & Hsf1 & Hfs1);
      [done | by rewrite Hfs | done |].
    exists (c + 1), t1. split; [done|].
    split; [|split; congruence]. by rewrite Hup1, Hup, map_app, <- app_assoc.
  - split; [|done]. cbn. by rewrite app_nil_r.
  - exists (upload_loop_end c n s1). split; [|done].
    unfold upload_to_mongodb. unfold_wrapper. cbn. rewrite Hdb. cbn.
    fold n. unfold s0, upload_loop_start in Hloop. rewrite Hloop. reflexivity.
Qed.

Lemma repeat_stage_succ (k : nat) (stage : M W unit) (s : state W) :
  repeat_stage (S k) stage s
  = match stage s with
    | Returned _ s' => repeat_stage k stage s'
    | Raised e s' => Raised e s'
    end.
Proof. reflexivity. Qed.

(** The last of several runs of a stage starts from a state that still
    satisfies whatever every run preserves. *)
Lemma repeat_stage_last (I : state W -> Prop) (stage : M W unit) :
  (forall a b, I a -> stage a = Returned tt b -> I b) ->
  forall k s s', I s -> repeat_stage (S k) stage s = Returned tt s' ->
    exists u, I u /\ stage u = Returned tt s'.
Proof.
  intros Hpres. induction k as [|k IH]; intros s s' HI Hrun.
  - rewrite repeat_stage_succ in Hrun.
    destruct (stage s) as [[] t|e t] eqn:Hs; [|discriminate].
    cbn in Hrun. injection Hrun as <-. eauto.
  - rewrite repeat_stage_succ in Hrun.
    destruct (stage s) as [[] t|e t] eqn:Hs; [|discriminate].
    eapply IH; [|exact Hrun]. by eapply Hpres.
Qed.

(** Claim C10.  The store stage does not reset [uploaded_files]: with a
    store that can always be built and always accepts, [k] runs of
    [upload_to_mongodb] over [n] readable artifacts append their names [k]
    times, [k * n] entries.  However often the parse or the standardize
    stage is run, its list holds no more entries than its last input. *)
Theorem C10_store_stage_accumulates (k : nat) (s : state W) :
  (forall w, exists db w', new_db_manager w = (Ok db, w')) ->
  (forall db v w, exists w', insert_or_update_resume db v w = (Ok tt, w')) ->
  (forall p, p ∈ standardized_files s -> readable s p) ->
  (exists s',
      repeat_stage k upload_to_mongodb s = Returned tt s'
      /\ uploaded_files s'
         = uploaded_files s ++ List.concat (replicate k (map path_name (standardized_files s)))
      /\ List.length (uploaded_files s')
         = List.length (uploaded_files s) + k * List.length (standardized_files s))
  /\ (forall j files (t t' : state W),
        repeat_stage (S j) (process_uploaded_files files) t = Returned tt t' ->
        List.length (processed_files t') <= List.length files)
  /\ (forall j (t t' : state W),
        repeat_stage (S j) standardize_resumes t = Returned tt t' ->
        List.length (standardized_files t') <= List.length (processed_files t)).
Proof.
  intros Hnew Hput Hfiles. split; [|split].
  - assert (Hlist : exists s',
              repeat_stage k upload_to_mongodb s = Returned tt s'
              /\ uploaded_files s'
                 = uploaded_files s
                   ++ List.concat (replicate k (map path_name (standardized_files s)))
              /\ standardized_files s' = standardized_files s /\ fs s' = fs s).
    { clear -Hnew Hput Hfiles. revert s Hfiles. induction k as [|k IH]; intros s Hfiles.
      - exists s. cbn. by rewrite app_nil_r.
      - destruct (upload_stage_all_succeed s Hnew Hput Hfiles) as (s1 & Hrun & Hup & Hsf & Hfs).
        destruct (IH s1) as (s' & Hrest & Hup' & Hsf' & Hfs').
        { intros p Hp. rewrite Hsf in Hp. destruct (Hfiles p Hp) as (Hdir & v & Hv).
          split; [done|]. exists v. by rewrite Hfs. }
        exists s'. rewrite repeat_stage_succ, Hrun. split; [done|].
        split; [|split; congruence].
        rewrite Hup', Hup, Hsf. cbn. by rewrite <- app_assoc. }
    destruct Hlist as (s' & Hrun & Hup & _). exists s'. split; [done|]. split; [done|].
    rewrite Hup, length_app. f_equal.
    clear. induction k as [|k IH]; [done|].
    cbn. rewrite length_app, IH, length_map. done.
  - intros j files t t' Hrun.
    destruct (repeat_stage_last (fun _ => True) (process_uploaded_files files))
      with (k := j) (s := t) (s' := t') as (u & _ & Hlast); [done..|].
    destruct (parse_stage_summary files u t' Hlast) as (evs & mask & _ & _ & -> & _).
    rewrite length_map. apply select_length.
  - intros j t t' Hrun.
    destruct (repeat_stage_last (fun u => processed_files u = processed_files t)
                standardize_resumes)
      with (k := j) (s := t) (s' := t') as (u & Hpf & Hlast); [|done..|].
    { intros a b Ha Hab.
      destruct (standardize_stage_summary a b Hab) as (_ & _ & _ & _ & _ & _ & _ & _ & _ & -> & _).
      done. }
    destruct (standardize_stage_summary u t' Hlast)
      as (evs & mask & attempted & Hatt & _ & _ & _ & -> & _).
    rewrite length_map. etrans; [apply select_length|].
    destruct Hatt as [-> | ->]; [by rewrite Hpf | cbn; lia].
Qed.

(** One iteration on a record whose content is blank and whose artifact is
    not staged: a warning, and nothing else. *)
Lemma standardize_item_blank sz total i q c (s : state W) m content :
  artifact_present s (standardized_path q) = false ->
  is_directory q = false ->
  fs s !! q = Some (FJson (JObj m)) ->
  m !! "content" = Some (JStr content) ->
  all_space content = true ->
  standardize_item sz total i q c s
  = Returned c
      (with_log (log s ++ [StatusStandardizing (i + 1) total (path_name q);
                           WarnEmptyContent (path_name q)]) s).
Proof.
  intros Habs Hdir Hfs Hcontent Hblank.
  apply py_strip_empty in Hblank.
  unfold artifact_present in Habs.
  unfold_stage. cbn. rewrite Habs. cbn. rewrite Hdir. cbn. rewrite Hfs. cbn.
  rewrite Hcontent. cbn. rewrite Hblank. cbn.
  rewrite <- app_assoc. reflexivity.
Qed.

(** Claim C3, amended.  For a parsed record whose content is empty or white
    space only and whose standardized artifact is not staged, a run of
    [standardize_resumes] reports the item with the empty-content warning of
    line 151, builds no prompt and makes no model call for it, and neither
    appends nor writes its artifact.  (When the artifact is staged, line 137
    reuses it before the content is looked at.) *)
Theorem C3_blank_record_without_artifact_is_rejected (s : state W)
    (file_name : string) (m : gmap string json) (content : string) sz w' :
  let q := parsed_path file_name in
  q ∈ processed_files s ->
  (forall p, p ∈ processed_files s -> path_dir p = ParsedDir) ->
  fs s !! q = Some (FJson (JObj m)) ->
  m !! "content" = Some (JStr content) ->
  all_space content = true ->
  fs s !! standardized_path q = None ->
  new_standardizer (world s) = (Ok sz, w') ->
  exists s' evs,
    standardize_resumes s = Returned tt s'
    /\ log s' = log s ++ evs
    /\ WarnEmptyContent (path_name q) ∈ evs
    /\ llm_calls_for q evs = []
    /\ prompts_built_for q evs = []
    /\ (standardized_path q ∉ standardized_files s')
    /\ fs s' !! standardized_path q = None.
Proof.
  intros q Hin Hdirs Hfs Hcontent Hblank Hnone Hnew.
  assert (Hq : q = parsed_path file_name) by reflexivity.
  assert (Hqdir : is_directory q = false) by apply parsed_path_not_directory.
  assert (Houtdir : is_directory (standardized_path q) = false)
    by apply standardized_parsed_path_not_directory.
  assert (Hout_json : standardized_path q
                      = Path StandardizedDir (path_stem file_name ++ ".json")%string)
    by reflexivity.
  clearbody q.
  set (out := standardized_path q) in *.
  set (n := List.length (processed_files s)).
  set (s0 := standardize_loop_start s w').
  pose (P := fun (visited : list path) (t : state W) =>
    fs t !! q = Some (FJson (JObj m))
    /\ fs t !! out = None
    /\ (out ∉ standardized_files t)
    /\ exists evs, log t = log s0 ++ evs
         /\ llm_calls_for q evs = [] /\ prompts_built_for q evs = []
         /\ (q ∈ visited -> WarnEmptyContent (path_name q) ∈ evs)).
  destruct (for_enumerate_returns_ind (standardize_item sz n) P (processed_files s))
    with (visited := @nil path) (i := 0) (c := 0) (s := s0)
    as (c & s1 & Hloop & Hfs1 & Hnone1 & Hnotin & evs & Hlog & Hcalls & Hprompts & Hwarn).
  - intros visited x i c t Hx (Hfst & Hnonet & Hnotin & evs & Hlog & Hcalls & Hprompts & Hwarn).
    assert (Habs : artifact_present t out = false).
    { unfold artifact_present. rewrite Houtdir, Hnonet. done. }
    destruct (decide (x = q)) as [-> | Hne].
    + exists c. eexists. split.
      { eapply standardize_item_blank; eauto. }
      cbn. split; [done|]. split; [done|]. split; [done|].
      eexists. split; [by rewrite Hlog, <- app_assoc|].
      rewrite llm_calls_for_app, prompts_built_for_app, Hcalls, Hprompts.
      split; [done|]. split; [done|]. intros _.
      apply elem_of_app. right. right. left.
    + assert (Hout_ne : standardized_path x <> out).
      { intros E. apply Hne.
        pose proof (Hdirs _ Hx) as Hdx. pose proof (Hdirs _ Hin) as Hdq.
        destruct x as [dx nx], q as [dq nq].
        unfold out, standardized_path in E. cbn in *. injection E as ->.
        by subst. }
      assert (Hraw_ne : raw_log_path x <> out).
      { rewrite Hout_json. apply raw_log_path_not_json_artifact. }
      assert (Hraw_q : raw_log_path x <> q) by (rewrite Hq; done).
      assert (Hout_q : standardized_path x <> q) by (rewrite Hq; done).
      destruct (standardize_item_cases sz n i x c t)
        as (c1 & t1 & evs1 & Hrun & _ & _ & _ & Hlog1 & _ & Hother & Hcases).
      exists c1, t1. split; [done|].
      assert (Hframe : fs t1 !! q = fs t !! q /\ fs t1 !! out = fs t !! out
                       /\ out ∉ standardized_files t1).
      { destruct Hcases
          as [(_ & -> & _ & -> & _)
             | [(_ & -> & _ & _ & [-> | [[r ->] | (r & written & v & e & _ & ->)]])
               | (_ & -> & _ & _ & r & d & -> & _)]];
          rewrite ?lookup_insert_ne by done; repeat split; try done.
        all: rewrite elem_of_app, list_elem_of_singleton; intros [?|?]; by auto. }
      destruct Hframe as (Hq1 & Ho1 & Hnotin1).
      split; [by rewrite Hq1|]. split; [by rewrite Ho1|]. split; [done|].
      exists (evs ++ evs1). rewrite Hlog1, Hlog, app_assoc. split; [done|].
      rewrite llm_calls_for_app, prompts_built_for_app, Hcalls, Hprompts.
      destruct (Hother q) as [-> ->]; [done|].
      split; [done|]. split; [done|].
      intros [Hv | Hv%list_elem_of_singleton]%elem_of_app; [|by subst].
      apply elem_of_app. left. by apply Hwarn.
  - split; [done|]. split; [done|]. split; [by apply not_elem_of_nil|].
    exists []. rewrite app_nil_r. repeat split; try done.
    intros Hv. by apply elem_of_nil in Hv.
  - exists (standardize_loop_end c n s1),
           ([WriteStandardizing n] ++ evs ++ [StatusStandardized c n]).
    split; [by apply (standardize_resumes_unfold s sz w' Hnew)|].
    split; [cbn; rewrite Hlog; cbn; by rewrite <- !app_assoc|].
    rewrite !llm_calls_for_app, !prompts_built_for_app, Hcalls, Hprompts.
    split; [|done].
    apply elem_of_app. right. apply elem_of_app. left. by apply Hwarn.
Qed.

Lemma nonblank_strip_nonempty (content : string) :
  all_space content = false -> String.eqb (py_strip content) EmptyString = false.
Proof.
  intros Hns. apply String.eqb_neq. intros E. apply py_strip_empty in E. congruence.
Qed.


(** Claim C8, where the code departs from it.  Line 171 opens the artifact
    for writing, which creates it, before the [json.dump] of line 172 can
    raise.  When the model's answer is cleaned, parsed and stamped and the
    dump of the stamped object raises, the iteration reports the item as
    failed and appends nothing, and yet leaves a file under the name of the
    artifact, holding what had been written.  Any later iteration over the
    record that still finds this file takes it, at line 137, for a completed
    standardization: it appends the path and counts the record, without a
    prompt and without a call to the model.  [Surrogate] runs the stages on
    such an answer, see [failed_dump_is_taken_for_completion]. *)
Theorem C8_failed_dump_leaves_the_artifact sz total i c (s : state W)
    (file_name : string) (raw m0 : gmap string json)
    (content prompt response cleaned ts written : string) (e : exn) (w1 w2 : W) :
  let q := parsed_path file_name in
  let out := standardized_path q in
  let links := match raw !! "links" with Some v => v | None => JArr [] end in
  fs s !! out = None ->
  fs s !! q = Some (FJson (JObj raw)) ->
  raw !! "content" = Some (JStr content) ->
  all_space content = false ->
  make_standardizer_prompt sz content links = Ok prompt ->
  call_azure_llm sz prompt (world s) = (Ok response, w1) ->
  clean_llm_response sz response = Ok cleaned ->
  json_loads cleaned = Some (JObj m0) ->
  now_isoformat w1 = (ts, w2) ->
  json_dump (JObj (stamp_record ts (path_str gettempdir q) raw m0))
  = DumpRaised e written ->
  exists s1,
    (* the item fails *)
    standardize_item sz total i q c s = Returned c s1
    /\ log s1 = log s ++ [StatusStandardizing (i + 1) total (path_name q);
                          CallMakePrompt q; CallAzureLLM q prompt;
                          ErrorStandardizing (path_name q) e;
                          Progress (i + 1) total]
    /\ standardized_files s1 = standardized_files s
    (* its artifact is there all the same *)
    /\ fs s1 !! out = Some (FRaw written)
    (* and is taken for a completed standardization from then on *)
    /\ forall sz' total' i' c' (s2 : state W),
         fs s2 !! out = fs s1 !! out ->
         standardize_item sz' total' i' q c' s2
         = Returned (c' + 1)
             (with_log (log s2 ++ [StatusStandardizing (i' + 1) total' (path_name q);
                                   Progress (i' + 1) total'])
                (with_standardized_files (standardized_files s2 ++ [out]) s2)).
Proof.
  intros q out links Hnone Hfs Hcontent Hns Hprompt Hllm Hclean Hloads Hnow Hdump.
  apply nonblank_strip_nonempty in Hns.
  assert (Hqdir : is_directory q = false) by apply parsed_path_not_directory.
  assert (Houtdir : is_directory out = false)
    by apply standardized_parsed_path_not_directory.
  subst links. unfold stamp_record in Hdump. subst out. clearbody q.
  assert (Hstep : exists s1,
             standardize_item sz total i q c s = Returned c s1
             /\ log s1 = log s ++ [StatusStandardizing (i + 1) total (path_name q);
                                   CallMakePrompt q; CallAzureLLM q prompt;
                                   ErrorStandardizing (path_name q) e;
                                   Progress (i + 1) total]
             /\ standardized_files s1 = standardized_files s
             /\ fs s1 !! standardized_path q = Some (FRaw written)).
  { unfold_stage. rewrite raw_log_path_not_directory. cbn.
    rewrite Houtdir, Hnone. cbn. rewrite Hqdir. cbn. rewrite Hfs. cbn.
    rewrite Hcontent. cbn. rewrite Hns. cbn. rewrite Hprompt. cbn.
    rewrite Hllm. cbn. rewrite Hclean. cbn. rewrite Hloads. cbn.
    rewrite Hnow. cbn.
    destruct (raw !! "original_filename") as [v|] eqn:Horig; cbn;
      rewrite ?Horig; cbn; rewrite Hdump; cbn;
      (eexists; split; [reflexivity|]; cbn; rewrite <- !app_assoc;
       split; [done|]; split; [done|]; by rewrite lookup_insert_eq). }
  destruct Hstep as (s1 & Hrun & Hlog & Hsf & Hout).
  exists s1. split; [done|]. split; [done|]. split; [done|]. split; [done|].
  intros sz' total' i' c' s2 Hsame. rewrite Hout in Hsame.
  unfold_stage. cbn. rewrite Hsame. cbn. rewrite orb_true_r. cbn.
  by rewrite <- app_assoc.
Qed.

Lemma snoc_neq {A} (l : list A) (x : A) : l ++ [x] <> l.
Proof.
  intros E. apply (f_equal List.length) in E. rewrite length_app in E. cbn in E. lia.
Qed.

(** The iteration that appends to [standardized_files] without finding a
    staged artifact has written one, stamped. *)
Lemma standardize_item_stamps sz total i q c (s : state W) c' s' m v :
  fs s !! q = Some (FJson (JObj m)) ->
  m !! "original_filename" = Some v ->
  artifact_present s (standardized_path q) = false ->
  standardize_item sz total i q c s = Returned c' s' ->
  standardized_files s' = standardized_files s ++ [standardized_path q] ->
  exists d ts w w',
    fs s' !! standardized_path q = Some (FJson (JObj d))
    /\ now_isoformat w = (ts, w')
    /\ d !! "timestamp" = Some (JStr ts)
    /\ d !! "source_file" = Some (JStr (path_str gettempdir q))
    /\ d !! "original_filename" = Some v.
Proof.
  intros Hfs Horig Habs.
  unfold artifact_present in Habs. pose proof Habs as Habs'.
  apply orb_false_elim in Habs' as [Hdir _].
  unfold_stage. rewrite raw_log_path_not_directory. cbn. rewrite Habs, Hdir. cbn.
  destruct (is_directory q); cbn.
  { intros [= <- <-]. cbn. intros E. symmetry in E. by apply snoc_neq in E. }
  rewrite Hfs. cbn. rewrite Horig. cbn.
  repeat (destruct_head; cbn); intros [= <- <-]; cbn; intros E;
    try (symmetry in E; by apply snoc_neq in E).
  all: try match goal with H : value_strip _ = Ok _ |- _ => by cbn in H end.
  all: match goal with
       | H1 : setitem _ "timestamp" _ = Ok _, H2 : setitem _ "source_file" _ = Ok _ |- _ =>
           destruct (stamps_of_object _ _ _ _ _ H1 H2) as (m0 & -> & ->)
       end.
  all: match goal with
       | H : setitem (JObj _) "original_filename" _ = Ok _ |- _ =>
           cbn in H; injection H as <-
       end.
  all: eexists _, _, _, _; split; [by rewrite lookup_insert_eq|]; split; [eassumption|].
  all: by simplify_map_eq.
Qed.

(** Claim C9.  A record accepted by the parse stage carries the name of
    the upload; when the standardize loop then standardizes it, the artifact
    it writes carries a time stamp read from the clock, the path of the
    parsed record as [source_file], and that name as [original_filename]. *)
Theorem C9_standardized_record_is_stamped
    total1 i1 c1 c1' (f : uploaded_file) (s s1 : state W)
    sz total2 i2 c2 c2' (s2 s3 : state W) :
  let q := parsed_path (upload_name f) in
  let out := standardized_path q in
  (* the parse stage accepts the upload *)
  parse_item total1 i1 f c1 s = Returned c1' s1 ->
  processed_files s1 = processed_files s ++ [q] ->
  (* the standardize stage then works on the record as the parse stage
     wrote it *)
  fs s2 !! q = fs s1 !! q ->
  fs s2 !! out = None ->
  standardize_item sz total2 i2 q c2 s2 = Returned c2' s3 ->
  standardized_files s3 = standardized_files s2 ++ [out] ->
  exists d ts w w',
    fs s3 !! out = Some (FJson (JObj d))
    /\ now_isoformat w = (ts, w')
    /\ d !! "timestamp" = Some (JStr ts)
    /\ d !! "source_file" = Some (JStr (path_str gettempdir q))
    /\ d !! "original_filename" = Some (JStr (upload_name f)).
Proof.
  intros q out Hparse Hpf Hsame Hnone Hstd Hsf.
  destruct (parse_item_cases total1 i1 f c1 s)
    as [(e & t & ? & Hr & _) | (c' & t & evs & p & w' & Hr & _ & _ & _ & _ & _ & _ & Hcases)];
    rewrite Hparse in Hr; [discriminate|]. injection Hr as <- <-.
  destruct Hcases as [(_ & Hpf' & _) | [(_ & Hpf' & _) | (_ & _ & _ & _ & _ & m & ts & Hfs & Horig & _)]].
  1,2: rewrite Hpf' in Hpf; symmetry in Hpf; by apply snoc_neq in Hpf.
  eapply standardize_item_stamps; [| exact Horig | | exact Hstd | exact Hsf].
  - rewrite Hsame, Hfs. apply lookup_insert_eq.
  - unfold artifact_present. fold out. rewrite Hnone.
    unfold out, q. by rewrite standardized_parsed_path_not_directory.
Qed.

(** *** No exception leaves the second and third stage from an item *)

Lemma standardize_item_never_raises sz total i q c (s : state W) :
  exists c' s', standardize_item sz total i q c s = Returned c' s'.
Proof.
  destruct (standardize_item_cases sz total i q c s) as (c' & s' & _ & Hrun & _). eauto.
Qed.

Lemma upload_item_never_raises db total i q c (s : state W) :
  exists c' s', upload_item db total i q c s = Returned c' s'.
Proof.
  destruct (upload_item_cases db total i q c s) as (c' & s' & _ & Hrun & _). eauto.
Qed.

Lemma upload_to_mongodb_never_raises (s : state W) :
  exists s', upload_to_mongodb s = Returned tt s'.
Proof. destruct (upload_stage_summary s) as (s' & _ & _ & _ & Hrun & _). eauto. Qed.

Lemma standardize_resumes_raises_only_from_constructor (s : state W) e s' :
  standardize_resumes s = Raised e s' ->
  is_ValueError e = false /\ exists w', new_standardizer (world s) = (Err e, w').
Proof.
  intros Hrun.
  destruct (standardize_resumes_cases s)
    as [(e' & w' & Hnew & Hve & t & Hr & _)
       | [(e' & w' & _ & _ & t & Hr & _) | (sz & w' & c & t & _ & _ & Hr & _)]];
    rewrite Hrun in Hr; try discriminate.
  injection Hr as -> ->. eauto.
Qed.

(** The [try] of the parse loop catches whatever the parser and the
    write of the parsed record raise. *)
Lemma parse_try_never_raises p file_name temp c (s : state W) :
  exists c' s', parse_try p file_name temp c s = Returned c' s'.
Proof. unfold_stage. cbn. repeat (destruct_head; cbn); eauto. Qed.

(** The constructor of the parser is called outside that [try]: what it
    raises leaves [process_uploaded_files]. *)
Lemma process_uploaded_files_propagates_constructor_failure
    (f : uploaded_file) (files : list uploaded_file) (s : state W) e w' :
  is_directory (temp_path (upload_name f)) = false ->
  new_parser (world s) = (Err e, w') ->
  exists s', process_uploaded_files (f :: files) s = Raised e s'
             /\ processed_files s' = []
             /\ processing_complete s' = false
             /\ parse_failures (log s') = parse_failures (log s).
Proof.
  intros Hdir Hnew. rewrite process_uploaded_files_unfold.
  cbn [for_enumerate]. unfold bind at 1.
  unfold parse_item. unfold_wrapper. unfold open_w, f_write. rewrite Hdir.
  unfold_wrapper. cbn. rewrite Hnew. cbn.
  eexists. split; [reflexivity|]. cbn. split; [done|]. split; [done|].
  unfold parse_failures. rewrite <- app_assoc, omap_app. cbn. by rewrite app_nil_r.
Qed.

(** So is the write of the upload into the temporary directory. *)
Lemma process_uploaded_files_propagates_write_failure
    (f : uploaded_file) (files : list uploaded_file) (s : state W) :
  is_directory (temp_path (upload_name f)) = true ->
  exists e s', process_uploaded_files (f :: files) s = Raised e s'
               /\ exn_cls e = IsADirectoryError
               /\ processed_files s' = []
               /\ processing_complete s' = false.
Proof.
  intros Hdir. rewrite process_uploaded_files_unfold.
  cbn [for_enumerate]. unfold bind at 1.
  unfold parse_item. unfold_wrapper. unfold open_w, f_write. rewrite Hdir.
  unfold_wrapper. cbn.
  eexists _, _. split; [reflexivity|]. done.
Qed.

End Properties.

(** ** Further properties of the stages *)

Section Summaries.
Context {W : Type} {RT : Runtime W} {RP : ResumeParser W}
        {RS : ResumeStandardizer W} {DB : ResumeDBManager W}.

(** An invariant of a loop that returned, over the items visited, the local
    counter and the state; the body is entered at the index of its item. *)
Lemma for_enumerate_counted_ind {A C} (body : nat -> A -> C -> M W C)
    (P : list A -> C -> state W -> Prop) (i0 : nat) (l : list A) :
  (forall visited x c s c1 s1,
      List.length visited < List.length l -> P visited c s ->
      body (i0 + List.length visited) x c s = Returned c1 s1 ->
      P (visited ++ [x]) c1 s1) ->
  forall c0 s0 c' s',
    P [] c0 s0 -> for_enumerate body l i0 c0 s0 = Returned c' s' -> P l c' s'.
Proof.
  intros Hbody.
  assert (Hgen : forall rest visited c s c' s',
             List.length visited + List.length rest = List.length l ->
             P visited c s ->
             for_enumerate body rest (i0 + List.length visited) c s = Returned c' s' ->
             P (visited ++ rest) c' s').
  { induction rest as [|x rest IH]; intros visited c s c' s' Hlen HP Hrun.
    - cbn in Hrun. injection Hrun as <- <-. by rewrite app_nil_r.
    - cbn in Hrun. unfold bind in Hrun.
      destruct (body (i0 + List.length visited) x c s) as [c1 s1|e s1] eqn:Hx;
        [|discriminate].
      replace (visited ++ x :: rest) with ((visited ++ [x]) ++ rest)
        by (by rewrite <- app_assoc).
      cbn in Hlen.
      apply (IH (visited ++ [x]) c1 s1).
      + rewrite length_app. cbn. lia.
      + eapply Hbody; [lia | exact HP | exact Hx].
      + rewrite length_app. cbn.
        replace (i0 + (List.length visited + 1)) with (S (i0 + List.length visited)) by lia.
        exact Hrun. }
  intros c0 s0 c' s' HP Hrun.
  apply (Hgen l [] c0 s0 c' s'); [done | done |].
  cbn. by rewrite Nat.add_0_r.
Qed.

(** An invariant of the state a loop leaves, whether it returns or raises. *)
Lemma for_enumerate_outcome_ind {A C} (body : nat -> A -> C -> M W C)
    (I : state W -> Prop) :
  (forall i x c s, I s -> I (outcome_state (body i x c s))) ->
  forall l i c s, I s -> I (outcome_state (for_enumerate body l i c s)).
Proof.
  intros Hbody. induction l as [|x l IH]; intros i c s HI; [done|].
  cbn. unfold bind. specialize (Hbody i x c s HI).
  destruct (body i x c s) as [c1 s1|e s1]; cbn in *; [by apply IH | done].
Qed.

(** *** The summary line of each stage agrees with its list *)

(** Property X1.  When [process_uploaded_files] returns, the last thing it
    shows is the summary line of line 104; the count in it is the length of
    [processed_files] and the total is the size of the batch.
    [processing_complete] is set, the two later flags are cleared. *)
Theorem parse_summary_counts_processed_files
    (files : list uploaded_file) (s s' : state W) :
  process_uploaded_files files s = Returned tt s' ->
  last (log s')
  = Some (StatusProcessed (List.length (processed_files s')) (List.length files))
  /\ processing_complete s' = true
  /\ standardizing_complete s' = false
  /\ db_upload_complete s' = false.
Proof.
  rewrite process_uploaded_files_unfold.
  set (n := List.length files).
  destruct (for_enumerate _ _ _ _ _) as [c s1|e s1] eqn:Hloop; [|discriminate].
  intros [= <-].
  pose (P := fun (_ : list uploaded_file) (k : nat) (t : state W) =>
    k = List.length (processed_files t)
    /\ standardizing_complete t = false /\ db_upload_complete t = false).
  assert (HP : P files c s1).
  { apply (for_enumerate_counted_ind (parse_item n) P 0 files) with (c0 := 0)
      (s0 := parse_loop_start n s); [| done | exact Hloop].
    intros visited x k t k1 t1 _ (Hk & Hst & Hdb) Hx.
    destruct (parse_item_cases n (0 + List.length visited) x k t)
      as [(e & t' & ? & Hr & _)
         | (k' & t' & evs & p & w' & Hr & _ & _ & (_ & Hst1 & Hdb1) & _ & _ & _ & Hcases)];
      rewrite Hx in Hr; [discriminate|]. injection Hr as <- <-.
    split; [|split; congruence].
    destruct Hcases as [(_ & -> & -> & _) | [(_ & -> & -> & _) | (_ & -> & -> & _)]];
      rewrite ?length_app; cbn; lia. }
  destruct HP as (-> & Hst & Hdb).
  cbn. rewrite last_snoc. done.
Qed.

(** Property X2.  When the standardizer can be built and [standardize_resumes]
    returns, its last output is the summary line of line 182; the count in it
    is the length of [standardized_files], reused artifacts included, and the
    total is the length of [processed_files].  [standardizing_complete] is set
    and the two other flags are left as they were. *)
Theorem standardize_summary_counts_standardized_files (s s' : state W) sz w' :
  new_standardizer (world s) = (Ok sz, w') ->
  standardize_resumes s = Returned tt s' ->
  last (log s')
  = Some (StatusStandardized (List.length (standardized_files s'))
            (List.length (processed_files s)))
  /\ standardizing_complete s' = true
  /\ processing_complete s' = processing_complete s
  /\ db_upload_complete s' = db_upload_complete s.
Proof.
  intros Hnew Hrun.
  set (n := List.length (processed_files s)).
  destruct (standardize_loop_progress sz n (processed_files s) (standardize_loop_start s w'))
    as (c & s1 & Hloop & (Hpc & _ & Hdb) & _).
  rewrite (standardize_resumes_unfold s sz w' Hnew c s1 Hloop) in Hrun.
  injection Hrun as <-.
  pose (P := fun (_ : list path) (k : nat) (t : state W) =>
    k = List.length (standardized_files t)).
  assert (HP : P (processed_files s) c s1).
  { apply (for_enumerate_counted_ind (standardize_item sz n) P 0 (processed_files s))
      with (c0 := 0) (s0 := standardize_loop_start s w'); [| done | exact Hloop].
    intros visited x k t k1 t1 _ Hk Hx. unfold P in *.
    destruct (standardize_item_cases sz n (0 + List.length visited) x k t)
      as (k' & t' & evs & Hr & _ & _ & _ & _ & _ & _ & Hcases).
    rewrite Hx in Hr. injection Hr as <- <-.
    destruct Hcases as [(_ & -> & -> & _) | [(_ & -> & -> & _) | (_ & -> & -> & _)]];
      rewrite ?length_app; cbn; lia. }
  unfold P in HP. subst c. cbn. rewrite last_snoc. cbn in *. done.
Qed.

(** Property X3.  When the store manager can be built, [upload_to_mongodb]
    ends with the summary line of line 219.  Its count is the number of names
    this run appended to [uploaded_files], at most the number of standardized
    artifacts, and not the length of [uploaded_files], which keeps the names
    of earlier runs. *)
Theorem upload_summary_counts_this_run (s s' : state W) db w' :
  new_db_manager (world s) = (Ok db, w') ->
  upload_to_mongodb s = Returned tt s' ->
  exists uploaded_count,
    last (log s')
    = Some (StatusUploaded uploaded_count (List.length (standardized_files s)))
    /\ uploaded_count <= List.length (standardized_files s)
    /\ List.length (uploaded_files s')
       = List.length (uploaded_files s) + uploaded_count
    /\ db_upload_complete s' = true.
Proof.
  intros Hnew Hrun.
  set (n := List.length (standardized_files s)).
  destruct (upload_loop_progress db n (standardized_files s) (upload_loop_start s w'))
    as (c & s1 & Hloop & _).
  assert (Hrun' : upload_to_mongodb s = Returned tt (upload_loop_end c n s1)).
  { unfold upload_to_mongodb. unfold_wrapper. cbn. rewrite Hnew. cbn.
    fold n. unfold upload_loop_start in Hloop. rewrite Hloop. reflexivity. }
  rewrite Hrun' in Hrun. injection Hrun as <-.
  pose (P := fun (visited : list path) (k : nat) (t : state W) =>
    k <= List.length visited
    /\ List.length (uploaded_files t) = List.length (uploaded_files s) + k).
  assert (HP : P (standardized_files s) c s1).
  { apply (for_enumerate_counted_ind (upload_item db n) P 0 (standardized_files s))
      with (c0 := 0) (s0 := upload_loop_start s w'); [| split; cbn; lia | exact Hloop].
    intros visited x k t k1 t1 _ (Hle & Hlen) Hx. unfold P.
    destruct (upload_item_cases db n (0 + List.length visited) x k t)
      as (k' & t' & evs & Hr & _ & _ & _ & _ & _ & _ & Hcases).
    rewrite Hx in Hr. injection Hr as <- <-.
    destruct Hcases as [(-> & -> & _) | (-> & -> & _)];
      rewrite !length_app; cbn; lia. }
  destruct HP as (Hle & Hlen).
  exists c. cbn. rewrite last_snoc. done.
Qed.
End Summaries.

Section Constructors.
Context {W : Type} {RT : Runtime W} {RP : ResumeParser W}
        {RS : ResumeStandardizer W} {DB : ResumeDBManager W}.

(** *** A collaborator that cannot be built *)

Lemma standardize_resumes_init_failure (s : state W) e w' :
  new_standardizer (world s) = (Err e, w') ->
  let n := List.length (processed_files s) in
  let o := standardize_resumes s in
  (if is_ValueError e
   then o = Returned tt (outcome_state o)
        /\ log (outcome_state o)
           = log s ++ [WriteStandardizing n; ErrorInitStandardizer e]
   else o = Raised e (outcome_state o)
        /\ log (outcome_state o) = log s ++ [WriteStandardizing n])
  /\ standardized_files (outcome_state o) = []
  /\ standardizing_complete (outcome_state o) = false
  /\ processed_files (outcome_state o) = processed_files s
  /\ fs (outcome_state o) = fs s.
Proof.
  intros Hnew n o. subst n o.
  unfold standardize_resumes. unfold_wrapper. cbn. rewrite Hnew. cbn.
  destruct (is_ValueError e); cbn; rewrite <- ?app_assoc; done.
Qed.

(** Property X4.  When the constructor of the standardizer raises, no record
    is visited.  A [ValueError] is reported by line 122 and the stage returns;
    any other exception leaves [standardize_resumes].  Either way
    [standardized_files] is empty, [standardizing_complete] is false, and
    [processed_files] and the staging area are as before. *)
Theorem standardizer_constructor_failure (s : state W) e w' :
  new_standardizer (world s) = (Err e, w') ->
  let n := List.length (processed_files s) in
  let o := standardize_resumes s in
  (if is_ValueError e
   then o = Returned tt (outcome_state o)
        /\ log (outcome_state o)
           = log s ++ [WriteStandardizing n; ErrorInitStandardizer e]
   else o = Raised e (outcome_state o)
        /\ log (outcome_state o) = log s ++ [WriteStandardizing n])
  /\ standardized_files (outcome_state o) = []
  /\ standardizing_complete (outcome_state o) = false
  /\ processed_files (outcome_state o) = processed_files s
  /\ fs (outcome_state o) = fs s.
Proof. exact (standardize_resumes_init_failure s e w'). Qed.

Lemma upload_to_mongodb_init_failure (s : state W) e w' :
  new_db_manager (world s) = (Err e, w') ->
  exists s',
    upload_to_mongodb s = Returned tt s'
    /\ log s' = log s ++ [ErrorConnecting e]
    /\ uploaded_files s' = uploaded_files s
    /\ standardized_files s' = standardized_files s
    /\ db_upload_complete s' = false
    /\ fs s' = fs s.
Proof.
  intros Hnew. unfold upload_to_mongodb. unfold_wrapper. cbn. rewrite Hnew. cbn.
  eexists. split; [reflexivity|]. done.
Qed.

(** Property X5.  When the constructor of the store manager raises, whatever
    the exception, [upload_to_mongodb] reports it by line 196 and returns:
    nothing is uploaded, the lists and the staging area are as before, and
    [db_upload_complete] is false. *)
Theorem store_constructor_failure (s : state W) e w' :
  new_db_manager (world s) = (Err e, w') ->
  exists s',
    upload_to_mongodb s = Returned tt s'
    /\ log s' = log s ++ [ErrorConnecting e]
    /\ uploaded_files s' = uploaded_files s
    /\ standardized_files s' = standardized_files s
    /\ db_upload_complete s' = false
    /\ fs s' = fs s.
Proof. exact (upload_to_mongodb_init_failure s e w'). Qed.
End Constructors.

Section Staging.
Context {W : Type} {RT : Runtime W} {RP : ResumeParser W}
        {RS : ResumeStandardizer W} {DB : ResumeDBManager W}.

(** *** Which files a stage writes *)

(** One iteration of the parse loop writes at most the upload and its parsed
    record, and leaves the flags alone, however it ends. *)
Lemma parse_item_frame total i f c (s : state W) :
  let s' := outcome_state (parse_item total i f c s) in
  same_flags s s'
  /\ standardized_files s' = standardized_files s
  /\ forall p, p <> temp_path (upload_name f) -> p <> parsed_path (upload_name f) ->
               fs s' !! p = fs s !! p.
Proof.
  unfold_stage. rewrite supported_spec, parsed_path_not_directory. cbn.
  repeat (destruct_head; cbn); (split; [done|]); (split; [done|]); intros q Hq1 Hq2;
    by rewrite ?lookup_insert_ne.
Qed.

Lemma standardize_item_frame sz total i q c (s : state W) p :
  path_dir p <> StandardizedDir ->
  fs (outcome_state (standardize_item sz total i q c s)) !! p = fs s !! p.
Proof.
  intros Hp.
  destruct (standardize_item_cases sz total i q c s)
    as (c' & s' & evs & -> & _ & _ & _ & _ & _ & _ & Hcases). cbn.
  assert (p <> raw_log_path q) by (intros ->; done).
  assert (p <> standardized_path q) by (intros ->; done).
  destruct Hcases
    as [(_ & _ & _ & -> & _)
       | [(_ & _ & _ & _ & [-> | [[r ->] | (r & written & v & e & _ & ->)]])
         | (_ & _ & _ & _ & r & d & -> & _)]];
    by rewrite ?lookup_insert_ne.
Qed.

Lemma process_uploaded_files_outcome (files : list uploaded_file) (s : state W) :
  let n := List.length files in
  let o := for_enumerate (parse_item n) files 0 0 (parse_loop_start n s) in
  outcome_state (process_uploaded_files files s)
  = match o with
    | Returned c s1 => parse_loop_end c n s1
    | Raised _ s1 => s1
    end.
Proof.
  intros n o. subst n o. rewrite process_uploaded_files_unfold.
  by destruct (for_enumerate _ _ _ _ _).
Qed.

Lemma standardize_resumes_outcome (s : state W) :
  match new_standardizer (world s) with
  | (Ok sz, w') =>
      exists c s1,
        for_enumerate (standardize_item sz (List.length (processed_files s)))
          (processed_files s) 0 0 (standardize_loop_start s w') = Returned c s1
        /\ outcome_state
             (for_enumerate (standardize_item sz (List.length (processed_files s)))
                (processed_files s) 0 0 (standardize_loop_start s w')) = s1
        /\ standardize_resumes s
           = Returned tt (standardize_loop_end c (List.length (processed_files s)) s1)
  | (Err e, w') => fs (outcome_state (standardize_resumes s)) = fs s
                   /\ standardizing_complete (outcome_state (standardize_resumes s)) = false
  end.
Proof.
  destruct (new_standardizer (world s)) as [[sz|e] w'] eqn:Hnew.
  - destruct (standardize_loop_progress sz (List.length (processed_files s))
                (processed_files s) (standardize_loop_start s w')) as (c & s1 & Hloop & _).
    exists c, s1. rewrite Hloop. split; [done|]. split; [done|].
    by apply (standardize_resumes_unfold s sz w').
  - destruct (standardize_resumes_init_failure s e w' Hnew) as (_ & _ & Hflag & _ & Hfs).
    done.
Qed.

Lemma stage_fs_frame :
  (forall (files : list uploaded_file) (s : state W) p,
      path_dir p = StandardizedDir ->
      fs (outcome_state (process_uploaded_files files s)) !! p = fs s !! p)
  /\ (forall (s : state W) p,
        path_dir p <> StandardizedDir ->
        fs (outcome_state (standardize_resumes s)) !! p = fs s !! p)
  /\ (forall (s : state W), fs (outcome_state (upload_to_mongodb s)) = fs s).
Proof.
  split; [|split].
  - intros files s p Hp. rewrite process_uploaded_files_outcome.
    set (n := List.length files).
    pose proof (for_enumerate_outcome_ind (parse_item n)
                  (fun t => fs t !! p = fs s !! p)) as Hind.
    specialize (Hind (fun i x c t Ht =>
      eq_trans (proj2 (proj2 (parse_item_frame n i x c t)) p
                  ltac:(intros ->; done) ltac:(intros ->; done)) Ht)).
    specialize (Hind files 0 0 (parse_loop_start n s) eq_refl).
    by destruct (for_enumerate _ _ _ _ _).
  - intros s p Hp. pose proof (standardize_resumes_outcome s) as Hout.
    destruct (new_standardizer (world s)) as [[sz|e] w'].
    + destruct Hout as (c & s1 & Hloop & Hs1 & ->). cbn. rewrite <- Hs1.
      apply (for_enumerate_outcome_ind
               (standardize_item sz (List.length (processed_files s)))
               (fun t => fs t !! p = fs s !! p)); [|done].
      intros i x k t Ht. by rewrite standardize_item_frame.
    + destruct Hout as [-> _]. done.
  - intros s. destruct (upload_stage_summary s) as (s' & _ & _ & _ & -> & _ & _ & _ & _ & _ & _ & _ & Hfs).
    done.
Qed.

(** Property X6.  However a stage ends, the parse stage leaves every file of
    the standardized directory as it was, the standardize stage leaves every
    file outside the standardized directory as it was, and the store stage
    writes no file at all. *)
Theorem stages_write_only_their_own_directory :
  (forall (files : list uploaded_file) (s : state W) p,
      path_dir p = StandardizedDir ->
      fs (outcome_state (process_uploaded_files files s)) !! p = fs s !! p)
  /\ (forall (s : state W) p,
        path_dir p <> StandardizedDir ->
        fs (outcome_state (standardize_resumes s)) !! p = fs s !! p)
  /\ (forall (s : state W), fs (outcome_state (upload_to_mongodb s)) = fs s).
Proof. exact stage_fs_frame. Qed.

(** *** Every upload reaches the temporary directory *)

(** Property X7.  When [process_uploaded_files] returns, every upload of the
    batch, supported or not, parsed or not, has a file under its name in the
    temporary directory; it holds the bytes of an upload of that name. *)
Theorem every_upload_is_written_to_temp_dir
    (files : list uploaded_file) (s s' : state W) :
  process_uploaded_files files s = Returned tt s' ->
  forall f, f ∈ files ->
    exists g, g ∈ files
      /\ upload_name g = upload_name f
      /\ fs s' !! temp_path (upload_name f) = Some (FRaw (upload_buffer g)).
Proof.
  rewrite process_uploaded_files_unfold. set (n := List.length files).
  destruct (for_enumerate _ _ _ _ _) as [c s1|e s1] eqn:Hloop; [|discriminate].
  intros [= <-]. cbn.
  apply (for_enumerate_returned_ind (parse_item n)
           (fun visited t => forall f, f ∈ visited ->
              exists g, g ∈ visited /\ upload_name g = upload_name f
                /\ fs t !! temp_path (upload_name f) = Some (FRaw (upload_buffer g)))
           files) with (visited := []) (i := 0) (c := 0) (s := parse_loop_start n s)
           (c' := c); [| | exact Hloop].
  - intros visited x i k t k1 t1 _ HP Hx f Hf.
    destruct (parse_item_cases n i x k t)
      as [(e & t' & ? & Hr & _)
         | (k' & t' & evs & p & w' & Hr & _ & _ & _ & _ & _ & _ & Hcases)];
      rewrite Hx in Hr; [discriminate|]. injection Hr as <- <-.
    assert (Hfs : fs t1 !! temp_path (upload_name f)
                  = <[temp_path (upload_name x) := FRaw (upload_buffer x)]> (fs t)
                    !! temp_path (upload_name f)).
    { destruct Hcases
        as [(_ & _ & _ & -> & _)
           | [(_ & _ & _ & [-> | (written & v & e & _ & ->)] & _)
             | (_ & _ & _ & _ & _ & m & ts & -> & _)]];
        try done; by rewrite lookup_insert_ne. }
    rewrite Hfs.
    destruct (decide (upload_name x = upload_name f)) as [Heq | Hne].
    + exists x. split; [apply elem_of_app; right; by apply list_elem_of_singleton|].
      split; [done|]. rewrite Heq. apply lookup_insert_eq.
    + apply elem_of_app in Hf as [Hf | Hf%list_elem_of_singleton]; [|by subst].
      destruct (HP f Hf) as (g & Hg & Hname & Hlook).
      exists g. split; [apply elem_of_app; by left|]. split; [done|].
      rewrite lookup_insert_ne; [done|]. intros [= E]. done.
  - intros f Hf. by apply elem_of_nil in Hf.
Qed.
End Staging.

Section Handoff.
Context {W : Type} {RT : Runtime W} {RP : ResumeParser W}
        {RS : ResumeStandardizer W} {DB : ResumeDBManager W}.

(** *** What one stage hands to the next is on disk *)

(** The session of lines 33-44 holds no artifact. *)
Lemma staged_json_initial_state (w : W) : staged_json (initial_state w).
Proof.
  intros stem content H.
  change (fs (initial_state w)) with (∅ : gmap path file) in H.
  by rewrite lookup_empty in H.
Qed.

Lemma select_complement_nil {A} (mask : list bool) (l : list A) :
  List.length mask = List.length l ->
  List.length (select mask l) = List.length l ->
  select (negb <$> mask) l = [].
Proof.
  revert l. induction mask as [|b mask IH]; intros [|x l] Hlen Hfull; try done.
  cbn in *. destruct b; cbn in *.
  - apply IH; lia.
  - pose proof (select_length mask l). lia.
Qed.

(** Property X8.  As long as every [json.dump] completes: when
    [process_uploaded_files] returns, every path in [processed_files] is the
    parsed record of an upload of the batch with a supported extension, and
    the file at that path holds a JSON object that carries the name of the
    upload as [original_filename] and a [timestamp]. *)
Theorem processed_files_are_staged_records
    (files : list uploaded_file) (s s' : state W) :
  (forall v, json_dump v = Dumped) ->
  process_uploaded_files files s = Returned tt s' ->
  forall p, p ∈ processed_files s' ->
    exists f m ts,
      f ∈ files /\ supported f = true /\ p = parsed_path (upload_name f)
      /\ fs s' !! p = Some (FJson (JObj m))
      /\ m !! "original_filename" = Some (JStr (upload_name f))
      /\ m !! "timestamp" = Some (JStr ts).
Proof.
  intros Hdump.
  rewrite process_uploaded_files_unfold. set (n := List.length files).
  destruct (for_enumerate _ _ _ _ _) as [c s1|e s1] eqn:Hloop; [|discriminate].
  intros [= <-]. cbn.
  apply (for_enumerate_returned_ind (parse_item n)
           (fun visited t => forall p, p ∈ processed_files t ->
              exists f m ts,
                f ∈ visited /\ supported f = true /\ p = parsed_path (upload_name f)
                /\ fs t !! p = Some (FJson (JObj m))
                /\ m !! "original_filename" = Some (JStr (upload_name f))
                /\ m !! "timestamp" = Some (JStr ts))
           files) with (visited := []) (i := 0) (c := 0) (s := parse_loop_start n s)
           (c' := c); [| | exact Hloop].
  - intros visited x i k t k1 t1 _ HP Hx p Hp.
    destruct (parse_item_cases n i x k t)
      as [(e & t' & ? & Hr & _)
         | (k' & t' & evs & q & w' & Hr & _ & _ & _ & _ & _ & _ & Hcases)];
      rewrite Hx in Hr; [discriminate|]. injection Hr as <- <-.
    assert (Hold : p ∈ processed_files t -> fs t1 !! p = fs t !! p ->
              exists f m ts,
                f ∈ visited ++ [x] /\ supported f = true /\ p = parsed_path (upload_name f)
                /\ fs t1 !! p = Some (FJson (JObj m))
                /\ m !! "original_filename" = Some (JStr (upload_name f))
                /\ m !! "timestamp" = Some (JStr ts)).
    { intros Hin Hsame. destruct (HP p Hin) as (f & m & ts & Hf & Hs & Hpf & Hfs & Ho & Ht).
      exists f, m, ts. rewrite Hsame. repeat split; try done. apply elem_of_app. by left. }
    assert (Htemp : p ∈ processed_files t -> p <> temp_path (upload_name x)).
    { intros Hin. destruct (HP p Hin) as (f & _ & _ & _ & _ & -> & _). done. }
    destruct Hcases
      as [(_ & Hpf & _ & Hfs & _)
         | [(_ & Hpf & _ & [Hfs | (written & v & e & Hv & _)] & _)
           | (Hsup & Hpf & _ & _ & _ & m & ts & Hfs & Ho & Ht)]];
      [| | by rewrite Hdump in Hv |].
    + rewrite Hpf in Hp. apply Hold; [done|].
      rewrite Hfs. rewrite lookup_insert_ne; [done|]. intros E. by apply (Htemp Hp).
    + rewrite Hpf in Hp. apply Hold; [done|].
      rewrite Hfs. rewrite lookup_insert_ne; [done|]. intros E. by apply (Htemp Hp).
    + destruct (decide (p = parsed_path (upload_name x))) as [-> | Hne].
      * exists x, m, ts. rewrite Hfs, lookup_insert_eq.
        repeat split; try done. apply elem_of_app. right. by apply list_elem_of_singleton.
      * rewrite Hpf in Hp.
        apply elem_of_app in Hp as [Hp | Hp%list_elem_of_singleton]; [|done].
        apply Hold; [done|].
        rewrite Hfs, lookup_insert_ne by done.
        rewrite lookup_insert_ne; [done|]. intros E. by apply (Htemp Hp).
  - intros p Hp. cbn in Hp. by apply elem_of_nil in Hp.
Qed.

(** One iteration of the standardize loop keeps the JSON artifacts of the
    staging area well formed. *)
Lemma standardize_item_staged_json sz total i q c (s : state W) c' s' :
  (forall v, json_dump v = Dumped) ->
  staged_json s ->
  standardize_item sz total i q c s = Returned c' s' ->
  staged_json s'.
Proof.
  intros Hdump Hst Hrun stem content.
  destruct (standardize_item_cases sz total i q c s)
    as (c1 & s1 & evs & Hr & _ & _ & _ & _ & _ & _ & Hcases).
  rewrite Hrun in Hr. injection Hr as <- <-.
  destruct Hcases
    as [(_ & _ & _ & -> & _)
       | [(_ & _ & _ & _ & [-> | [[r ->] | (r & written & v & e & Hv & _)]])
         | (_ & _ & _ & _ & r & d & -> & _)]];
    [| | | by rewrite Hdump in Hv |].
  - apply Hst.
  - apply Hst.
  - rewrite lookup_insert_ne by apply raw_log_path_not_json_artifact. apply Hst.
  - destruct (decide (standardized_path q = Path StandardizedDir (stem ++ ".json")%string))
      as [<- | Hne].
    + rewrite lookup_insert_eq. intros [= <-]. eauto.
    + rewrite lookup_insert_ne by done.
      rewrite lookup_insert_ne by apply raw_log_path_not_json_artifact. apply Hst.
Qed.

Lemma stage_keeps_staged_json :
  (forall (files : list uploaded_file) (s : state W),
      staged_json s -> staged_json (outcome_state (process_uploaded_files files s)))
  /\ ((forall v, json_dump v = Dumped) ->
      forall (s : state W),
        staged_json s -> staged_json (outcome_state (standardize_resumes s)))
  /\ (forall (s : state W),
        staged_json s -> staged_json (outcome_state (upload_to_mongodb s))).
Proof.
  destruct stage_fs_frame as (Hparse & _ & Hstore).
  split; [|split].
  - intros files s Hst stem content. rewrite Hparse by done. apply Hst.
  - intros Hdump s Hst. pose proof (standardize_resumes_outcome s) as Hout.
    destruct (new_standardizer (world s)) as [[sz|e] w'].
    + destruct Hout as (c & s1 & Hloop & _ & ->). cbn.
      assert (staged_json s1) as Hs1; [|exact Hs1].
      apply (for_enumerate_returned_ind
               (standardize_item sz (List.length (processed_files s)))
               (fun _ t => staged_json t) (processed_files s))
        with (visited := []) (i := 0) (c := 0) (s := standardize_loop_start s w') (c' := c);
        [| exact Hst | exact Hloop].
      intros visited x i k t k1 t1 _ Ht Hx. by eapply standardize_item_staged_json.
    + destruct Hout as [Hfs _]. intros stem content. rewrite Hfs. apply Hst.
  - intros s Hst stem content. rewrite Hstore. apply Hst.
Qed.

(** Property X9.  That every [.json] file of the standardized directory holds
    a JSON value is kept by the parse stage and by the store stage however
    they end, and by the standardize stage as long as every [json.dump]
    completes. *)
Theorem staging_area_keeps_json_artifacts :
  (forall (files : list uploaded_file) (s : state W),
      staged_json s -> staged_json (outcome_state (process_uploaded_files files s)))
  /\ ((forall v, json_dump v = Dumped) ->
      forall (s : state W),
        staged_json s -> staged_json (outcome_state (standardize_resumes s)))
  /\ (forall (s : state W),
        staged_json s -> staged_json (outcome_state (upload_to_mongodb s))).
Proof. exact stage_keeps_staged_json. Qed.

Lemma standardize_resumes_leaves_readable (s s' : state W) :
  (forall v, json_dump v = Dumped) ->
  staged_json s ->
  (forall p, p ∈ processed_files s -> parse_output p) ->
  standardize_resumes s = Returned tt s' ->
  forall out, out ∈ standardized_files s' -> readable s' out.
Proof.
  intros Hdump Hst Hpo Hrun.
  pose proof (standardize_resumes_outcome s) as Hout.
  destruct (new_standardizer (world s)) as [[sz|e] w'] eqn:Hnew.
  2:{ destruct (standardize_resumes_init_failure s e w' Hnew) as (_ & Hsf & _).
      rewrite Hrun in Hsf. cbn in Hsf. rewrite Hsf. intros out Ho.
      by apply elem_of_nil in Ho. }
  destruct Hout as (c & s1 & Hloop & _ & Hr). rewrite Hrun in Hr. injection Hr as ->.
  cbn.
  pose (P := fun (_ : list path) (t : state W) =>
    staged_json t
    /\ forall out, out ∈ standardized_files t ->
         readable t out
         /\ exists stem, out = Path StandardizedDir (stem ++ ".json")%string).
  assert (HP : P (processed_files s) s1); [|intros out Ho; by apply HP].
  apply (for_enumerate_returned_ind
           (standardize_item sz (List.length (processed_files s))) P (processed_files s))
    with (visited := []) (i := 0) (c := 0) (s := standardize_loop_start s w') (c' := c);
    [| | exact Hloop].
  - intros visited x i k t k1 t1 Hx (Ht & Hread) Hstep.
    split; [by eapply standardize_item_staged_json|].
    destruct (Hpo x Hx) as (file_name & ->).
    set (q := parsed_path file_name) in *.
    assert (Hdir : is_directory (standardized_path q) = false)
      by apply standardized_parsed_path_not_directory.
    destruct (standardize_item_cases sz (List.length (processed_files s)) i q k t)
      as (c1 & u & evs & Hr & _ & _ & _ & _ & _ & _ & Hcases).
    rewrite Hstep in Hr. injection Hr as <- <-.
    assert (Hkeep : forall out, out ∈ standardized_files t ->
              (standardized_path q <> out -> fs t1 !! out = fs t !! out)
              \/ (exists d, fs t1 !! out = Some (FJson d)) ->
              fs t1 !! standardized_path q = fs t !! standardized_path q
              \/ (exists d, fs t1 !! standardized_path q = Some (FJson d)) ->
              readable t1 out
              /\ exists stem, out = Path StandardizedDir (stem ++ ".json")%string).
    { intros out Hin Hother Hown.
      destruct (Hread out Hin) as ((Hd & v & Hv) & Hstem). split; [|done].
      split; [done|].
      destruct (decide (standardized_path q = out)) as [<- | Hne].
      - destruct Hown as [-> | ?]; eauto.
      - destruct Hother as [Hsame | ?]; [|done]. exists v. by rewrite Hsame. }
    assert (Hraw : forall out, out ∈ standardized_files t -> raw_log_path q <> out).
    { intros out Hin E. destruct (Hread out Hin) as (_ & stem & ->).
      by apply raw_log_path_not_json_artifact in E. }
    intros out Hout.
    destruct Hcases
      as [(Hpres & Hsf & _ & Hfs & _)
         | [(_ & Hsf & _ & _ & Hfs) | (_ & Hsf & _ & _ & r & d & Hfs & _)]].
    + rewrite Hsf in Hout.
      apply elem_of_app in Hout as [Hout | ->%list_elem_of_singleton].
      * apply Hkeep; [done | left; intros _; by rewrite Hfs | left; by rewrite Hfs].
      * unfold artifact_present in Hpres. rewrite Hdir in Hpres. cbn in Hpres.
        apply bool_decide_eq_true in Hpres as [content Hc].
        destruct (Ht (path_stem file_name) content Hc) as (v & ->).
        split; [|by exists (path_stem file_name)].
        split; [done|]. exists v. by rewrite Hfs.
    + rewrite Hsf in Hout.
      destruct Hfs as [Hfs | [[r Hfs] | (r & written & v & e & Hv & _)]];
        [| | by rewrite Hdump in Hv].
      * apply Hkeep; [done | left; intros _; by rewrite Hfs | left; by rewrite Hfs].
      * apply Hkeep; [done | left; intros _ | left];
          rewrite Hfs, lookup_insert_ne; try done.
        -- by apply Hraw.
        -- apply raw_log_path_not_json_artifact.
    + rewrite Hsf in Hout.
      apply elem_of_app in Hout as [Hout | ->%list_elem_of_singleton].
      * apply Hkeep; [done | left; intros Hne | right; exists d; by rewrite Hfs, lookup_insert_eq].
        rewrite Hfs, lookup_insert_ne by done.
        rewrite lookup_insert_ne; [done | by apply Hraw].
      * split; [|by exists (path_stem file_name)].
        split; [done|]. exists d. by rewrite Hfs, lookup_insert_eq.
  - split; [exact Hst|]. intros out Ho. cbn in Ho. by apply elem_of_nil in Ho.
Qed.

(** Property X10.  As long as every [json.dump] completes and the [.json]
    files staged before the run hold JSON, every path that a run of
    [standardize_resumes] over outputs of the parse stage leaves in
    [standardized_files] names a regular file that holds a JSON value, whether
    the artifact was written in this run or reused. *)
Theorem standardized_files_are_readable (s s' : state W) :
  (forall v, json_dump v = Dumped) ->
  staged_json s ->
  (forall p, p ∈ processed_files s -> parse_output p) ->
  standardize_resumes s = Returned tt s' ->
  forall out, out ∈ standardized_files s' -> readable s' out.
Proof. exact (standardize_resumes_leaves_readable s s'). Qed.

(** Property X11.  Under the same conditions, when the store can be built and
    accepts every document, the store stage run after the standardize stage
    uploads every standardized artifact: it appends the names of all of
    [standardized_files], in order, and reports no failure. *)
Theorem every_standardized_artifact_reaches_the_store (s s1 : state W) :
  (forall v, json_dump v = Dumped) ->
  staged_json s ->
  (forall p, p ∈ processed_files s -> parse_output p) ->
  standardize_resumes s = Returned tt s1 ->
  (forall w, exists db w', new_db_manager w = (Ok db, w')) ->
  (forall db v w, exists w', insert_or_update_resume db v w = (Ok tt, w')) ->
  exists s2,
    upload_to_mongodb s1 = Returned tt s2
    /\ uploaded_files s2
       = uploaded_files s1 ++ map path_name (standardized_files s1)
    /\ upload_failures (drop (List.length (log s1)) (log s2)) = [].
Proof.
  intros Hdump Hst Hpo Hrun Hnew Hput.
  pose proof (standardize_resumes_leaves_readable s s1 Hdump Hst Hpo Hrun) as Hread.
  destruct (upload_stage_all_succeed s1 Hnew Hput Hread) as (s2 & Hup & Hlist & _).
  exists s2. split; [done|]. split; [done|].
  destruct (upload_stage_summary s1)
    as (s2' & evs & mask & attempted & Hr & Hatt & Hlog & _ & Hlen & Hup' & Hfail & _).
  rewrite Hup in Hr. injection Hr as <-.
  rewrite Hlog, drop_app_length, Hfail.
  rewrite Hlist in Hup'. apply app_inv_head in Hup'.
  apply (f_equal List.length) in Hup'. rewrite !length_map in Hup'.
  assert (Hfull : List.length (select mask attempted) = List.length attempted).
  { destruct Hatt as [-> | ->]; [done|].
    destruct mask; cbn in *; [done | lia]. }
  by rewrite (select_complement_nil mask attempted Hlen Hfull).
Qed.
End Handoff.

Section Items.
Context {W : Type} {RT : Runtime W} {RP : ResumeParser W}
        {RS : ResumeStandardizer W} {DB : ResumeDBManager W}.

(** *** Edge cases of one parse iteration *)

(** Property X12.  When the parser returns a falsy value for a supported
    upload ([None], an empty dict), the iteration shows the warning of line
    98, appends nothing and writes no parsed record; the upload stays in the
    temporary directory. *)
Theorem parse_item_without_content total i c (f : uploaded_file) (s : state W)
    p w1 v w2 :
  let name := upload_name f in
  let staged := <[temp_path name := FRaw (upload_buffer f)]> (fs s) in
  is_directory (temp_path name) = false ->
  new_parser (world s) = (Ok p, w1) ->
  supported f = true ->
  parse_resume p (temp_path name) staged w1 = (Ok v, w2) ->
  truthy v = false ->
  exists s',
    parse_item total i f c s = Returned c s'
    /\ log s' = log s ++ [StatusProcessing (i + 1) total name;
                          CallParseResume (temp_path name);
                          WarnNoContent name;
                          Progress (i + 1) total]
    /\ processed_files s' = processed_files s
    /\ fs s' = staged
    /\ world s' = w2.
Proof.
  intros name staged Hdir Hnew Hsup Hparse Hfalsy. subst name staged.
  unfold_stage. rewrite supported_spec, Hsup, Hdir. cbn. rewrite Hnew. cbn.
  rewrite insert_insert_eq.
  rewrite Hparse. cbn. rewrite Hfalsy. cbn.
  eexists. split; [reflexivity|]. cbn. by rewrite <- !app_assoc.
Qed.

(** Property X13.  When [parse_resume] raises for a supported upload, the
    [except] of line 99 reports the exception with the name of the upload,
    nothing is appended and no parsed record is written, and the loop goes on:
    the iteration returns and updates the progress bar. *)
Theorem parse_item_reports_what_the_parser_raises total i c (f : uploaded_file)
    (s : state W) p w1 e w2 :
  let name := upload_name f in
  let staged := <[temp_path name := FRaw (upload_buffer f)]> (fs s) in
  is_directory (temp_path name) = false ->
  new_parser (world s) = (Ok p, w1) ->
  supported f = true ->
  parse_resume p (temp_path name) staged w1 = (Err e, w2) ->
  exists s',
    parse_item total i f c s = Returned c s'
    /\ log s' = log s ++ [StatusProcessing (i + 1) total name;
                          CallParseResume (temp_path name);
                          ErrorParsing name e;
                          Progress (i + 1) total]
    /\ processed_files s' = processed_files s
    /\ fs s' = staged.
Proof.
  intros name staged Hdir Hnew Hsup Hparse. subst name staged.
  unfold_stage. rewrite supported_spec, Hsup, Hdir. cbn. rewrite Hnew. cbn.
  rewrite insert_insert_eq.
  rewrite Hparse. cbn.
  eexists. split; [reflexivity|]. cbn. by rewrite <- !app_assoc.
Qed.

(** Property X14.  When the parser returns a truthy value that is not a dict
    (a non-empty list or string, a number), the assignment of line 88 raises
    [TypeError]; it is caught and reported as a parsing error of the upload,
    and no parsed record is written. *)
Theorem parse_item_rejects_a_result_that_is_no_object total i c (f : uploaded_file)
    (s : state W) p w1 v w2 :
  let name := upload_name f in
  let staged := <[temp_path name := FRaw (upload_buffer f)]> (fs s) in
  is_directory (temp_path name) = false ->
  new_parser (world s) = (Ok p, w1) ->
  supported f = true ->
  parse_resume p (temp_path name) staged w1 = (Ok v, w2) ->
  truthy v = true ->
  (forall m, v <> JObj m) ->
  exists s' e,
    parse_item total i f c s = Returned c s'
    /\ exn_cls e = TypeError
    /\ log s' = log s ++ [StatusProcessing (i + 1) total name;
                          CallParseResume (temp_path name);
                          ErrorParsing name e;
                          Progress (i + 1) total]
    /\ processed_files s' = processed_files s
    /\ fs s' = staged.
Proof.
  intros name staged Hdir Hnew Hsup Hparse Htruthy Hobj. subst name staged.
  unfold_stage. rewrite supported_spec, Hsup, Hdir. cbn. rewrite Hnew. cbn.
  rewrite insert_insert_eq.
  rewrite Hparse. cbn. rewrite Htruthy. cbn.
  destruct (now_isoformat w2) as [ts w3]. cbn.
  destruct v as [| | | | |m']; [..|exfalso; by apply (Hobj m')]; cbn;
    (eexists _, (Exn TypeError "object does not support item assignment"); split; [reflexivity|]; cbn; by rewrite <- !app_assoc).
Qed.

(** Property X27.  When the [json.dump] of line 93 raises on the stamped
    record, the [except] of line 99 reports the exception with the name of the
    upload and nothing is appended, and the parsed record is left with what
    the dump had written: line 92 has created or truncated it. *)
Theorem parse_item_reports_a_failed_dump total i c (f : uploaded_file)
    (s : state W) p w1 (m : gmap string json) w2 ts w3 e written :
  let name := upload_name f in
  let staged := <[temp_path name := FRaw (upload_buffer f)]> (fs s) in
  let record := <["original_filename" := JStr name]> (<["timestamp" := JStr ts]> m) in
  is_directory (temp_path name) = false ->
  new_parser (world s) = (Ok p, w1) ->
  supported f = true ->
  parse_resume p (temp_path name) staged w1 = (Ok (JObj m), w2) ->
  truthy (JObj m) = true ->
  now_isoformat w2 = (ts, w3) ->
  json_dump (JObj record) = DumpRaised e written ->
  exists s',
    parse_item total i f c s = Returned c s'
    /\ log s' = log s ++ [StatusProcessing (i + 1) total name;
                          CallParseResume (temp_path name);
                          ErrorParsing name e;
                          Progress (i + 1) total]
    /\ processed_files s' = processed_files s
    /\ fs s' = <[parsed_path name := FRaw written]> staged.
Proof.
  intros name staged record Hdir Hnew Hsup Hparse Htruthy Hnow Hdump.
  subst name staged record.
  unfold_stage. rewrite supported_spec, Hsup, Hdir, parsed_path_not_directory. cbn.
  rewrite Hnew. cbn. rewrite insert_insert_eq.
  rewrite Hparse. cbn. cbn in Htruthy. rewrite Htruthy. cbn. rewrite Hnow. cbn.
  rewrite Hdump. cbn.
  eexists. split; [reflexivity|]. cbn. by rewrite <- !app_assoc, insert_insert_eq.
Qed.

(** *** Edge cases of one standardize iteration *)

(** Property X15.  A parsed record without a [content] key is treated as one
    with empty content: the default of line 147 is the empty string, so the
    iteration shows the warning of line 151 and continues, without a prompt, a
    call, a write or a progress update. *)
Theorem standardize_item_treats_a_missing_content_as_empty sz total i q c
    (s : state W) (m : gmap string json) :
  artifact_present s (standardized_path q) = false ->
  is_directory q = false ->
  fs s !! q = Some (FJson (JObj m)) ->
  m !! "content" = None ->
  standardize_item sz total i q c s
  = Returned c
      (with_log (log s ++ [StatusStandardizing (i + 1) total (path_name q);
                           WarnEmptyContent (path_name q)]) s).
Proof.
  intros Habs Hdir Hfs Hcontent. unfold artifact_present in Habs.
  unfold_stage. cbn. rewrite Habs. cbn. rewrite Hdir. cbn. rewrite Hfs. cbn.
  rewrite Hcontent. cbn. rewrite <- app_assoc. reflexivity.
Qed.

(** Property X16.  When [content] of a parsed record is not a string,
    [content.strip()] at line 150 raises [AttributeError]; the [except] of
    line 176 reports it as an error of the record, and nothing is written,
    sent or appended. *)
Theorem standardize_item_rejects_a_content_that_is_no_string sz total i q c
    (s : state W) (m : gmap string json) (v : json) :
  artifact_present s (standardized_path q) = false ->
  is_directory q = false ->
  fs s !! q = Some (FJson (JObj m)) ->
  m !! "content" = Some v ->
  (forall t, v <> JStr t) ->
  exists e,
    exn_cls e = AttributeError
    /\ standardize_item sz total i q c s
       = Returned c
           (with_log (log s ++ [StatusStandardizing (i + 1) total (path_name q);
                                ErrorStandardizing (path_name q) e;
                                Progress (i + 1) total]) s).
Proof.
  intros Habs Hdir Hfs Hcontent Hstr. unfold artifact_present in Habs.
  unfold_stage. cbn. rewrite Habs. cbn. rewrite Hdir. cbn. rewrite Hfs. cbn.
  rewrite Hcontent. cbn.
  destruct v as [| | |t'| |]; [..|exfalso; by apply (Hstr t')| |]; cbn;
    (eexists (Exn AttributeError "object has no attribute 'strip'"); split; [done|]; by rewrite <- !app_assoc).
Qed.

(** Property X17.  When the call to the model raises, the exception is
    reported as an error of the record; the staging area is left as it was (no
    raw log, no artifact) and nothing is appended. *)
Theorem standardize_item_writes_nothing_when_the_call_fails sz total i q c
    (s : state W) (m : gmap string json) (content prompt : string) e w1 :
  let links := match m !! "links" with Some v => v | None => JArr [] end in
  artifact_present s (standardized_path q) = false ->
  is_directory q = false ->
  fs s !! q = Some (FJson (JObj m)) ->
  m !! "content" = Some (JStr content) ->
  all_space content = false ->
  make_standardizer_prompt sz content links = Ok prompt ->
  call_azure_llm sz prompt (world s) = (Err e, w1) ->
  exists s',
    standardize_item sz total i q c s = Returned c s'
    /\ log s' = log s ++ [StatusStandardizing (i + 1) total (path_name q);
                          CallMakePrompt q; CallAzureLLM q prompt;
                          ErrorStandardizing (path_name q) e;
                          Progress (i + 1) total]
    /\ fs s' = fs s
    /\ standardized_files s' = standardized_files s.
Proof.
  intros links Habs Hdir Hfs Hcontent Hns Hprompt Hllm. subst links.
  apply nonblank_strip_nonempty in Hns. unfold artifact_present in Habs.
  unfold_stage. cbn. rewrite Habs. cbn. rewrite Hdir. cbn. rewrite Hfs. cbn.
  rewrite Hcontent. cbn. rewrite Hns. cbn. rewrite Hprompt. cbn.
  rewrite Hllm. cbn.
  eexists. split; [reflexivity|]. cbn. by rewrite <- !app_assoc.
Qed.



(** *** Edge cases of one upload iteration *)

(** Property X20.  When [insert_or_update_resume] raises for an artifact that
    was read, the exception is reported with the name of the artifact, the
    name is not appended to [uploaded_files], no file changes, and the loop
    goes on. *)
Theorem upload_item_reports_what_the_store_raises db total i q c (s : state W)
    v e w1 :
  is_directory q = false ->
  fs s !! q = Some (FJson v) ->
  insert_or_update_resume db v (world s) = (Err e, w1) ->
  exists s',
    upload_item db total i q c s = Returned c s'
    /\ log s' = log s ++ [StatusUploading (i + 1) total (path_name q);
                          CallInsertOrUpdate (path_name q) v;
                          ErrorUploading (path_name q) e;
                          Progress (i + 1) total]
    /\ uploaded_files s' = uploaded_files s
    /\ fs s' = fs s.
Proof.
  intros Hdir Hfs Hput. unfold_stage. rewrite Hdir. cbn. rewrite Hfs. cbn.
  rewrite Hput. cbn. eexists. split; [reflexivity|]. cbn. by rewrite <- !app_assoc.
Qed.
End Items.

Section ProgressBar.
Context {W : Type} {RT : Runtime W} {RP : ResumeParser W}
        {RS : ResumeStandardizer W} {DB : ResumeDBManager W}.

(** *** The store loop goes on after a failure *)

Lemma upload_item_attempts_readable db total i q c (s : state W) :
  readable s q ->
  exists c' s' evs,
    upload_item db total i q c s = Returned c' s'
    /\ log s' = log s ++ evs
    /\ fs s' = fs s
    /\ upsert_calls evs = [path_name q].
Proof.
  intros (Hdir & v & Hv). unfold_stage. rewrite Hdir. cbn. rewrite Hv. cbn.
  destruct (insert_or_update_resume db v (world s)) as [[[]|e] w1]; cbn;
    (eexists _, _, _; split; [reflexivity|]; cbn; rewrite <- !app_assoc; done).
Qed.

(** Property X21.  When the store manager can be built and every standardized
    artifact is readable, the store stage hands each of them to
    [insert_or_update_resume], once and in the order of [standardized_files],
    whether or not earlier upserts raised. *)
Theorem store_attempts_every_readable_artifact (s : state W) db w' :
  new_db_manager (world s) = (Ok db, w') ->
  (forall p, p ∈ standardized_files s -> readable s p) ->
  exists s' evs,
    upload_to_mongodb s = Returned tt s'
    /\ log s' = log s ++ evs
    /\ upsert_calls evs = map path_name (standardized_files s).
Proof.
  intros Hnew Hread.
  set (n := List.length (standardized_files s)).
  set (s0 := upload_loop_start s w').
  pose (P := fun (visited : list path) (t : state W) =>
    fs t = fs s
    /\ exists evs, log t = log s0 ++ evs /\ upsert_calls evs = map path_name visited).
  destruct (for_enumerate_returns_ind (upload_item db n) P (standardized_files s))
    with (visited := @nil path) (i := 0) (c := 0) (s := s0)
    as (c & s1 & Hloop & Hfs & evs & Hlog & Hcalls).
  - intros visited q i c t Hq (Hfs & evs & Hlog & Hcalls).
    destruct (upload_item_attempts_readable db n i q c t)
      as (c1 & t1 & evs1 & Hrun & Hlog1 & Hfs1 & Hcalls1).
    { destruct (Hread q Hq) as (Hd & v & Hv). split; [done|]. exists v. by rewrite Hfs. }
    exists c1, t1. split; [done|]. split; [congruence|].
    exists (evs ++ evs1). rewrite Hlog1, Hlog, app_assoc. split; [done|].
    unfold upsert_calls in *. by rewrite omap_app, Hcalls, Hcalls1, map_app.
  - split; [done|]. exists []. by rewrite app_nil_r.
  - exists (upload_loop_end c n s1), (evs ++ [StatusUploaded c n]).
    split.
    { unfold upload_to_mongodb. unfold_wrapper. cbn. rewrite Hnew. cbn.
      fold n. unfold s0, upload_loop_start in Hloop. rewrite Hloop. reflexivity. }
    split; [cbn; rewrite Hlog; cbn; by rewrite <- !app_assoc|].
    unfold upsert_calls in *. rewrite omap_app, Hcalls. cbn. by rewrite app_nil_r.
Qed.

(** *** The progress bar *)

Lemma for_enumerate_indexed_outcome_ind {A C} (body : nat -> A -> C -> M W C)
    (I : state W -> Prop) (i0 : nat) (l : list A) :
  (forall k x c s, k < List.length l -> I s ->
                   I (outcome_state (body (i0 + k) x c s))) ->
  forall c s, I s -> I (outcome_state (for_enumerate body l i0 c s)).
Proof.
  intros Hbody.
  assert (Hgen : forall rest k c s,
             k + List.length rest = List.length l -> I s ->
             I (outcome_state (for_enumerate body rest (i0 + k) c s))).
  { induction rest as [|x rest IH]; intros k c s Hlen HI; [done|].
    cbn in *. unfold bind.
    assert (Hx : I (outcome_state (body (i0 + k) x c s))) by (apply Hbody; [lia|done]).
    destruct (body (i0 + k) x c s) as [c1 s1|e s1]; cbn in *; [|done].
    replace (S (i0 + k)) with (i0 + S k) by lia. apply IH; [lia|done]. }
  intros c s HI. specialize (Hgen l 0 c s). rewrite Nat.add_0_r in Hgen. by apply Hgen.
Qed.

Ltac solve_progress :=
  eexists; split; [cbn; rewrite <- ?app_assoc; cbn; try reflexivity; by rewrite app_nil_r|];
  repeat constructor; done.

Lemma parse_item_progress total i f c (s : state W) :
  exists evs, log (outcome_state (parse_item total i f c s)) = log s ++ evs
              /\ Forall (progress_at i total) evs.
Proof.
  unfold_stage. rewrite supported_spec, parsed_path_not_directory. cbn.
  repeat (destruct_head; cbn); solve_progress.
Qed.

Lemma standardize_item_progress sz total i q c (s : state W) :
  exists evs, log (outcome_state (standardize_item sz total i q c s)) = log s ++ evs
              /\ Forall (progress_at i total) evs.
Proof.
  unfold_stage. rewrite raw_log_path_not_directory. cbn.
  repeat (destruct_head; cbn); solve_progress.
Qed.

Lemma upload_item_progress db total i q c (s : state W) :
  exists evs, log (outcome_state (upload_item db total i q c s)) = log s ++ evs
              /\ Forall (progress_at i total) evs.
Proof.
  unfold_stage. cbn. repeat (destruct_head; cbn); solve_progress.
Qed.

Lemma progress_at_in_range (k total : nat) (e : event) :
  k < total -> progress_at k total e -> progress_in_range total e.
Proof. destruct e; cbn; try done. lia. Qed.

Lemma progress_loop {A C} (body : nat -> A -> C -> M W C) (l : list A) c (s0 : state W) :
  (forall i x c s, exists evs,
      log (outcome_state (body i x c s)) = log s ++ evs
      /\ Forall (progress_at i (List.length l)) evs) ->
  exists evs,
    log (outcome_state (for_enumerate body l 0 c s0)) = log s0 ++ evs
    /\ Forall (progress_in_range (List.length l)) evs.
Proof.
  intros Hbody.
  apply (for_enumerate_indexed_outcome_ind body
           (fun t => exists evs, log t = log s0 ++ evs
                       /\ Forall (progress_in_range (List.length l)) evs) 0 l).
  - intros k x k' t Hk (evs & Hlog & Hall).
    destruct (Hbody (0 + k) x k' t) as (evs1 & Hlog1 & Hall1).
    exists (evs ++ evs1). rewrite Hlog1, Hlog, app_assoc. split; [done|].
    apply Forall_app. split; [done|].
    eapply Forall_impl; [exact Hall1|]. intros e. by apply progress_at_in_range.
  - exists []. by rewrite app_nil_r.
Qed.

(** Property X22.  However a stage ends, every value it gives to the progress
    bar is [(i + 1) / total] for the number [total] of items of its loop and
    an index [i] below it: the denominator is never zero and the fraction lies
    in (0, 1]. *)
Theorem progress_fraction_stays_in_range :
  (forall (files : list uploaded_file) (s : state W),
      exists evs,
        log (outcome_state (process_uploaded_files files s)) = log s ++ evs
        /\ Forall (progress_in_range (List.length files)) evs)
  /\ (forall (s : state W),
        exists evs,
          log (outcome_state (standardize_resumes s)) = log s ++ evs
          /\ Forall (progress_in_range (List.length (processed_files s))) evs)
  /\ (forall (s : state W),
        exists evs,
          log (outcome_state (upload_to_mongodb s)) = log s ++ evs
          /\ Forall (progress_in_range (List.length (standardized_files s))) evs).
Proof.
  split; [|split].
  - intros files s. rewrite process_uploaded_files_outcome.
    set (n := List.length files).
    destruct (progress_loop (parse_item n) files 0 (parse_loop_start n s))
      as (evs & Hlog & Hall); [intros; apply parse_item_progress|].
    destruct (for_enumerate _ _ _ _ _) as [c s1|e s1]; cbn in Hlog |- *.
    + exists ([WriteProcessing n] ++ evs ++ [StatusProcessed c n]).
      rewrite Hlog. cbn. rewrite <- !app_assoc. split; [done|].
      constructor; [done|]. apply Forall_app. split; [done|]. by constructor.
    + exists ([WriteProcessing n] ++ evs). rewrite Hlog. cbn. rewrite <- !app_assoc.
      split; [done|]. by constructor.
  - intros s. set (n := List.length (processed_files s)).
    destruct (new_standardizer (world s)) as [[sz|e] w'] eqn:Hnew.
    + destruct (progress_loop (standardize_item sz n) (processed_files s) 0
                  (standardize_loop_start s w'))
        as (evs & Hlog & Hall); [intros; apply standardize_item_progress|].
      pose proof (standardize_resumes_outcome s) as Hout. rewrite Hnew in Hout.
      destruct Hout as (c & s1 & Hloop & Hs1 & ->). fold n in Hs1, Hlog.
      rewrite Hs1 in Hlog. cbn.
      exists ([WriteStandardizing n] ++ evs ++ [StatusStandardized c n]).
      rewrite Hlog. cbn. rewrite <- !app_assoc. split; [done|].
      constructor; [done|]. apply Forall_app. split; [done|]. by constructor.
    + destruct (standardize_resumes_init_failure s e w' Hnew) as (Hlog & _).
      destruct (is_ValueError e); destruct Hlog as (_ & ->); eexists; (split; [done|]);
        repeat constructor; done.
  - intros s. set (n := List.length (standardized_files s)).
    destruct (new_db_manager (world s)) as [[db|e] w'] eqn:Hnew.
    + destruct (progress_loop (upload_item db n) (standardized_files s) 0
                  (upload_loop_start s w'))
        as (evs & Hlog & Hall); [intros; apply upload_item_progress|].
      destruct (upload_loop_progress db n (standardized_files s) (upload_loop_start s w'))
        as (c & s1 & Hloop & _).
      rewrite Hloop in Hlog. cbn in Hlog.
      assert (Hrun : upload_to_mongodb s = Returned tt (upload_loop_end c n s1)).
      { unfold upload_to_mongodb. unfold_wrapper. cbn. rewrite Hnew. cbn.
        fold n. unfold upload_loop_start in Hloop. rewrite Hloop. reflexivity. }
      rewrite Hrun. cbn. exists (evs ++ [StatusUploaded c n]).
      rewrite Hlog. rewrite <- !app_assoc. split; [done|].
      apply Forall_app. split; [done|]. by constructor.
    + destruct (upload_to_mongodb_init_failure s e w' Hnew) as (s' & Hrun & Hlog & _).
      rewrite Hrun. cbn. rewrite Hlog. eexists. split; [done|]. by constructor.
Qed.
End ProgressBar.

(** ** The upload page *)

(** [sorted] returns the one sorted arrangement of its argument, so two
    lists sort to the same list exactly when they hold the same names the
    same number of times. *)
Lemma py_sorted_eq_iff (l1 l2 : list string) :
  py_sorted l1 = py_sorted l2 <-> l1 ≡ₚ l2.
Proof.
  unfold py_sorted. split.
  - intros E. rewrite <- (merge_sort_Permutation String.le l1), E.
    apply merge_sort_Permutation.
  - intros Hperm.
    assert (Htotal : Total String.le) by apply _.
    assert (Htrans : Transitive String.le) by apply _.
    assert (Hanti : AntiSymm eq String.le) by apply _.
    apply (Sorted_unique String.le).
    + by apply Sorted_merge_sort.
    + by apply Sorted_merge_sort.
    + by rewrite !merge_sort_Permutation.
Qed.

Section Page.
Context {W : Type} {RT : Runtime W} {RP : ResumeParser W}
        {RS : ResumeStandardizer W} {DB : ResumeDBManager W}.

(** Property X23.  The upload page compares the names of the uploads with the
    tracked names as sorted lists.  With no upload, or with the same names in
    any order, the session is left alone; otherwise the names are tracked and
    the three flags and the three lists are reset, while the staging area is
    left as it is. *)
Theorem track_uploads_resets_on_a_changed_set_of_names
    (uploaded : list uploaded_file) (ps : page_session W) :
  (uploaded = [] \/ map upload_name uploaded ≡ₚ uploaded_file_names ps ->
   track_uploads uploaded ps = ps)
  /\ (uploaded <> [] -> ~ map upload_name uploaded ≡ₚ uploaded_file_names ps ->
      track_uploads uploaded ps
      = PageSession (reset_session (stages ps)) (map upload_name uploaded)
      /\ fs (reset_session (stages ps)) = fs (stages ps)
      /\ processed_files (reset_session (stages ps)) = []
      /\ standardized_files (reset_session (stages ps)) = []
      /\ uploaded_files (reset_session (stages ps)) = []).
Proof.
  unfold track_uploads. split.
  - intros [-> | Hperm]; [done|].
    destruct uploaded as [|f rest]; [done|].
    rewrite bool_decide_eq_false_2; [done|].
    intros Hne. apply Hne. by apply py_sorted_eq_iff.
  - intros Hne Hperm. destruct uploaded as [|f rest]; [done|].
    rewrite bool_decide_eq_true_2; [done|].
    intros E. apply Hperm. by apply py_sorted_eq_iff.
Qed.

(** The parse stage leaves [standardizing_complete] false, however it ends. *)
Lemma process_uploaded_files_clears_standardizing
    (files : list uploaded_file) (s : state W) :
  standardizing_complete (outcome_state (process_uploaded_files files s)) = false.
Proof.
  rewrite process_uploaded_files_outcome.
  set (n := List.length files).
  pose proof (for_enumerate_outcome_ind (parse_item n)
                (fun t => standardizing_complete t = false)) as Hind.
  specialize (Hind (fun i x c t Ht =>
    eq_trans (proj1 (proj2 (proj1 (parse_item_frame n i x c t)))) Ht)).
  specialize (Hind files 0 0 (parse_loop_start n s) eq_refl).
  by destruct (for_enumerate _ _ _ _ _).
Qed.

(** The store stage changes neither the two lists before it nor their
    flags. *)
Lemma upload_to_mongodb_frame (s : state W) :
  let s' := outcome_state (upload_to_mongodb s) in
  processing_complete s' = processing_complete s
  /\ standardizing_complete s' = standardizing_complete s
  /\ processed_files s' = processed_files s
  /\ standardized_files s' = standardized_files s.
Proof.
  destruct (upload_to_mongodb_cases s)
    as [(e & w' & Hnew & _) | (db & w' & c & t & _ & _ & -> & (Hp & Hs & _) & Hpf & Hsf & _)].
  - unfold upload_to_mongodb. unfold_wrapper. cbn. rewrite Hnew. done.
  - cbn in *. done.
Qed.

(** One parse iteration appends at most the parsed path of its upload. *)
Lemma parse_item_appends_parse_outputs total i f c (s : state W) :
  (forall p, p ∈ processed_files s -> parse_output p) ->
  forall p, p ∈ processed_files (outcome_state (parse_item total i f c s)) ->
            parse_output p.
Proof.
  intros Hs p.
  destruct (parse_item_cases total i f c s)
    as [(e & t & ? & -> & Hpf & _)
       | (c' & t & evs & q & w' & -> & _ & _ & _ & _ & _ & _ & Hcases)]; cbn.
  - rewrite Hpf. apply Hs.
  - destruct Hcases as [(_ & Hpf & _) | [(_ & Hpf & _) | (_ & Hpf & _)]];
      rewrite Hpf; try apply Hs.
    intros [Hp | ->%list_elem_of_singleton]%elem_of_app; [by apply Hs|].
    by exists (upload_name f).
Qed.

Lemma lists_invariant_reset (s : state W) : lists_invariant (reset_session s).
Proof.
  split.
  - intros p Hp. cbn in Hp. by apply elem_of_nil in Hp.
  - cbn. discriminate.
Qed.

Lemma lists_invariant_parse (files : list uploaded_file) (s : state W) :
  lists_invariant (outcome_state (process_uploaded_files files s)).
Proof.
  split.
  - rewrite process_uploaded_files_outcome. set (n := List.length files).
    pose proof (for_enumerate_outcome_ind (parse_item n)
                  (fun t => forall p, p ∈ processed_files t -> parse_output p)
                  (fun i x c t Ht => parse_item_appends_parse_outputs n i x c t Ht)
                  files 0 0 (parse_loop_start n s)) as Hind.
    destruct (for_enumerate _ _ _ _ _); cbn in *; apply Hind;
      intros p Hp; by apply elem_of_nil in Hp.
  - rewrite process_uploaded_files_clears_standardizing. discriminate.
Qed.

Lemma lists_invariant_standardize (s : state W) :
  processing_complete s = true ->
  lists_invariant s -> lists_invariant (outcome_state (standardize_resumes s)).
Proof.
  intros Hen (Hpo & _).
  pose proof (standardize_resumes_outcome s) as Hout.
  destruct (new_standardizer (world s)) as [[sz|e] w'] eqn:Hnew.
  - destruct Hout as (c & s1 & Hloop & _ & Hrun).
    rewrite Hrun. cbn [outcome_state].
    destruct (standardize_loop_progress sz (List.length (processed_files s))
                (processed_files s) (standardize_loop_start s w'))
      as (c' & s1' & Hloop' & (Hp & _) & Hpf & _ & evs & mask & _ & Hlen & Hsf & _).
    rewrite Hloop in Hloop'. injection Hloop' as <- <-.
    cbn in Hp, Hpf, Hsf.
    split; [cbn; by rewrite Hpf|].
    intros _. split; [cbn; congruence|].
    exists mask. cbn. by rewrite Hpf.
  - destruct (standardize_resumes_init_failure s e w' Hnew) as (_ & _ & Hflag & Hpf & _).
    split; [by rewrite Hpf|]. rewrite Hflag. discriminate.
Qed.

Lemma lists_invariant_store (s : state W) :
  lists_invariant s -> lists_invariant (outcome_state (upload_to_mongodb s)).
Proof.
  intros (Hpo & Hflag).
  destruct (upload_to_mongodb_frame s) as (Hp & Hs & Hpf & Hsf).
  split; [by rewrite Hpf|]. rewrite Hp, Hs, Hpf, Hsf. exact Hflag.
Qed.

Lemma artifacts_invariant_reset (s : state W) :
  staged_json s -> artifacts_invariant (reset_session s).
Proof.
  intros Hst. split; [exact Hst|].
  intros p Hp. cbn in Hp. by apply elem_of_nil in Hp.
Qed.

Lemma artifacts_invariant_parse (files : list uploaded_file) (s : state W) :
  artifacts_invariant s ->
  artifacts_invariant (outcome_state (process_uploaded_files files s)).
Proof.
  intros (Hst & Hread).
  destruct stage_fs_frame as (Hfs & _).
  destruct stage_keeps_staged_json as (Hkeep & _).
  split; [by apply Hkeep|].
  assert (Hsf : standardized_files (outcome_state (process_uploaded_files files s))
                = standardized_files s).
  { rewrite process_uploaded_files_outcome. set (n := List.length files).
    pose proof (for_enumerate_outcome_ind (parse_item n)
                  (fun t => standardized_files t = standardized_files s)
                  (fun i x c t Ht =>
                     eq_trans (proj1 (proj2 (parse_item_frame n i x c t))) Ht)
                  files 0 0 (parse_loop_start n s) eq_refl) as Hind.
    by destruct (for_enumerate _ _ _ _ _). }
  rewrite Hsf. intros out Hout. destruct (Hread out Hout) as ((Hd & v & Hv) & Hdir).
  split; [|done]. split; [done|]. exists v. by rewrite Hfs.
Qed.

Lemma artifacts_invariant_standardize (s : state W) :
  (forall v, json_dump v = Dumped) ->
  (forall p, p ∈ processed_files s -> parse_output p) ->
  artifacts_invariant s ->
  artifacts_invariant (outcome_state (standardize_resumes s)).
Proof.
  intros Hdump Hpo (Hst & _).
  destruct stage_keeps_staged_json as (_ & Hkeep & _).
  split; [by apply Hkeep|].
  pose proof (standardize_resumes_outcome s) as Hout.
  destruct (new_standardizer (world s)) as [[sz|e] w'] eqn:Hnew.
  - destruct Hout as (c & s1 & Hloop & _ & Hrun).
    pose proof (standardize_resumes_leaves_readable s _ Hdump Hst Hpo Hrun) as Hread'.
    rewrite Hrun. cbn [outcome_state].
    destruct (standardize_loop_progress sz (List.length (processed_files s))
                (processed_files s) (standardize_loop_start s w'))
      as (c' & s1' & Hloop' & _ & _ & _ & evs & mask & _ & _ & Hsf & _).
    rewrite Hloop in Hloop'. injection Hloop' as <- <-. cbn in Hsf.
    intros out Ho. split; [by apply Hread'|].
    cbn in Ho. rewrite Hsf in Ho.
    apply list_elem_of_fmap in Ho as (q & -> & _). done.
  - destruct (standardize_resumes_init_failure s e w' Hnew) as (_ & Hsf & _).
    rewrite Hsf. intros out Ho. by apply elem_of_nil in Ho.
Qed.

Lemma artifacts_invariant_store (s : state W) :
  artifacts_invariant s -> artifacts_invariant (outcome_state (upload_to_mongodb s)).
Proof.
  intros (Hst & Hread).
  destruct stage_keeps_staged_json as (_ & _ & Hkeep).
  destruct stage_fs_frame as (_ & _ & Hfs).
  destruct (upload_to_mongodb_frame s) as (_ & _ & _ & Hsf).
  split; [by apply Hkeep|].
  rewrite Hsf. intros out Ho. destruct (Hread out Ho) as ((Hd & v & Hv) & Hdir).
  split; [|done]. split; [done|]. exists v. by rewrite Hfs.
Qed.

Lemma lists_invariant_reachable (ps0 ps : page_session W) :
  fresh_session ps0 -> reachable_from ps0 ps -> lists_invariant (stages ps).
Proof.
  intros (_ & Hflag & _ & Hpf & _).
  induction 1 as [|ps uploaded pressed Hreach IH].
  { split.
    - rewrite Hpf. intros p Hp. by apply elem_of_nil in Hp.
    - rewrite Hflag. discriminate. }
  assert (Htrack : lists_invariant (stages (track_uploads uploaded ps))).
  { unfold track_uploads. destruct uploaded as [|f rest]; [exact IH|].
    case_bool_decide; [|exact IH]. cbn [stages]. apply lists_invariant_reset. }
  unfold rerun. destruct pressed as [b|]; [|exact Htrack].
  destruct (button_enabled uploaded b (stages (track_uploads uploaded ps))) eqn:Hen;
    [|exact Htrack].
  cbn [stages]. destruct b; cbn [press].
  - apply lists_invariant_parse.
  - by apply lists_invariant_standardize.
  - by apply lists_invariant_store.
Qed.

Lemma artifacts_invariant_reachable (ps0 ps : page_session W) :
  (forall v, json_dump v = Dumped) ->
  fresh_session ps0 -> staged_json (stages ps0) ->
  reachable_from ps0 ps -> artifacts_invariant (stages ps).
Proof.
  intros Hdump Hfresh Hst Hreach.
  assert (Hboth : lists_invariant (stages ps) /\ artifacts_invariant (stages ps));
    [|by destruct Hboth].
  induction Hreach as [|ps uploaded pressed Hreach (IHl & IHa)].
  { split; [by apply (lists_invariant_reachable ps0); [|constructor]|].
    destruct Hfresh as (_ & _ & _ & _ & Hsf & _).
    split; [done|]. rewrite Hsf. intros p Hp. by apply elem_of_nil in Hp. }
  assert (Htrack : lists_invariant (stages (track_uploads uploaded ps))
                   /\ artifacts_invariant (stages (track_uploads uploaded ps))).
  { unfold track_uploads. destruct uploaded as [|f rest]; [done|].
    case_bool_decide; [|done]. cbn [stages].
    split; [apply lists_invariant_reset | apply artifacts_invariant_reset, IHa]. }
  destruct Htrack as (Hl & Ha).
  unfold rerun. destruct pressed as [b|]; [|done].
  destruct (button_enabled uploaded b (stages (track_uploads uploaded ps))) eqn:Hen;
    [|done].
  cbn [stages]. destruct b; cbn [press].
  - split; [apply lists_invariant_parse | by apply artifacts_invariant_parse].
  - split; [by apply lists_invariant_standardize|].
    apply artifacts_invariant_standardize; [done | apply Hl | done].
  - split; [by apply lists_invariant_store | by apply artifacts_invariant_store].
Qed.

(** Property X24.  In every session reached from a fresh one by runs of the
    page script in which only enabled buttons are pressed: when the store
    button is enabled, so is the standardize button, and [standardized_files]
    are the artifacts of some of the records of [processed_files], in their
    order. *)
Theorem store_button_offers_artifacts_of_the_current_parse (ps0 ps : page_session W)
    (uploaded : list uploaded_file) :
  fresh_session ps0 ->
  reachable_from ps0 ps ->
  button_enabled uploaded StoreButton (stages ps) = true ->
  button_enabled uploaded StandardizeButton (stages ps) = true
  /\ exists mask,
       List.length mask = List.length (processed_files (stages ps))
       /\ standardized_files (stages ps)
          = map standardized_path (select mask (processed_files (stages ps))).
Proof.
  intros Hfresh Hreach Hen.
  destruct (lists_invariant_reachable ps0 ps Hfresh Hreach) as (_ & Hflag).
  by apply Hflag.
Qed.

(** Property X25.  In every such session the status panel is consistent: when
    the second column shows [k] standardized files, the first shows a number
    of parsed files that is at least [k], and the third column shows that the
    upload is ready or done, never that it waits for standardization. *)
Theorem status_panel_is_consistent (ps0 ps : page_session W) k c1 c3 :
  fresh_session ps0 ->
  reachable_from ps0 ps ->
  status_panel (stages ps) = (c1, StandardizedFiles k, c3) ->
  exists n, c1 = ParsedFiles n /\ k <= n
            /\ (c3 = ReadyToUpload \/ exists u, c3 = UploadedFiles u).
Proof.
  intros Hfresh Hreach Hpanel.
  destruct (lists_invariant_reachable ps0 ps Hfresh Hreach) as (_ & Hflag).
  unfold status_panel in Hpanel.
  destruct (standardizing_complete (stages ps)) eqn:Hs.
  2:{ destruct (processing_complete (stages ps)); discriminate. }
  destruct (Hflag eq_refl) as (Hp & mask & Hlen & Hsf).
  rewrite Hp in Hpanel. injection Hpanel as <- <- <-.
  exists (List.length (processed_files (stages ps))). split; [done|]. split.
  - rewrite Hsf, length_map. apply select_length.
  - destruct (db_upload_complete (stages ps)); eauto.
Qed.

(** Property X26.  As long as every [json.dump] completes, in every session
    reached from a fresh one whose staged [.json] artifacts hold JSON, each
    option of the preview select box names a file that line 303 opens and
    loads without an exception. *)
Theorem preview_opens_every_option (ps0 ps : page_session W) (selected_file : string) :
  (forall v, json_dump v = Dumped) ->
  fresh_session ps0 -> staged_json (stages ps0) ->
  reachable_from ps0 ps ->
  selected_file ∈ preview_options (stages ps) ->
  exists resume_data,
    read_json (preview_path selected_file) (stages ps)
    = Returned resume_data (stages ps).
Proof.
  intros Hdump Hfresh Hst Hreach Hsel.
  destruct (artifacts_invariant_reachable ps0 ps Hdump Hfresh Hst Hreach) as (_ & Hread).
  unfold preview_options in Hsel.
  apply list_elem_of_fmap in Hsel as (out & -> & Hout).
  destruct (Hread out Hout) as ((Hd & v & Hv) & Hdir).
  assert (Hpath : preview_path (path_name out) = out).
  { destruct out as [d n]. cbn in *. by subst d. }
  rewrite Hpath. exists v. unfold read_json. rewrite Hd.
  unfold bind, gets, ret. by rewrite Hv.
Qed.
End Page.

(** ** The claims on concrete runs *)

Import Demo Scenario.

(** C1 on a second run over the resume of [Scenario.after_standardize]. *)
Lemma C1_witness :
  exists artifact,
    fs after_standardize !! standardized_path (parsed_path "cv.pdf") = Some artifact
    /\ exists s' evs,
         standardize_resumes after_standardize = Returned tt s'
         /\ log s' = log after_standardize ++ evs
         /\ llm_calls_for (parsed_path "cv.pdf") evs = []
         /\ prompts_built_for (parsed_path "cv.pdf") evs = []
         /\ fs s' !! standardized_path (parsed_path "cv.pdf") = Some artifact
         /\ standardized_path (parsed_path "cv.pdf") ∈ standardized_files s'.
Proof.
  eexists. split; [vm_compute; reflexivity|].
  apply (C1_staged_artifact_is_reused (RS := resume_standardizer)
           after_standardize "cv.pdf" _ tt []).
  - vm_compute. left.
  - vm_compute. reflexivity.
  - reflexivity.
Defined.

(** C2 on [Scenario.mixed_batch], whose first file is a [.txt]. *)
Lemma C2_witness :
  exists s' evs accepted,
    process_uploaded_files mixed_batch (initial_state []) = Returned tt s'
    /\ log s' = log (initial_state ([] : world)) ++ evs
    /\ processed_files s' = map (fun f => parsed_path (upload_name f)) accepted
    /\ accepted `sublist_of` filter (fun f => supported f = true) mixed_batch
    /\ forall f, f ∈ mixed_batch -> supported f = false ->
         WarnSkipping (upload_name f) (py_lower (path_suffix (upload_name f))) ∈ evs
         /\ upload_name f ∈ parse_failures evs
         /\ (f ∉ accepted)
         /\ (temp_path (upload_name f) ∉ parse_calls evs).
Proof.
  apply (C2_unsupported_files_are_reported_never_accepted mixed_batch (initial_state [])).
  - intros w. by exists tt, w.
  - intros f Hf. unfold mixed_batch in Hf.
    repeat (apply elem_of_cons in Hf as [-> | Hf]; [reflexivity|]).
    by apply elem_of_nil in Hf.
Defined.

(** A resume is standardized, then uploaded again under the same name with
    nothing but white space in it and parsed: the standardize stage takes the
    staged artifact and reports no failure. *)
Lemma C3_counterexample :
  let q := parsed_path "cv.pdf" in
  (exists m content,
      q ∈ processed_files blank_reupload
      /\ fs blank_reupload !! q = Some (FJson (JObj m))
      /\ m !! "content" = Some (JStr content)
      /\ all_space content = true)
  /\ exists s',
       standardize_resumes blank_reupload = Returned tt s'
       /\ standardized_files s' = [standardized_path q]
       /\ standardize_failures (log s') = [].
Proof.
  split.
  - eexists _, "   ". split; [vm_compute; left|].
    split; [vm_compute; reflexivity|]. split; [|reflexivity].
    vm_compute. reflexivity.
  - eexists. split; [vm_compute; reflexivity|]. split; reflexivity.
Defined.

(** The amended C3 on a blank resume that has no staged artifact. *)
Lemma C3_witness :
  exists s' evs,
    standardize_resumes blank_first_upload = Returned tt s'
    /\ log s' = log blank_first_upload ++ evs
    /\ WarnEmptyContent (path_name (parsed_path "cv.pdf")) ∈ evs
    /\ llm_calls_for (parsed_path "cv.pdf") evs = []
    /\ prompts_built_for (parsed_path "cv.pdf") evs = []
    /\ (standardized_path (parsed_path "cv.pdf") ∉ standardized_files s')
    /\ fs s' !! standardized_path (parsed_path "cv.pdf") = None.
Proof.
  eapply (C3_blank_record_without_artifact_is_rejected (RS := resume_standardizer)
           blank_first_upload "cv.pdf" _ "   " tt []).
  - vm_compute. left.
  - intros p Hp. vm_compute in Hp.
    apply elem_of_cons in Hp as [-> | Hp]; [reflexivity | by apply elem_of_nil in Hp].
  - vm_compute. reflexivity.
  - vm_compute. reflexivity.
  - reflexivity.
  - vm_compute. reflexivity.
  - reflexivity.
Defined.


(** Claim C5, where the code departs from it.  In [process_uploaded_files]
    the write of the upload (lines 74-76) and the constructor of the parser
    (line 79) run outside the [try]: an exception from either leaves the
    stage function, with no per-item report and with the rest of the batch
    unvisited.  The two other stages catch the same kinds of failure, see
    [standardize_item_never_raises], [upload_to_mongodb_never_raises] and
    [standardize_resumes_raises_only_from_constructor]. *)
Theorem C5_parse_stage_lets_exceptions_escape :
  (* the constructor of the parser raises *)
  (exists s',
      process_uploaded_files (RP := failing_parser) first_batch (initial_state [])
      = Raised (Exn ValueError "LLAMA_CLOUD_API_KEY is not set") s'
      /\ parse_failures (log s') = []
      /\ processing_complete s' = false)
  (* the upload is named like a staging directory *)
  /\ (exists e s',
        process_uploaded_files (Upload "parsed" "x" :: first_batch) (initial_state [])
        = Raised e s'
        /\ exn_cls e = IsADirectoryError
        /\ parse_failures (log s') = []
        /\ parse_calls (log s') = []
        /\ processed_files s' = []).
Proof.
  split.
  - eexists. split; [vm_compute; reflexivity|]. split; reflexivity.
  - eexists _, _. split; [vm_compute; reflexivity|]. repeat split; reflexivity.
Qed.

(** With the standardized artifact of [cv.pdf] staged and listed, the parse
    stage still hands the file to the parser. *)
Lemma C6_counterexample :
  is_Some (fs after_standardize !! standardized_path (parsed_path "cv.pdf"))
  /\ standardized_path (parsed_path "cv.pdf") ∈ standardized_files after_standardize
  /\ exists s',
       process_uploaded_files first_batch after_standardize = Returned tt s'
       /\ parse_calls (drop (List.length (log after_standardize)) (log s'))
          = [temp_path "cv.pdf"].
Proof.
  split; [eexists; vm_compute; reflexivity|].
  split; [vm_compute; left|].
  eexists. split; [vm_compute; reflexivity|]. vm_compute. reflexivity.
Defined.

(** The amended C6 on that run. *)
Lemma C6_witness :
  exists evs,
    log (outcome_state (process_uploaded_files first_batch after_standardize))
    = log after_standardize ++ evs
    /\ parse_calls evs
       = map (fun f => temp_path (upload_name f))
           (filter (fun f => supported f = true) first_batch).
Proof.
  apply (C6_parse_stage_extracts_every_supported_file first_batch after_standardize).
  vm_compute. reflexivity.
Defined.


(** C8 on the resume of [Surrogate]: the model answers with an object that
    holds an escaped lone surrogate. *)
Lemma C8_witness :
  let q := parsed_path "cv.pdf" in
  let out := standardized_path q in
  exists s1,
    standardize_item (RT := Surrogate.surrogate_runtime)
      (RS := Surrogate.escaping_standardizer) tt 1 0 q 0 Surrogate.parsed
    = Returned 0 s1
    /\ log s1 = log Surrogate.parsed
                ++ [StatusStandardizing (0 + 1) 1 (path_name q);
                    CallMakePrompt q; CallAzureLLM q "Ada Lovelace";
                    ErrorStandardizing (path_name q) Surrogate.encode_error;
                    Progress (0 + 1) 1]
    /\ standardized_files s1 = standardized_files Surrogate.parsed
    /\ fs s1 !! out = Some (FRaw Surrogate.dump_prefix)
    /\ forall sz' total' i' c' (s2 : state world),
         fs s2 !! out = fs s1 !! out ->
         standardize_item (RT := Surrogate.surrogate_runtime)
           (RS := Surrogate.escaping_standardizer) sz' total' i' q c' s2
         = Returned (c' + 1)
             (with_log (log s2 ++ [StatusStandardizing (i' + 1) total' (path_name q);
                                   Progress (i' + 1) total'])
                (with_standardized_files (standardized_files s2 ++ [out]) s2)).
Proof.
  eapply (C8_failed_dump_leaves_the_artifact
            (RT := Surrogate.surrogate_runtime) (RS := Surrogate.escaping_standardizer)
            tt 1 0 0 Surrogate.parsed "cv.pdf" _
            (<["name" := JStr Surrogate.lone_surrogate]> ∅)
            "Ada Lovelace" "Ada Lovelace"
            Surrogate.escaped_response Surrogate.escaped_response
            "2025-01-01T00:00:00" Surrogate.dump_prefix Surrogate.encode_error [] []).
  - vm_compute. reflexivity.
  - vm_compute. reflexivity.
  - vm_compute. reflexivity.
  - reflexivity.
  - reflexivity.
  - reflexivity.
  - reflexivity.
  - reflexivity.
  - reflexivity.
  - vm_compute. reflexivity.
Defined.

(** The stages of [Surrogate] in a row.  The first standardize run reports
    the resume as failed and lists nothing, and leaves twelve bytes under the
    name of its artifact; the second run lists the artifact and counts the
    resume as standardized without a call to the model; the store stage then
    fails to load the file. *)
Lemma failed_dump_is_taken_for_completion :
  let q := parsed_path "cv.pdf" in
  let out := standardized_path q in
  standardized_files Surrogate.first_run = []
  /\ standardize_failures (log Surrogate.first_run) = ["cv.json"]
  /\ fs Surrogate.first_run !! out = Some (FRaw Surrogate.dump_prefix)
  /\ String.length Surrogate.dump_prefix = 12
  /\ standardized_files Surrogate.second_run = [out]
  /\ last (log Surrogate.second_run) = Some (StatusStandardized 1 1)
  /\ llm_calls_for q
       (drop (List.length (log Surrogate.first_run)) (log Surrogate.second_run)) = []
  /\ fs Surrogate.second_run !! out = Some (FRaw Surrogate.dump_prefix)
  /\ uploaded_files Surrogate.stored = []
  /\ upload_failures (log Surrogate.stored) = ["cv.json"].
Proof. repeat split; vm_compute; reflexivity. Qed.

(** C9 on [cv.pdf], from the parse iteration to the standardize iteration. *)
Lemma C9_witness :
  let q := parsed_path "cv.pdf" in
  exists d ts w w',
    fs (outcome_state (standardize_item (RS := resume_standardizer) tt 1 0 q 0
                         (standardize_loop_start after_parse [])))
      !! standardized_path q = Some (FJson (JObj d))
    /\ now_isoformat w = (ts, w')
    /\ d !! "timestamp" = Some (JStr ts)
    /\ d !! "source_file" = Some (JStr (path_str gettempdir q))
    /\ d !! "original_filename" = Some (JStr "cv.pdf").
Proof.
  apply (C9_standardized_record_is_stamped (RS := resume_standardizer)
           1 0 0 1 (Upload "cv.pdf" "Ada Lovelace")
           (parse_loop_start 1 (initial_state []))
           (outcome_state (parse_item 1 0 (Upload "cv.pdf" "Ada Lovelace") 0
                             (parse_loop_start 1 (initial_state []))))
           tt 1 0 0 1 (standardize_loop_start after_parse [])
           (outcome_state (standardize_item (RS := resume_standardizer) tt 1 0
                             (parsed_path "cv.pdf") 0
                             (standardize_loop_start after_parse [])))).
  - vm_compute. reflexivity.
  - vm_compute. reflexivity.
  - vm_compute. reflexivity.
  - vm_compute. reflexivity.
  - vm_compute. reflexivity.
  - vm_compute. reflexivity.
Defined.

(** C10 on three store runs after one standardize run. *)
Lemma C10_witness :
  (exists s',
      repeat_stage 3 upload_to_mongodb after_standardize = Returned tt s'
      /\ uploaded_files s'
         = uploaded_files after_standardize
           ++ List.concat (replicate 3 (map path_name (standardized_files after_standardize)))
      /\ List.length (uploaded_files s')
         = List.length (uploaded_files after_standardize)
           + 3 * List.length (standardized_files after_standardize))
  /\ (forall j files (t t' : state world),
        repeat_stage (S j) (process_uploaded_files files) t = Returned tt t' ->
        List.length (processed_files t') <= List.length files)
  /\ (forall j (t t' : state world),
        repeat_stage (S j) standardize_resumes t = Returned tt t' ->
        List.length (standardized_files t') <= List.length (processed_files t)).
Proof.
  apply (C10_store_stage_accumulates 3 after_standardize).
  - intros w. by exists tt, w.
  - intros db v w. by eexists.
  - intros p Hp. vm_compute in Hp.
    apply elem_of_cons in Hp as [-> | Hp]; [|by apply elem_of_nil in Hp].
    split; [reflexivity|]. eexists. vm_compute. reflexivity.
Defined.

(** ** The further properties on concrete runs *)

Import Faults.

(** The runtime of [Demo] dumps every value. *)
Lemma demo_dump_completes (v : json) : json_dump v = Dumped.
Proof. reflexivity. Qed.

Lemma parse_summary_counts_processed_files_witness :
  last (log mixed_parsed)
  = Some (StatusProcessed (List.length (processed_files mixed_parsed))
            (List.length mixed_batch))
  /\ processing_complete mixed_parsed = true
  /\ standardizing_complete mixed_parsed = false
  /\ db_upload_complete mixed_parsed = false.
Proof.
  apply (parse_summary_counts_processed_files mixed_batch (initial_state [])).
  vm_compute. reflexivity.
Defined.

Lemma standardize_summary_counts_standardized_files_witness :
  last (log mixed_standardized)
  = Some (StatusStandardized (List.length (standardized_files mixed_standardized))
            (List.length (processed_files mixed_parsed)))
  /\ standardizing_complete mixed_standardized = true
  /\ processing_complete mixed_standardized = processing_complete mixed_parsed
  /\ db_upload_complete mixed_standardized = db_upload_complete mixed_parsed.
Proof.
  apply (standardize_summary_counts_standardized_files
           (RS := resume_standardizer) mixed_parsed mixed_standardized tt []).
  - reflexivity.
  - vm_compute. reflexivity.
Defined.

Lemma upload_summary_counts_this_run_witness :
  exists uploaded_count,
    last (log mixed_stored)
    = Some (StatusUploaded uploaded_count
              (List.length (standardized_files mixed_standardized)))
    /\ uploaded_count <= List.length (standardized_files mixed_standardized)
    /\ List.length (uploaded_files mixed_stored)
       = List.length (uploaded_files mixed_standardized) + uploaded_count
    /\ db_upload_complete mixed_stored = true.
Proof.
  apply (upload_summary_counts_this_run
           (DB := resume_db) mixed_standardized mixed_stored tt []).
  - reflexivity.
  - vm_compute. reflexivity.
Defined.

Lemma standardizer_constructor_failure_witness :
  let e := Exn ValueError "AZURE_OPENAI_API_KEY is not set" in
  let o := standardize_resumes (RS := keyless_standardizer) after_parse in
  (o = Returned tt (outcome_state o)
   /\ log (outcome_state o)
      = log after_parse ++ [WriteStandardizing 1; ErrorInitStandardizer e])
  /\ standardized_files (outcome_state o) = []
  /\ standardizing_complete (outcome_state o) = false
  /\ processed_files (outcome_state o) = processed_files after_parse
  /\ fs (outcome_state o) = fs after_parse.
Proof.
  exact (standardizer_constructor_failure (RS := keyless_standardizer) after_parse
           (Exn ValueError "AZURE_OPENAI_API_KEY is not set") [] eq_refl).
Defined.

Lemma store_constructor_failure_witness :
  exists s',
    upload_to_mongodb (DB := offline_store) mixed_standardized = Returned tt s'
    /\ log s' = log mixed_standardized
                ++ [ErrorConnecting (Exn OtherException "connection refused")]
    /\ uploaded_files s' = uploaded_files mixed_standardized
    /\ standardized_files s' = standardized_files mixed_standardized
    /\ db_upload_complete s' = false
    /\ fs s' = fs mixed_standardized.
Proof.
  exact (store_constructor_failure (DB := offline_store) mixed_standardized
           (Exn OtherException "connection refused") [] eq_refl).
Defined.

Lemma stages_write_only_their_own_directory_witness :
  fs (outcome_state (process_uploaded_files blank_batch after_standardize))
    !! standardized_path (parsed_path "cv.pdf")
  = fs after_standardize !! standardized_path (parsed_path "cv.pdf")
  /\ fs (outcome_state (standardize_resumes after_parse)) !! temp_path "cv.pdf"
     = fs after_parse !! temp_path "cv.pdf"
  /\ fs (outcome_state (upload_to_mongodb after_standardize)) = fs after_standardize.
Proof.
  destruct (stages_write_only_their_own_directory
              (RP := resume_parser) (RS := resume_standardizer) (DB := resume_db))
    as (Hparse & Hstandardize & Hstore).
  split; [|split].
  - apply Hparse. reflexivity.
  - apply Hstandardize. discriminate.
  - apply Hstore.
Defined.

Lemma every_upload_is_written_to_temp_dir_witness :
  exists g, g ∈ mixed_batch
    /\ upload_name g = "c.pdf"
    /\ fs mixed_parsed !! temp_path "c.pdf" = Some (FRaw (upload_buffer g)).
Proof.
  assert (Hrun : process_uploaded_files mixed_batch (initial_state ([] : world))
                 = Returned tt mixed_parsed) by (vm_compute; reflexivity).
  apply (every_upload_is_written_to_temp_dir mixed_batch (initial_state [])
           mixed_parsed Hrun (Upload "c.pdf" "Ada Lovelace")).
  unfold mixed_batch. right. right. left.
Defined.

Lemma processed_files_are_staged_records_witness :
  exists f m ts,
    f ∈ mixed_batch /\ supported f = true
    /\ parsed_path "c.pdf" = parsed_path (upload_name f)
    /\ fs mixed_parsed !! parsed_path "c.pdf" = Some (FJson (JObj m))
    /\ m !! "original_filename" = Some (JStr (upload_name f))
    /\ m !! "timestamp" = Some (JStr ts).
Proof.
  assert (Hrun : process_uploaded_files mixed_batch (initial_state ([] : world))
                 = Returned tt mixed_parsed) by (vm_compute; reflexivity).
  apply (processed_files_are_staged_records mixed_batch (initial_state [])
           mixed_parsed demo_dump_completes Hrun (parsed_path "c.pdf")).
  vm_compute. right. left.
Defined.

Lemma staging_area_keeps_json_artifacts_witness :
  staged_json mixed_parsed /\ staged_json mixed_standardized
  /\ staged_json mixed_stored.
Proof.
  destruct (staging_area_keeps_json_artifacts
              (RP := resume_parser) (RS := resume_standardizer) (DB := resume_db))
    as (Hparse & Hstandardize & Hstore).
  pose proof (Hparse mixed_batch _ (staged_json_initial_state [])) as H1.
  pose proof (Hstandardize demo_dump_completes _ H1) as H2.
  pose proof (Hstore _ H2) as H3.
  exact (conj H1 (conj H2 H3)).
Defined.

Lemma standardized_files_are_readable_witness :
  readable mixed_standardized (standardized_path (parsed_path "c.pdf")).
Proof.
  assert (Hst : staged_json mixed_parsed).
  { apply (proj1 stage_keeps_staged_json), staged_json_initial_state. }
  assert (Hpo : forall p, p ∈ processed_files mixed_parsed -> parse_output p)
    by apply (lists_invariant_parse mixed_batch (initial_state [])).
  assert (Hrun : standardize_resumes mixed_parsed = Returned tt mixed_standardized)
    by (vm_compute; reflexivity).
  apply (standardized_files_are_readable (RS := resume_standardizer)
           mixed_parsed mixed_standardized demo_dump_completes Hst Hpo Hrun).
  vm_compute. left.
Defined.

Lemma every_standardized_artifact_reaches_the_store_witness :
  exists s2,
    upload_to_mongodb mixed_standardized = Returned tt s2
    /\ uploaded_files s2
       = uploaded_files mixed_standardized
         ++ map path_name (standardized_files mixed_standardized)
    /\ upload_failures (drop (List.length (log mixed_standardized)) (log s2)) = [].
Proof.
  assert (Hst : staged_json mixed_parsed).
  { apply (proj1 stage_keeps_staged_json), staged_json_initial_state. }
  assert (Hpo : forall p, p ∈ processed_files mixed_parsed -> parse_output p)
    by apply (lists_invariant_parse mixed_batch (initial_state [])).
  assert (Hrun : standardize_resumes mixed_parsed = Returned tt mixed_standardized)
    by (vm_compute; reflexivity).
  apply (every_standardized_artifact_reaches_the_store
           (RS := resume_standardizer) (DB := resume_db)
           mixed_parsed mixed_standardized demo_dump_completes Hst Hpo Hrun).
  - intros w. by exists tt, w.
  - intros db v w. eexists. reflexivity.
Defined.

Lemma parse_item_without_content_witness :
  exists s',
    parse_item 1 0 (Upload "e.pdf" EmptyString) 0 (initial_state ([] : world))
    = Returned 0 s'
    /\ log s' = [StatusProcessing 1 1 "e.pdf";
                 CallParseResume (temp_path "e.pdf");
                 WarnNoContent "e.pdf";
                 Progress 1 1]
    /\ processed_files s' = []
    /\ fs s' = <[temp_path "e.pdf" := FRaw EmptyString]> ∅.
Proof.
  destruct (parse_item_without_content (RP := resume_parser) 1 0 0
              (Upload "e.pdf" EmptyString) (initial_state []) tt [] JNull [])
    as (s' & Hrun & Hlog & Hpf & Hfs & _); try reflexivity.
  exists s'. repeat split; assumption.
Defined.

Lemma parse_item_reports_what_the_parser_raises_witness :
  exists s',
    parse_item (RP := picky_parser) 1 0 (Upload "x.pdf" "corrupt") 0
      (initial_state ([] : world))
    = Returned 0 s'
    /\ log s' = [StatusProcessing 1 1 "x.pdf";
                 CallParseResume (temp_path "x.pdf");
                 ErrorParsing "x.pdf" (Exn OtherException "cannot open the document");
                 Progress 1 1]
    /\ processed_files s' = []
    /\ fs s' = <[temp_path "x.pdf" := FRaw "corrupt"]> ∅.
Proof.
  apply (parse_item_reports_what_the_parser_raises (RP := picky_parser) 1 0 0
           (Upload "x.pdf" "corrupt") (initial_state []) tt []
           (Exn OtherException "cannot open the document") []);
    reflexivity.
Defined.

Lemma parse_item_rejects_a_result_that_is_no_object_witness :
  exists s' e,
    parse_item (RP := picky_parser) 1 0 (Upload "y.pdf" "pages") 0
      (initial_state ([] : world))
    = Returned 0 s'
    /\ exn_cls e = TypeError
    /\ log s' = [StatusProcessing 1 1 "y.pdf";
                 CallParseResume (temp_path "y.pdf");
                 ErrorParsing "y.pdf" e;
                 Progress 1 1]
    /\ processed_files s' = []
    /\ fs s' = <[temp_path "y.pdf" := FRaw "pages"]> ∅.
Proof.
  apply (parse_item_rejects_a_result_that_is_no_object (RP := picky_parser) 1 0 0
           (Upload "y.pdf" "pages") (initial_state []) tt []
           (JArr [JStr "page 1"]) []); try reflexivity.
  intros m. discriminate.
Defined.

Lemma standardize_item_treats_a_missing_content_as_empty_witness :
  standardize_item (RS := flaky_standardizer) tt 5 0 (parsed_path "scan.pdf") 0
    fault_parsed
  = Returned 0
      (with_log (log fault_parsed ++ [StatusStandardizing 1 5 "scan.json";
                                      WarnEmptyContent "scan.json"]) fault_parsed).
Proof.
  eapply (standardize_item_treats_a_missing_content_as_empty
            (RS := flaky_standardizer) tt 5 0 (parsed_path "scan.pdf") 0 fault_parsed).
  - vm_compute. reflexivity.
  - reflexivity.
  - vm_compute. reflexivity.
  - vm_compute. reflexivity.
Defined.

Lemma standardize_item_rejects_a_content_that_is_no_string_witness :
  exists e,
    exn_cls e = AttributeError
    /\ standardize_item (RS := flaky_standardizer) tt 5 1 (parsed_path "count.pdf") 0
         fault_parsed
       = Returned 0
           (with_log (log fault_parsed ++ [StatusStandardizing 2 5 "count.json";
                                           ErrorStandardizing "count.json" e;
                                           Progress 2 5]) fault_parsed).
Proof.
  eapply (standardize_item_rejects_a_content_that_is_no_string
            (RS := flaky_standardizer) tt 5 1 (parsed_path "count.pdf") 0 fault_parsed
            _ (JNum 3)).
  - vm_compute. reflexivity.
  - reflexivity.
  - vm_compute. reflexivity.
  - vm_compute. reflexivity.
  - intros t. discriminate.
Defined.

Lemma standardize_item_writes_nothing_when_the_call_fails_witness :
  exists s',
    standardize_item (RS := flaky_standardizer) tt 5 2 (parsed_path "slow.pdf") 0
      fault_parsed
    = Returned 0 s'
    /\ log s' = log fault_parsed
                ++ [StatusStandardizing 3 5 "slow.json";
                    CallMakePrompt (parsed_path "slow.pdf");
                    CallAzureLLM (parsed_path "slow.pdf") "slow";
                    ErrorStandardizing "slow.json"
                      (Exn OtherException "request timed out");
                    Progress 3 5]
    /\ fs s' = fs fault_parsed
    /\ standardized_files s' = standardized_files fault_parsed.
Proof.
  eapply (standardize_item_writes_nothing_when_the_call_fails
            (RS := flaky_standardizer) tt 5 2 (parsed_path "slow.pdf") 0 fault_parsed
            _ "slow" "slow" (Exn OtherException "request timed out") []).
  - vm_compute. reflexivity.
  - reflexivity.
  - vm_compute. reflexivity.
  - vm_compute. reflexivity.
  - reflexivity.
  - reflexivity.
  - reflexivity.
Defined.



Lemma upload_item_reports_what_the_store_raises_witness :
  exists s' v,
    fs mixed_standardized !! standardized_path (parsed_path "c.pdf") = Some (FJson v)
    /\ upload_item (DB := rejecting_store) tt 1 0
         (standardized_path (parsed_path "c.pdf")) 0 mixed_standardized
       = Returned 0 s'
    /\ log s' = log mixed_standardized
                ++ [StatusUploading 1 1 "c.json";
                    CallInsertOrUpdate "c.json" v;
                    ErrorUploading "c.json" (Exn OtherException "document too large");
                    Progress 1 1]
    /\ uploaded_files s' = uploaded_files mixed_standardized
    /\ fs s' = fs mixed_standardized.
Proof.
  assert (Hv : exists v,
             fs mixed_standardized !! standardized_path (parsed_path "c.pdf")
             = Some (FJson v)).
  { eexists. vm_compute. reflexivity. }
  destruct Hv as (v & Hv).
  destruct (upload_item_reports_what_the_store_raises
              (DB := rejecting_store) tt 1 0
              (standardized_path (parsed_path "c.pdf")) 0 mixed_standardized
              v (Exn OtherException "document too large") [])
    as (s' & Hrun & Hrest); try reflexivity; try assumption.
  exists s', v. split; [assumption|]. split; assumption.
Defined.

Lemma store_attempts_every_readable_artifact_witness :
  exists s' evs,
    upload_to_mongodb mixed_standardized = Returned tt s'
    /\ log s' = log mixed_standardized ++ evs
    /\ upsert_calls evs = map path_name (standardized_files mixed_standardized).
Proof.
  apply (store_attempts_every_readable_artifact (DB := resume_db)
           mixed_standardized tt []).
  - reflexivity.
  - intros p Hp.
    assert (Hst : staged_json mixed_parsed).
    { apply (proj1 stage_keeps_staged_json), staged_json_initial_state. }
    assert (Hpo : forall q, q ∈ processed_files mixed_parsed -> parse_output q)
      by apply (lists_invariant_parse mixed_batch (initial_state [])).
    assert (Hrun : standardize_resumes mixed_parsed = Returned tt mixed_standardized)
      by (vm_compute; reflexivity).
    exact (standardize_resumes_leaves_readable (RS := resume_standardizer)
             mixed_parsed mixed_standardized demo_dump_completes Hst Hpo Hrun p Hp).
Defined.

Lemma track_uploads_resets_on_a_changed_set_of_names_witness :
  let ps := PageSession (initial_state ([] : world)) ["b.pdf"; "a.pdf"] in
  track_uploads [] ps = ps
  /\ track_uploads [Upload "a.pdf" "x"; Upload "b.pdf" "y"] ps = ps
  /\ track_uploads [Upload "a.pdf" "x"] ps
     = PageSession (reset_session (stages ps)) ["a.pdf"].
Proof.
  intros ps. split; [|split].
  - apply (track_uploads_resets_on_a_changed_set_of_names [] ps). by left.
  - apply (track_uploads_resets_on_a_changed_set_of_names
             [Upload "a.pdf" "x"; Upload "b.pdf" "y"] ps).
    right. apply Permutation_swap.
  - apply (track_uploads_resets_on_a_changed_set_of_names [Upload "a.pdf" "x"] ps).
    + discriminate.
    + intros H. apply Permutation_length in H. discriminate.
Defined.

Lemma store_button_offers_artifacts_of_the_current_parse_witness :
  button_enabled first_batch StandardizeButton (stages after_two_buttons) = true
  /\ exists mask,
       List.length mask = List.length (processed_files (stages after_two_buttons))
       /\ standardized_files (stages after_two_buttons)
          = map standardized_path
              (select mask (processed_files (stages after_two_buttons))).
Proof.
  apply (store_button_offers_artifacts_of_the_current_parse first_visit
           after_two_buttons first_batch).
  - by repeat split.
  - apply reachable_rerun, reachable_rerun, reachable_start.
  - vm_compute. reflexivity.
Defined.

Lemma status_panel_is_consistent_witness :
  exists n, ParsedFiles 1 = ParsedFiles n /\ 1 <= n
            /\ (ReadyToUpload = ReadyToUpload \/ exists u, ReadyToUpload = UploadedFiles u).
Proof.
  apply (status_panel_is_consistent first_visit after_two_buttons).
  - by repeat split.
  - apply reachable_rerun, reachable_rerun, reachable_start.
  - vm_compute. reflexivity.
Defined.

Lemma preview_opens_every_option_witness :
  exists resume_data,
    read_json (preview_path "cv.json") (stages after_two_buttons)
    = Returned resume_data (stages after_two_buttons).
Proof.
  apply (preview_opens_every_option first_visit after_two_buttons "cv.json").
  - apply demo_dump_completes.
  - by repeat split.
  - apply staged_json_initial_state.
  - apply reachable_rerun, reachable_rerun, reachable_start.
  - vm_compute. left.
Defined.

Lemma parse_item_reports_a_failed_dump_witness :
  exists s',
    parse_item (RT := Surrogate.surrogate_runtime) (RP := surrogate_parser)
      1 0 (Upload "cv.pdf" "x") 0 (initial_state ([] : world))
    = Returned 0 s'
    /\ log s' = [StatusProcessing 1 1 "cv.pdf";
                 CallParseResume (temp_path "cv.pdf");
                 ErrorParsing "cv.pdf" Surrogate.encode_error;
                 Progress 1 1]
    /\ processed_files s' = []
    /\ fs s' = <[parsed_path "cv.pdf" := FRaw Surrogate.dump_prefix]>
                 (<[temp_path "cv.pdf" := FRaw "x"]> ∅).
Proof.
  apply (parse_item_reports_a_failed_dump
           (RT := Surrogate.surrogate_runtime) (RP := surrogate_parser)
           1 0 0 (Upload "cv.pdf" "x") (initial_state []) tt []
           (<["name" := JStr Surrogate.lone_surrogate]>
              (<["content" := JStr "Ada Lovelace"]> ∅))
           [] "2025-01-01T00:00:00" [] Surrogate.encode_error Surrogate.dump_prefix);
    reflexivity.
Defined.
